(** * Deployment progress tracker of the tekton dashboard

  A shallow embedding of the polling and caching logic of the dashboard:

  - [ProjectContext] : the provider of [context/ProjectContext]
    ([getProjectById], [fetchProjects], [updateProjectStatus],
    [deleteProject]);
  - [LogViewer] : the effect of [components/LogViewer.jsx]
    ([fetchLogs], the 5000 ms interval, its clean-up, and the runs of
    the effect that a render of the provider causes);
  - [DeploymentModal] : [fetchDeploymentStatus] and the adaptive polling
    effect of the deployment modal;
  - [Deployments] : [createProject] and [rebuildProject] of the provider;
  - [Dashboard], [ProjectDetails], [ProjectCard], [DeployForm] : the
    status colours, the loading effect, the deletion handler and the log
    section of the project page, the submission of a new project;
  - [LogViewerView], [DeploymentModalView] : what the viewer and the
    modal render, and the start effect of the modal.

  Asynchronous functions are split at their [await]s: one transition
  runs a function up to the point where it suspends on a network
  request, another one resumes it with the settlement of that request.
  Component state, refs, the browser's timer table and the requests that
  were sent are fields of an explicit state record. *)

From Stdlib Require Import String Ascii List Bool Arith NArith Lia.
From stdpp Require Import base option list gmap strings.
Import ListNotations.

Local Open Scope string_scope.
Local Open Scope list_scope.

(** ** JavaScript values *)

Module Js.

(** [s.toLowerCase()] on the ASCII range. *)
Definition lower_ascii (c : ascii) : ascii :=
  let n := nat_of_ascii c in
  if ((65 <=? n)%nat && (n <=? 90)%nat)%bool then ascii_of_nat (n + 32) else c.

Fixpoint toLowerCase (s : string) : string :=
  match s with
  | EmptyString => EmptyString
  | String c s' => String (lower_ascii c) (toLowerCase s')
  end.

(** [hay.includes(needle)]. *)
Fixpoint includes (hay needle : string) : bool :=
  String.prefix needle hay
  || match hay with
     | EmptyString => false
     | String _ hay' => includes hay' needle
     end.

(** Truthiness of a value that is a string, [undefined] or [null]. *)
Definition truthy (v : option string) : bool :=
  match v with
  | Some s => negb (String.eqb s "")
  | None => false
  end.

(** [a || b] on such values. *)
Definition or_else (a b : option string) : option string :=
  if truthy a then a else b.

(** [a || "literal"]. *)
Definition or_default (a : option string) (d : string) : string :=
  match a with
  | Some s => if String.eqb s "" then d else s
  | None => d
  end.

(** The names every plain object inherits from [Object.prototype]: a
    read [obj[name]] finds them, with a truthy value, also when [obj] has
    no such property of its own. *)
Definition objectPrototypeMembers : list string :=
  ["constructor"; "hasOwnProperty"; "isPrototypeOf"; "propertyIsEnumerable";
   "toLocaleString"; "toString"; "valueOf"; "__proto__";
   "__defineGetter__"; "__defineSetter__"; "__lookupGetter__"; "__lookupSetter__"].

Definition inherited (name : string) : bool :=
  existsb (String.eqb name) objectPrototypeMembers.
Arguments inherited : simpl never.

End Js.

(** ** Log entries and the two terminal-state detectors *)

Module Logs.

(** [{ timestamp, level?, message | log }] *)
Record LogEntry := mkLog {
  timestamp : string;
  level : option string;
  message : option string;
  log : option string
}.

(** LogViewer.jsx, [fetchLogs]:
    [(log.message || log.log || "").toLowerCase()] *)
Definition messageText (l : LogEntry) : string :=
  Js.toLowerCase (Js.or_default (Js.or_else (message l) (log l)) "").

(** LogViewer.jsx, [isDone]. *)
Definition isDone (newLogs : list LogEntry) : bool :=
  existsb (fun l =>
             let m := messageText l in
             Js.includes m "done" || Js.includes m "completed successfully")
          newLogs.

(** [field?.toLowerCase().includes("done")]; [undefined] is falsy. *)
Definition fieldHasDone (field : option string) : bool :=
  match field with
  | Some s => Js.includes (Js.toLowerCase s) "done"
  | None => false
  end.

(** DeploymentModal, [hasDoneLog]. *)
Definition hasDoneLog (newLogs : list LogEntry) : bool :=
  existsb (fun l => fieldHasDone (message l) || fieldHasDone (log l)) newLogs.

Definition entry (msg : string) : LogEntry :=
  mkLog "2025-01-01T00:00:00Z" None (Some msg) None.

End Logs.

(** ** Network and promises *)

Module Net.

(** A thrown value: [err.message] and [axios.isCancel(err)]. *)
Record Error := mkError {
  err_message : option string;
  isCancel : bool
}.

(** The body of every response: [{ status, message?, data }]. *)
Record Envelope (A : Type) := mkEnvelope {
  status : string;
  message : option string;
  data : A
}.
Arguments mkEnvelope {A} _ _ _.
Arguments status {A} _.
Arguments message {A} _.
Arguments data {A} _.

(** How an axios request settles. *)
Inductive Reply (A : Type) :=
| Response (r : Envelope A)
| Failure (e : Error).
Arguments Response {A} _.
Arguments Failure {A} _.

(** How a promise settles. *)
Inductive Settled (A : Type) :=
| Resolved (v : A)
| Rejected (e : Error).
Arguments Resolved {A} _.
Arguments Rejected {A} _.

(** [new Error(message || fallback)] *)
Definition newError (msg : option string) (fallback : string) : Error :=
  mkError (Some (Js.or_default msg fallback)) false.

(** The rejection of a request cancelled through its cancel token. *)
Definition cancelled (reason : string) : Error := mkError (Some reason) true.

Definition isSuccess {A} (r : Envelope A) : bool := String.eqb (status r) "success".

End Net.

(** ** context/ProjectContext: the provider *)

Module ProjectContext.
Import Net.

Record Deployment := mkDeployment {
  dep_id : option string;
  dep_status : option string;
  dep_createdAt : option string;
  dep_updatedAt : option string
}.

Record Project := mkProject {
  prj_id : string;
  prj_name : string;
  prj_gitUrl : string;
  prj_domain : string;
  (* [None] when the project object has no [deployments] field *)
  prj_deployments : option (list Deployment)
}.

Inductive Request :=
| GetProject (projectId : string) (promise source : nat)
| GetProjects (token : string)
| DeleteProject (projectId : string).

Inductive PromiseState :=
| Pending
| Done (o : Settled Project).

Record State := mkState {
  projects : list Project;
  isLoading : bool;
  error : option string;
  loadingRef : gmap string nat;        (* loadingRef.current: id -> promise *)
  promises : gmap nat PromiseState;
  axiosCancelTokens : list nat;        (* window.axiosCancelTokens, by source *)
  token : option string;               (* localStorage.getItem("token") *)
  requests : list Request;             (* requests sent so far, oldest first *)
  nextId : nat                         (* fresh promise and source names *)
}.

Definition set_projects (f : list Project -> list Project) (s : State) : State :=
  mkState (f (projects s)) (isLoading s) (error s) (loadingRef s) (promises s)
          (axiosCancelTokens s) (token s) (requests s) (nextId s).
Definition set_isLoading (b : bool) (s : State) : State :=
  mkState (projects s) b (error s) (loadingRef s) (promises s)
          (axiosCancelTokens s) (token s) (requests s) (nextId s).
Definition set_error (e : option string) (s : State) : State :=
  mkState (projects s) (isLoading s) e (loadingRef s) (promises s)
          (axiosCancelTokens s) (token s) (requests s) (nextId s).
Definition set_loadingRef (f : gmap string nat -> gmap string nat) (s : State) : State :=
  mkState (projects s) (isLoading s) (error s) (f (loadingRef s)) (promises s)
          (axiosCancelTokens s) (token s) (requests s) (nextId s).
Definition set_promise (p : nat) (v : PromiseState) (s : State) : State :=
  mkState (projects s) (isLoading s) (error s) (loadingRef s) (<[p := v]> (promises s))
          (axiosCancelTokens s) (token s) (requests s) (nextId s).
Definition set_cancelTokens (f : list nat -> list nat) (s : State) : State :=
  mkState (projects s) (isLoading s) (error s) (loadingRef s) (promises s)
          (f (axiosCancelTokens s)) (token s) (requests s) (nextId s).
Definition send (r : Request) (s : State) : State :=
  mkState (projects s) (isLoading s) (error s) (loadingRef s) (promises s)
          (axiosCancelTokens s) (token s) (requests s ++ [r]) (nextId s).
Definition fresh (s : State) : nat * State :=
  (nextId s,
   mkState (projects s) (isLoading s) (error s) (loadingRef s) (promises s)
           (axiosCancelTokens s) (token s) (requests s) (S (nextId s))).

Definition hasId (projectId : string) (p : Project) : bool :=
  String.eqb (prj_id p) projectId.

(** *** getProjectById *)

(** What a call of [getProjectById] resolves to: a project, [null], or a
    member of [Object.prototype]. *)
Inductive Value :=
| Entity (project : Project)
| Null
| Member (name : string).

(** What a caller of [getProjectById] is left with when the call reaches
    its first suspension: the caller that started the work awaits the
    stored promise inside [try]/[catch]/[finally]; a caller that found an
    entry in [loadingRef] returned that very promise; a caller whose id
    names a member of [Object.prototype] returned that member, which
    [loadingRef.current[projectId]] finds in an object without such an
    entry. *)
Inductive Caller :=
| Owner (promise source : nat)
| Adopted (promise : nat)
| Inherits (name : string).

Definition callerPromise (c : Caller) : option nat :=
  match c with
  | Owner p _ => Some p
  | Adopted p => Some p
  | Inherits _ => None
  end.

(** [getProjectById(projectId)] up to its first suspension. *)
Definition getProjectById (projectId : string) (s : State) : State * Caller :=
  let '(source, s) := fresh s in
  let s := set_cancelTokens (fun l => l ++ [source]) s in
  match loadingRef s !! projectId with
  | Some p => (s, Adopted p)
  | None =>
      if Js.inherited projectId then (s, Inherits projectId)
      else
        let s := set_isLoading true s in
        let '(p, s) := fresh s in
        let s :=
          match find (hasId projectId) (projects s) with
          | Some cachedProject => set_promise p (Done (Resolved cachedProject)) s
          | None => set_promise p Pending (send (GetProject projectId p source) s)
          end in
        (set_loadingRef (fun m => <[projectId := p]> m) s, Owner p source)
  end.

(** The [setProjects] updater of [getProjectById]. *)
Definition upsert (projectId : string) (projectData : Project)
    (prevProjects : list Project) : list Project :=
  if existsb (hasId projectId) prevProjects
  then map (fun p => if hasId projectId p then projectData else p) prevProjects
  else prevProjects ++ [projectData].

(** What the stored promise settles to when the request settles with [o]. *)
Definition fetchResult (o : Reply Project) : Settled Project :=
  match o with
  | Response r =>
      if isSuccess r then Resolved (data r)
      else Rejected (newError (message r) "Failed to fetch project")
  | Failure e => Rejected e
  end.

(** The rest of the inner async function, after [await axios.get]. *)
Definition fetchSettles (projectId : string) (p : nat) (o : Reply Project)
    (s : State) : State :=
  let s :=
    match fetchResult o with
    | Resolved projectData => set_projects (upsert projectId projectData) s
    | Rejected _ => s
    end in
  set_promise p (Done (fetchResult o)) s.

(** The [finally] block of [getProjectById]. *)
Definition getProjectById_finally (projectId : string) (source : nat)
    (s : State) : State :=
  let s := set_isLoading false s in
  let s := set_loadingRef (fun m => delete projectId m) s in
  set_cancelTokens (filter (fun c => c <> source)) s.

(** What a caller receives once the stored promise has settled with
    [po]; a caller that returned a member of [Object.prototype] has
    received that member. *)
Definition receive (projectId : string) (c : Caller) (po : Settled Project)
    (s : State) : State * Settled Value :=
  match c with
  | Inherits name => (s, Resolved (Member name))
  | Adopted _ =>
      (s, match po with
          | Resolved v => Resolved (Entity v)
          | Rejected e => Rejected e
          end)
  | Owner _ source =>
      match po with
      | Resolved result =>
          (getProjectById_finally projectId source s, Resolved (Entity result))
      | Rejected err =>
          if isCancel err
          then (getProjectById_finally projectId source s, Resolved Null)
          else
            let s := set_error (Some (Js.or_default (err_message err)
                                        "Failed to fetch project")) s in
            (getProjectById_finally projectId source s, Rejected err)
      end
  end.

(** [n] calls for the same id, none of them separated by a settlement. *)
Fixpoint concurrentCalls (n : nat) (projectId : string) (s : State)
    : State * list Caller :=
  match n with
  | 0 => (s, [])
  | S n' =>
      let '(s, c) := getProjectById projectId s in
      let '(s, cs) := concurrentCalls n' projectId s in
      (s, c :: cs)
  end.

(** A caller resumes once the promise it waits for has settled; a caller
    that waits for no promise has its value at once. *)
Definition resume (projectId : string) (c : Caller) (s : State)
    : option (State * Settled Value) :=
  match callerPromise c with
  | Some p =>
      match promises s !! p with
      | Some (Done po) => Some (receive projectId c po s)
      | _ => None
      end
  | None =>
      match c with
      | Inherits name => Some (s, Resolved (Member name))
      | _ => None
      end
  end.

(** All callers resume, in call order. *)
Fixpoint resumeAll (projectId : string) (cs : list Caller) (s : State)
    : option (State * list (Settled Value)) :=
  match cs with
  | [] => Some (s, [])
  | c :: cs' =>
      match resume projectId c s with
      | Some (s, r) =>
          match resumeAll projectId cs' s with
          | Some (s, rs) => Some (s, r :: rs)
          | None => None
          end
      | None => None
      end
  end.

(** The request sent last, if it is a project request. *)
Definition lastProjectRequest (s : State) : option (string * nat) :=
  match last (requests s) with
  | Some (GetProject projectId p _) => Some (projectId, p)
  | _ => None
  end.

(** [n] concurrent calls for [projectId]; then the request that was sent
    last settles with [o]; then every caller resumes. The result lists
    what each caller received, in call order. *)
Definition concurrentScenario (n : nat) (projectId : string) (o : Reply Project)
    (s : State) : option (State * list (Settled Value)) :=
  let '(s, cs) := concurrentCalls n projectId s in
  match lastProjectRequest s with
  | Some (requested, p) => resumeAll projectId cs (fetchSettles requested p o s)
  | None => None
  end.

(** The settlement of the stored promise, as a caller would receive it
    unchanged. *)
Definition asReceived (po : Settled Project) : Settled Value :=
  match po with
  | Resolved v => Resolved (Entity v)
  | Rejected e => Rejected e
  end.

(** The request was cancelled through its cancel token. *)
Definition wasCancelled (o : Reply Project) : bool :=
  match fetchResult o with
  | Resolved _ => false
  | Rejected e => isCancel e
  end.

(** The provider before anything was loaded. *)
Definition initial (token : option string) : State :=
  mkState [] false None ∅ ∅ [] token [] 0.

Definition demoProject : Project :=
  mkProject "p1" "demo" "https://example.org/demo.git" "demo" None.
Definition demoReply : Reply Project :=
  Response (mkEnvelope "success" None demoProject).

(** A project whose latest deployment is running and was never updated. *)
Definition runningProject : Project :=
  mkProject "p1" "demo" "https://example.org/demo.git" "demo"
    (Some [mkDeployment (Some "d1") (Some "running") (Some "2025-01-01T00:00:00Z") None]).

(** The property as specified: each of the [n] concurrent callers
    receives the settlement of the single request. *)
Definition everyCallerReceivesFetchResult (n : nat) (projectId : string)
    (o : Reply Project) (s : State) : Prop :=
  exists s' results,
    concurrentScenario n projectId o s = Some (s', results)
    /\ length results = n
    /\ Forall (fun r => r = asReceived (fetchResult o)) results.

(** *** fetchProjects *)

(** A call either returned before any [await] or is suspended on a
    request. *)
Inductive Started (A : Type) :=
| Returned (v : A)
| Suspended.
Arguments Returned {A} _.
Arguments Suspended {A}.

(** [fetchProjects()] up to its first suspension. *)
Definition fetchProjects (s : State) : State * Started (list Project) :=
  if negb (Js.truthy (token s)) then (s, Returned [])
  else
    let s := set_isLoading true s in
    (send (GetProjects (Js.or_default (token s) "")) s, Suspended).

(** The rest of [fetchProjects], after [await axios.get]. *)
Definition fetchProjects_settles (o : Reply (list Project)) (s : State)
    : State * Settled (list Project) :=
  let thrown err :=
    (set_isLoading false (set_error (err_message err) s), Rejected err) in
  match o with
  | Response r =>
      if isSuccess r
      then (set_isLoading false (set_projects (fun _ => data r) s), Resolved (data r))
      else thrown (newError (message r) "Failed to fetch projects")
  | Failure e => thrown e
  end.

(** *** updateProjectStatus *)

(** [{ ...deployment, status }] *)
Definition withStatus (status : string) (d : Deployment) : Deployment :=
  mkDeployment (dep_id d) (Some status) (dep_createdAt d) (dep_updatedAt d).

(** [{ status }] *)
Definition onlyStatus (status : string) : Deployment :=
  mkDeployment None (Some status) None None.

(** The [deployments] array built by [updateProjectStatus]. *)
Definition statusDeployments (status : string) (ds : option (list Deployment))
    : list Deployment :=
  match ds with
  | Some (d0 :: rest) => withStatus status d0 :: rest
  | Some [] => [onlyStatus status]       (* [{ ...undefined, status }] *)
  | None => [onlyStatus status]
  end.

Definition withDeployments (ds : list Deployment) (p : Project) : Project :=
  mkProject (prj_id p) (prj_name p) (prj_gitUrl p) (prj_domain p) (Some ds).

(** The [setProjects] updater of [updateProjectStatus]. *)
Definition statusUpdater (projectId status : string) (prevProjects : list Project)
    : list Project :=
  map (fun project =>
         if hasId projectId project
         then withDeployments (statusDeployments status (prj_deployments project)) project
         else project)
      prevProjects.

Definition updateProjectStatus (projectId status : string) (s : State)
    : State * bool :=
  (set_projects (statusUpdater projectId status) s, true).

(** *** deleteProject *)

(** [deleteProject(projectId)] up to its [await]. *)
Definition deleteProject (projectId : string) (s : State) : State :=
  send (DeleteProject projectId) (set_isLoading true s).

(** The rest of [deleteProject], after [await axios.delete]. *)
Definition deleteProject_settles (projectId : string) (o : Reply unit) (s : State)
    : State * Settled bool :=
  let thrown err :=
    (set_isLoading false
       (set_error (Some (Js.or_default (err_message err) "Failed to delete project")) s),
     Rejected err) in
  match o with
  | Response r =>
      if isSuccess r
      then
        let s := set_projects (filter (fun p => prj_id p <> projectId)) s in
        let s := set_loadingRef (fun m => delete projectId m) s in
        (set_isLoading false s, Resolved true)
      else thrown (newError (message r) "Failed to delete project")
  | Failure e => thrown e
  end.

(** The server answered and said "success". *)
Definition succeeded {A} (o : Reply A) : bool :=
  match o with
  | Response r => isSuccess r
  | Failure _ => false
  end.

(** A whole call whose request settles with [o] before anything else runs. *)
Definition deleteProject_run (projectId : string) (o : Reply unit) (s : State)
    : State * Settled bool :=
  deleteProject_settles projectId o (deleteProject projectId s).

End ProjectContext.

(** ** The browser's interval timers *)

Module Timers.

(** A live interval: its handle, its period in milliseconds and the
    callback it runs (a closure, of type [C]). *)
Record Timer (C : Type) := mkTimer {
  handle : nat;
  period : N;
  callback : C
}.
Arguments mkTimer {C} _ _ _.
Arguments handle {C} _.
Arguments period {C} _.
Arguments callback {C} _.

(** [clearInterval(h)] *)
Definition clearInterval {C} (h : nat) (ts : list (Timer C)) : list (Timer C) :=
  filter (fun t => handle t <> h) ts.

(** The timer a handle names, if it is still live. *)
Definition lookupTimer {C} (h : nat) (ts : list (Timer C)) : option (Timer C) :=
  find (fun t => Nat.eqb (handle t) h) ts.

End Timers.

(** ** components/LogViewer.jsx *)

Module LogViewer.
Import Net Logs Timers.

(** [data.logs] of a [/logs/{deploymentId}] response; [None] when the
    field is absent. *)
Definition LogsReply := Reply (option (list LogEntry)).

Record State := mkState {
  (* props *)
  deploymentId : option string;
  projectId : option string;
  (* useState *)
  logs : list LogEntry;
  isLoading : bool;
  error : option string;
  pollingActive : bool;
  (* useRef *)
  pollingRef : option nat;
  doneDetectedRef : bool;
  (* the environment *)
  timers : list (Timer unit);          (* live intervals running [fetchLogs] *)
  nextHandle : nat;
  inFlight : list nat;                 (* requests awaiting their response *)
  sent : nat;                          (* requests sent so far *)
  statusCalls : list (string * string);(* calls of [updateProjectStatus] *)
  context : ProjectContext.State;
  mounted : bool                       (* the component is in the tree *)
}.

Definition set_logs (v : list LogEntry) (s : State) : State :=
  mkState (deploymentId s) (projectId s) v (isLoading s) (error s) (pollingActive s)
          (pollingRef s) (doneDetectedRef s) (timers s) (nextHandle s) (inFlight s)
          (sent s) (statusCalls s) (context s) (mounted s).
Definition set_isLoading (v : bool) (s : State) : State :=
  mkState (deploymentId s) (projectId s) (logs s) v (error s) (pollingActive s)
          (pollingRef s) (doneDetectedRef s) (timers s) (nextHandle s) (inFlight s)
          (sent s) (statusCalls s) (context s) (mounted s).
Definition set_error (v : option string) (s : State) : State :=
  mkState (deploymentId s) (projectId s) (logs s) (isLoading s) v (pollingActive s)
          (pollingRef s) (doneDetectedRef s) (timers s) (nextHandle s) (inFlight s)
          (sent s) (statusCalls s) (context s) (mounted s).
Definition set_pollingActive (v : bool) (s : State) : State :=
  mkState (deploymentId s) (projectId s) (logs s) (isLoading s) (error s) v
          (pollingRef s) (doneDetectedRef s) (timers s) (nextHandle s) (inFlight s)
          (sent s) (statusCalls s) (context s) (mounted s).
Definition set_pollingRef (v : option nat) (s : State) : State :=
  mkState (deploymentId s) (projectId s) (logs s) (isLoading s) (error s) (pollingActive s)
          v (doneDetectedRef s) (timers s) (nextHandle s) (inFlight s)
          (sent s) (statusCalls s) (context s) (mounted s).
Definition set_doneDetectedRef (v : bool) (s : State) : State :=
  mkState (deploymentId s) (projectId s) (logs s) (isLoading s) (error s) (pollingActive s)
          (pollingRef s) v (timers s) (nextHandle s) (inFlight s)
          (sent s) (statusCalls s) (context s) (mounted s).
Definition set_timers (v : list (Timer unit)) (s : State) : State :=
  mkState (deploymentId s) (projectId s) (logs s) (isLoading s) (error s) (pollingActive s)
          (pollingRef s) (doneDetectedRef s) v (nextHandle s) (inFlight s)
          (sent s) (statusCalls s) (context s) (mounted s).
Definition set_inFlight (v : list nat) (s : State) : State :=
  mkState (deploymentId s) (projectId s) (logs s) (isLoading s) (error s) (pollingActive s)
          (pollingRef s) (doneDetectedRef s) (timers s) (nextHandle s) v
          (sent s) (statusCalls s) (context s) (mounted s).
Definition set_mounted (v : bool) (s : State) : State :=
  mkState (deploymentId s) (projectId s) (logs s) (isLoading s) (error s) (pollingActive s)
          (pollingRef s) (doneDetectedRef s) (timers s) (nextHandle s) (inFlight s)
          (sent s) (statusCalls s) (context s) v.

(** [clearInterval(pollingRef.current); pollingRef.current = null], under
    [if (pollingRef.current)]. *)
Definition stopPolling (s : State) : State :=
  match pollingRef s with
  | Some h => set_pollingRef None (set_timers (clearInterval h (timers s)) s)
  | None => s
  end.

(** [pollingRef.current = setInterval(fetchLogs, 5000)] *)
Definition startPolling (s : State) : State :=
  let h := nextHandle s in
  mkState (deploymentId s) (projectId s) (logs s) (isLoading s) (error s) (pollingActive s)
          (Some h) (doneDetectedRef s) (timers s ++ [mkTimer h 5000%N tt]) (S h)
          (inFlight s) (sent s) (statusCalls s) (context s) (mounted s).

(** [fetchLogs()] up to [await axios.get]: the request leaves. *)
Definition fetchLogs (s : State) : State :=
  mkState (deploymentId s) (projectId s) (logs s) (isLoading s) (error s) (pollingActive s)
          (pollingRef s) (doneDetectedRef s) (timers s) (nextHandle s)
          (inFlight s ++ [sent s]) (S (sent s)) (statusCalls s) (context s) (mounted s).

(** [updateProjectStatus(projectId, "success")], on the provider. *)
Definition callUpdateProjectStatus (pid status : string) (s : State) : State :=
  mkState (deploymentId s) (projectId s) (logs s) (isLoading s) (error s) (pollingActive s)
          (pollingRef s) (doneDetectedRef s) (timers s) (nextHandle s) (inFlight s)
          (sent s) (statusCalls s ++ [(pid, status)])
          (fst (ProjectContext.updateProjectStatus pid status (context s))) (mounted s).

(** The branch taken on [isDone && !doneDetectedRef.current && projectId]. *)
Definition onDone (pid : string) (s : State) : State :=
  let s := set_doneDetectedRef true s in
  let s := set_pollingActive false s in
  let s := callUpdateProjectStatus pid "success" s in
  stopPolling s.

(** The [catch] block of [fetchLogs]. *)
Definition onError (err : Error) (s : State) : State :=
  let msg := String.append "Failed to fetch logs: "
                           (default "undefined" (err_message err)) in
  set_isLoading false (set_error (Some msg) s).

(** The rest of [fetchLogs], after [await axios.get]. *)
Definition fetchLogs_settles (o : LogsReply) (s : State) : State :=
  match o with
  | Response r =>
      if isSuccess r then
        let newLogs := default [] (data r) in
        let s := set_logs newLogs s in
        let s :=
          if isDone newLogs && negb (doneDetectedRef s) && Js.truthy (projectId s)
          then onDone (Js.or_default (projectId s) "") s
          else s in
        set_isLoading false s
      else onError (newError (Net.message r) "Failed to fetch logs") s
  | Failure e => onError e s
  end.

(** The set-up of the effect: the early return without a deployment id,
    else the first [fetchLogs()] and the interval. *)
Definition setup (s : State) : State :=
  if negb (Js.truthy (deploymentId s)) then set_isLoading false s
  else startPolling (fetchLogs s).

(** The first render and the first run of the effect. *)
Definition mount (deploymentId projectId : option string)
    (ctx : ProjectContext.State) : State :=
  let s := mkState deploymentId projectId [] true None true None false
                   [] 1 [] 0 [] ctx true in
  if negb (Js.truthy deploymentId) then set_isLoading false s
  else startPolling (fetchLogs s).

(** The clean-up of the effect. *)
Definition cleanup (s : State) : State := stopPolling s.

(** The effect runs again. [updateProjectStatus] is one of its
    dependencies and is a new function after every render of the
    provider, so whenever the provider renders, the effect of a viewer
    that is still in the tree is cleaned up and set up again. *)
Definition rerun (s : State) : State :=
  if mounted s then setup (cleanup s) else s.

(** The reply is a successful response whose logs carry a marker. *)
Definition carriesMarker (o : LogsReply) : bool :=
  match o with
  | Response r => isSuccess r && isDone (default [] (data r))
  | Failure _ => false
  end.

(** The reply makes [fetchLogs] take its completion branch. *)
Definition completes (o : LogsReply) (s : State) : bool :=
  carriesMarker o && negb (doneDetectedRef s) && Js.truthy (projectId s).

(** What can happen to a viewer. *)
Inductive Event :=
| Fire (h : nat)                       (* the interval [h] is due *)
| Settle (req : nat) (o : LogsReply)   (* request [req] settles *)
| Rerun                                (* the provider rendered *)
| Unmount.

(** The completion branch calls [updateProjectStatus], whose
    [setProjects] renders the provider: the effect runs again before
    anything else happens. *)
Definition step (e : Event) (s : State) : State :=
  match e with
  | Fire h =>
      match lookupTimer h (timers s) with
      | Some _ => fetchLogs s
      | None => s
      end
  | Settle req o =>
      if bool_decide (req ∈ inFlight s)
      then
        let s0 := set_inFlight (filter (fun r => r <> req) (inFlight s)) s in
        let s1 := fetchLogs_settles o s0 in
        if completes o s0 then rerun s1 else s1
      else s
  | Rerun => rerun s
  | Unmount => set_mounted false (cleanup s)
  end.

Definition run (es : list Event) (s : State) : State :=
  fold_left (fun s e => step e s) es s.

(** The viewer holds no interval. *)
Definition stopped (s : State) : Prop := pollingRef s = None.

(** The live intervals are exactly the one the viewer holds. *)
Definition consistent (s : State) : Prop :=
  timers s = match pollingRef s with
             | Some h => [mkTimer h 5000%N tt]
             | None => []
             end.

(** How the interval ref stands to the component: the live intervals are
    the one it names, whose handle was given out before; it is empty once
    the component has left the tree and when there is no deployment id;
    it is set in a component that is in the tree and has one. *)
Definition wired (s : State) : Prop :=
  consistent s
  /\ (forall h, pollingRef s = Some h -> h < nextHandle s)
  /\ (mounted s = false -> pollingRef s = None)
  /\ (Js.truthy (deploymentId s) = false -> pollingRef s = None)
  /\ (mounted s = true -> Js.truthy (deploymentId s) = true -> is_Some (pollingRef s)).

(** The event is the arrival of a reply that carries a marker. *)
Definition markerEvent (e : Event) : bool :=
  match e with
  | Settle _ o => carriesMarker o
  | _ => false
  end.

(** A successful [/logs] response with the given messages. *)
Definition logsReply (msgs : list string) : LogsReply :=
  Response (mkEnvelope "success" None (Some (map entry msgs))).

Definition doneReply : LogsReply := logsReply ["Building..."; "Done"].

(** The first response and then [n] uneventful ticks of interval [1]:
    every response brings the same single entry. *)
Definition quietTicks (n : nat) : list Event :=
  Settle 0 (logsReply ["Building..."])
  :: concat (map (fun i => [Fire 1; Settle i (logsReply ["Building..."])]) (seq 1 n)).

(** The periods of the live intervals. *)
Definition periods (s : State) : list N := map period (timers s).

End LogViewer.

(** ** The deployment modal *)

Module DeploymentModal.
Import Net Logs Timers.

(** [data] of a [/project/{id}/status] response. *)
Record StatusData := mkStatusData {
  currentStatus : string;
  latestDeploymentId : option string     (* [latestDeployment?.id] *)
}.

Definition StatusReply := Reply StatusData.
(** [data?.logs] of a [/logs/{deploymentId}] response. *)
Definition LogsReply := Reply (option (list LogEntry)).

(** [fetchDeploymentStatus] is re-created by every render and closes over
    that render's state; an interval keeps the closure it was given. *)
Record Closure := mkClosure {
  cl_deploymentStatus : string;
  cl_currentDeploymentId : option string
}.

Inductive Request :=
| GetStatus (req : nat)
| GetLogs (req : nat) (logsDeploymentId : string).

Record State := mkState {
  (* props *)
  hasOnComplete : bool;                  (* [onComplete] was passed *)
  (* useState *)
  logs : list LogEntry;
  deploymentStatus : string;
  error : option string;
  lastLogCount : nat;
  pollCount : nat;
  currentDeploymentId : option string;
  deploymentFinished : bool;
  (* useRef *)
  pollingInterval : option nat;
  projectRefreshed : bool;
  (* the environment *)
  timers : list (Timer Closure);
  nextHandle : nat;
  statusInFlight : list (nat * Closure); (* ticks awaiting the status response *)
  logsInFlight : list (nat * string);    (* ticks awaiting the logs response,
                                            with their [newStatus] *)
  sent : list Request;                   (* requests sent so far, oldest first *)
  onCompleteCalls : list string          (* arguments of the calls of [onComplete] *)
}.

Definition set_logs (v : list LogEntry) (s : State) : State :=
  mkState (hasOnComplete s) v (deploymentStatus s) (error s) (lastLogCount s)
          (pollCount s) (currentDeploymentId s) (deploymentFinished s)
          (pollingInterval s) (projectRefreshed s) (timers s) (nextHandle s)
          (statusInFlight s) (logsInFlight s) (sent s) (onCompleteCalls s).
Definition set_deploymentStatus (v : string) (s : State) : State :=
  mkState (hasOnComplete s) (logs s) v (error s) (lastLogCount s)
          (pollCount s) (currentDeploymentId s) (deploymentFinished s)
          (pollingInterval s) (projectRefreshed s) (timers s) (nextHandle s)
          (statusInFlight s) (logsInFlight s) (sent s) (onCompleteCalls s).
Definition set_error (v : option string) (s : State) : State :=
  mkState (hasOnComplete s) (logs s) (deploymentStatus s) v (lastLogCount s)
          (pollCount s) (currentDeploymentId s) (deploymentFinished s)
          (pollingInterval s) (projectRefreshed s) (timers s) (nextHandle s)
          (statusInFlight s) (logsInFlight s) (sent s) (onCompleteCalls s).
Definition set_lastLogCount (v : nat) (s : State) : State :=
  mkState (hasOnComplete s) (logs s) (deploymentStatus s) (error s) v
          (pollCount s) (currentDeploymentId s) (deploymentFinished s)
          (pollingInterval s) (projectRefreshed s) (timers s) (nextHandle s)
          (statusInFlight s) (logsInFlight s) (sent s) (onCompleteCalls s).
Definition set_currentDeploymentId (v : option string) (s : State) : State :=
  mkState (hasOnComplete s) (logs s) (deploymentStatus s) (error s) (lastLogCount s)
          (pollCount s) v (deploymentFinished s)
          (pollingInterval s) (projectRefreshed s) (timers s) (nextHandle s)
          (statusInFlight s) (logsInFlight s) (sent s) (onCompleteCalls s).
Definition set_deploymentFinished (v : bool) (s : State) : State :=
  mkState (hasOnComplete s) (logs s) (deploymentStatus s) (error s) (lastLogCount s)
          (pollCount s) (currentDeploymentId s) v
          (pollingInterval s) (projectRefreshed s) (timers s) (nextHandle s)
          (statusInFlight s) (logsInFlight s) (sent s) (onCompleteCalls s).
Definition set_pollingInterval (v : option nat) (s : State) : State :=
  mkState (hasOnComplete s) (logs s) (deploymentStatus s) (error s) (lastLogCount s)
          (pollCount s) (currentDeploymentId s) (deploymentFinished s)
          v (projectRefreshed s) (timers s) (nextHandle s)
          (statusInFlight s) (logsInFlight s) (sent s) (onCompleteCalls s).
Definition set_projectRefreshed (v : bool) (s : State) : State :=
  mkState (hasOnComplete s) (logs s) (deploymentStatus s) (error s) (lastLogCount s)
          (pollCount s) (currentDeploymentId s) (deploymentFinished s)
          (pollingInterval s) v (timers s) (nextHandle s)
          (statusInFlight s) (logsInFlight s) (sent s) (onCompleteCalls s).
Definition set_timers (v : list (Timer Closure)) (s : State) : State :=
  mkState (hasOnComplete s) (logs s) (deploymentStatus s) (error s) (lastLogCount s)
          (pollCount s) (currentDeploymentId s) (deploymentFinished s)
          (pollingInterval s) (projectRefreshed s) v (nextHandle s)
          (statusInFlight s) (logsInFlight s) (sent s) (onCompleteCalls s).
Definition set_statusInFlight (v : list (nat * Closure)) (s : State) : State :=
  mkState (hasOnComplete s) (logs s) (deploymentStatus s) (error s) (lastLogCount s)
          (pollCount s) (currentDeploymentId s) (deploymentFinished s)
          (pollingInterval s) (projectRefreshed s) (timers s) (nextHandle s)
          v (logsInFlight s) (sent s) (onCompleteCalls s).
Definition set_logsInFlight (v : list (nat * string)) (s : State) : State :=
  mkState (hasOnComplete s) (logs s) (deploymentStatus s) (error s) (lastLogCount s)
          (pollCount s) (currentDeploymentId s) (deploymentFinished s)
          (pollingInterval s) (projectRefreshed s) (timers s) (nextHandle s)
          (statusInFlight s) v (sent s) (onCompleteCalls s).
Definition set_sent (v : list Request) (s : State) : State :=
  mkState (hasOnComplete s) (logs s) (deploymentStatus s) (error s) (lastLogCount s)
          (pollCount s) (currentDeploymentId s) (deploymentFinished s)
          (pollingInterval s) (projectRefreshed s) (timers s) (nextHandle s)
          (statusInFlight s) (logsInFlight s) v (onCompleteCalls s).
Definition set_onCompleteCalls (v : list string) (s : State) : State :=
  mkState (hasOnComplete s) (logs s) (deploymentStatus s) (error s) (lastLogCount s)
          (pollCount s) (currentDeploymentId s) (deploymentFinished s)
          (pollingInterval s) (projectRefreshed s) (timers s) (nextHandle s)
          (statusInFlight s) (logsInFlight s) (sent s) v.

(** The [fetchDeploymentStatus] of the current render. *)
Definition closure (s : State) : Closure :=
  mkClosure (deploymentStatus s) (currentDeploymentId s).

(** [clearInterval(pollingInterval.current); pollingInterval.current = null],
    under [if (pollingInterval.current)]. *)
Definition stopPolling (s : State) : State :=
  match pollingInterval s with
  | Some h => set_pollingInterval None (set_timers (clearInterval h (timers s)) s)
  | None => s
  end.

(** The adaptive polling effect, on [[pollCount, logs.length]]. *)
Definition adaptiveEffect (s : State) : State :=
  let s' :=
    if ((5 <? pollCount s)%nat && (length (logs s) =? lastLogCount s)%nat)%bool then
      match pollingInterval s with
      | Some h =>
          let h' := nextHandle s in
          mkState (hasOnComplete s) (logs s) (deploymentStatus s) (error s)
                  (lastLogCount s) (pollCount s) (currentDeploymentId s)
                  (deploymentFinished s) (Some h') (projectRefreshed s)
                  (clearInterval h (timers s) ++ [mkTimer h' 8000%N (closure s)])
                  (S h') (statusInFlight s) (logsInFlight s) (sent s)
                  (onCompleteCalls s)
      | None => s
      end
    else s in
  set_lastLogCount (length (logs s)) s'.

(** The number the next request gets. *)
Definition nextReq (s : State) : nat := length (sent s).

(** [fetchDeploymentStatus()] up to its first [await]. *)
Definition fetchDeploymentStatus (c : Closure) (s : State) : State :=
  match pollingInterval s with
  | None => s                                     (* the guard *)
  | Some _ =>
      let req := nextReq s in
      set_sent (sent s ++ [GetStatus req])
               (set_statusInFlight (statusInFlight s ++ [(req, c)]) s)
  end.

(** The [catch] block of [fetchDeploymentStatus]. *)
Definition onError (err : Error) (s : State) : State :=
  let s := set_error (Some (Js.or_default (err_message err)
                              "Failed to get deployment status")) s in
  stopPolling s.

(** From the status response to the second [await]. *)
Definition statusSettles (c : Closure) (o : StatusReply) (s : State) : State :=
  match o with
  | Response r =>
      if negb (isSuccess r)
      then onError (newError (Net.message r) "Failed to get deployment status") s
      else
        let newStatus := Js.toLowerCase (currentStatus (data r)) in
        let s :=
          if String.eqb (cl_deploymentStatus c) newStatus then s
          else set_deploymentStatus newStatus s in
        let '(logsDeploymentId, s) :=
          if negb (Js.truthy (cl_currentDeploymentId c))
             && Js.truthy (latestDeploymentId (data r))
          then (latestDeploymentId (data r),
                set_currentDeploymentId (latestDeploymentId (data r)) s)
          else (cl_currentDeploymentId c, s) in
        if negb (Js.truthy logsDeploymentId) then s
        else
          let req := nextReq s in
          set_sent (sent s ++ [GetLogs req (Js.or_default logsDeploymentId "")])
                   (set_logsInFlight (logsInFlight s ++ [(req, newStatus)]) s)
  | Failure e => onError e s
  end.

(** The branch taken on [hasDoneLog && !projectRefreshed.current]. *)
Definition onDone (newStatus : string) (s : State) : State :=
  let s := set_projectRefreshed true s in
  let s := set_deploymentFinished true s in
  let s := stopPolling s in
  if hasOnComplete s
  then set_onCompleteCalls (onCompleteCalls s ++ [newStatus]) s
  else s.

(** From the logs response to the end of [fetchDeploymentStatus]. *)
Definition logsSettle (newStatus : string) (o : LogsReply) (s : State) : State :=
  match o with
  | Response r =>
      if negb (isSuccess r)
      then onError (newError (Net.message r) "Failed to fetch deployment logs") s
      else
        let newLogs := default [] (data r) in
        if hasDoneLog newLogs && negb (projectRefreshed s)
        then onDone newStatus s
        else set_logs newLogs s
  | Failure e => onError e s
  end.

(** The first render: nothing has been fetched and no interval exists. *)
Definition mount (deploymentId : option string) (onComplete : bool) : State :=
  mkState onComplete [] "running" None 0 0 deploymentId false None false
          [] 1 [] [] [] [].

(** The clean-up of the start effect. *)
Definition cleanup (s : State) : State := stopPolling s.

Definition lookupReq {A} (req : nat) (l : list (nat * A)) : option A :=
  snd <$> find (fun x => Nat.eqb (fst x) req) l.

Definition removeReq {A} (req : nat) (l : list (nat * A)) : list (nat * A) :=
  filter (fun x => fst x <> req) l.

(** What can happen to a mounted modal. *)
Inductive Event :=
| Fire (h : nat)                              (* the interval [h] is due *)
| Invoke                                      (* [startDeployment] calls
                                                 [fetchDeploymentStatus] *)
| SettleStatus (req : nat) (o : StatusReply)
| SettleLogs (req : nat) (o : LogsReply)
| Effect                                      (* the adaptive effect runs *)
| Unmount.

Definition step (e : Event) (s : State) : State :=
  match e with
  | Fire h =>
      match lookupTimer h (timers s) with
      | Some t => fetchDeploymentStatus (callback t) s
      | None => s
      end
  | Invoke => fetchDeploymentStatus (closure s) s
  | SettleStatus req o =>
      match lookupReq req (statusInFlight s) with
      | Some c =>
          statusSettles c o (set_statusInFlight (removeReq req (statusInFlight s)) s)
      | None => s
      end
  | SettleLogs req o =>
      match lookupReq req (logsInFlight s) with
      | Some newStatus =>
          logsSettle newStatus o (set_logsInFlight (removeReq req (logsInFlight s)) s)
      | None => s
      end
  | Effect => adaptiveEffect s
  | Unmount => cleanup s
  end.

Definition run (es : list Event) (s : State) : State :=
  fold_left (fun s e => step e s) es s.

(** The period of the interval the modal holds, if it holds a live one. *)
Definition currentPeriod (s : State) : option N :=
  match pollingInterval s with
  | Some h => period <$> lookupTimer h (timers s)
  | None => None
  end.

(** The session has stopped: the modal holds no interval. *)
Definition stopped (s : State) : Prop := pollingInterval s = None.

(** The live intervals are exactly the one the modal holds. *)
Definition consistent (s : State) : Prop :=
  match pollingInterval s with
  | Some h => exists p c, timers s = [mkTimer h p c]
  | None => timers s = []
  end.

(** The reply is a successful response whose logs carry a marker. *)
Definition carriesMarker (o : LogsReply) : bool :=
  match o with
  | Response r => isSuccess r && hasDoneLog (default [] (data r))
  | Failure _ => false
  end.

(** The event is the arrival of such a reply. *)
Definition markerEvent (e : Event) : bool :=
  match e with
  | SettleLogs _ o => carriesMarker o
  | _ => false
  end.

(** A modal that holds a live interval of the given period. [mount] and
    the transitions above never create a first interval, so such a state
    is not reached from [mount]; it stands for a modal whose polling was
    started. *)
Definition polling (period : N) (deploymentId : option string) (onComplete : bool)
    : State :=
  let s := mount deploymentId onComplete in
  mkState (hasOnComplete s) (logs s) (deploymentStatus s) (error s) (lastLogCount s)
          (pollCount s) (currentDeploymentId s) (deploymentFinished s)
          (Some 1) (projectRefreshed s) [mkTimer 1 period (closure s)] 2
          (statusInFlight s) (logsInFlight s) (sent s) (onCompleteCalls s).

(** A successful [/logs] response with the given messages. *)
Definition logsReply (msgs : list string) : LogsReply :=
  Response (mkEnvelope "success" None (Some (map entry msgs))).

Definition doneReply : LogsReply := logsReply ["Building..."; "Done"].

(** A successful status response. *)
Definition statusReply (currentStatus : string) (latest : option string) : StatusReply :=
  Response (mkEnvelope "success" None (mkStatusData currentStatus latest)).

(** The state [s] in a render with the given poll count, last recorded
    log count and logs. *)
Definition observing (polls last : nat) (ls : list LogEntry) (s : State) : State :=
  mkState (hasOnComplete s) ls (deploymentStatus s) (error s) last
          polls (currentDeploymentId s) (deploymentFinished s)
          (pollingInterval s) (projectRefreshed s) (timers s) (nextHandle s)
          (statusInFlight s) (logsInFlight s) (sent s) (onCompleteCalls s).

(** One uneventful tick of interval [1], the [i]-th of a session: the
    status and the logs are fetched, the logs are the same single entry
    as before, and the adaptive effect runs. *)
Definition quietTick (i : nat) : list Event :=
  [Fire 1;
   SettleStatus (2 * i) (statusReply "running" None);
   SettleLogs (2 * i + 1) (logsReply ["Building..."]);
   Effect].

Definition quietTicks (n : nat) : list Event :=
  concat (map quietTick (seq 0 n)).

(** A transport error: the request was rejected by the network layer. *)
Definition networkError : Error := mkError (Some "Network Error") false.

Definition isGetStatus (r : Request) : bool :=
  match r with GetStatus _ => true | GetLogs _ _ => false end.

(** The ticks that got past the guard so far: each sends one status
    request. *)
Definition ticksStarted (s : State) : nat :=
  length (List.filter isGetStatus (sent s)).

End DeploymentModal.

(** ** context/ProjectContext: creating and rebuilding *)

Module Deployments.
Import Net ProjectContext.

(** The form data posted to [/project]. *)
Record FormData := mkFormData {
  fd_name : string;
  fd_gitUrl : string;
  fd_buildCommand : string;
  fd_environment : string;
  fd_domain : string
}.

Inductive Post :=
| PostProject (projectData : FormData)
| PostDeploy (projectId : string)
| PostRedeploy (deploymentId : string).

(** The provider together with the POST requests it sent and a mark for
    a state updater that threw while React applied it. *)
Record World := mkWorld {
  provider : State;
  posted : list Post;
  updaterThrew : bool
}.

Definition onProvider (f : State -> State) (w : World) : World :=
  mkWorld (f (provider w)) (posted w) (updaterThrew w).
Definition post (p : Post) (w : World) : World :=
  mkWorld (provider w) (posted w ++ [p]) (updaterThrew w).

(** An async function between two [await]s: it has finished, or it waits
    for the next response and keeps a value for later. *)
Inductive Progress (A K : Type) :=
| Finished (r : Settled A)
| Awaiting (k : K).
Arguments Finished {A K} _.
Arguments Awaiting {A K} _.

(** [catch (err) { setError(err.message || fallback); throw err; }
     finally { setIsLoading(false); }] *)
Definition thrown {A} (fallback : string) (err : Error) (w : World)
    : World * Settled A :=
  (onProvider (fun s => set_isLoading false
                          (set_error (Some (Js.or_default (err_message err) fallback)) s)) w,
   Rejected err).

(** *** createProject *)

(** [{ projectId, deploymentId }] *)
Record Created := mkCreated {
  cr_projectId : string;
  cr_deploymentId : option string
}.

(** [createProject(projectData)] up to the first [await]. *)
Definition createProject (projectData : FormData) (w : World) : World :=
  post (PostProject projectData) (onProvider (set_isLoading true) w).

(** From the response of [/project] to the second [await]. *)
Definition createProject_created (o : Reply Project) (w : World)
    : World * Progress Created Project :=
  match o with
  | Response r =>
      if isSuccess r
      then (post (PostDeploy (prj_id (data r))) w, Awaiting (data r))
      else let '(w, res) := thrown "Failed to create project"
                              (newError (message r) "Failed to create project") w in
           (w, Finished res)
  | Failure e =>
      let '(w, res) := thrown "Failed to create project" e w in (w, Finished res)
  end.

(** [{ ...newProject, deployments: [{ id, status: "running", createdAt }] }] *)
Definition projectWithStatus (newProject : Project) (deploymentId : option string)
    (now : string) : Project :=
  withDeployments [mkDeployment deploymentId (Some "running") (Some now) None] newProject.

(** From the response of [/deploy] to the end; [now] is
    [new Date().toISOString()]. *)
Definition createProject_deployed (newProject : Project) (now : string)
    (o : Reply (option string)) (w : World) : World * Settled Created :=
  match o with
  | Response r =>
      if isSuccess r
      then
        let w := onProvider
                   (set_projects (fun prev => prev ++ [projectWithStatus newProject (data r) now]))
                   w in
        (onProvider (set_isLoading false) w,
         Resolved (mkCreated (prj_id newProject) (data r)))
      else thrown "Failed to create project"
                  (newError (message r) "Failed to deploy project") w
  | Failure e => thrown "Failed to create project" e w
  end.

(** A whole call: the two responses arrive one after the other and
    nothing else runs in between. *)
Definition createProject_run (projectData : FormData) (now : string)
    (o1 : Reply Project) (o2 : Reply (option string)) (w : World)
    : World * Settled Created :=
  match createProject_created o1 (createProject projectData w) with
  | (w, Finished res) => (w, res)
  | (w, Awaiting newProject) => createProject_deployed newProject now o2 w
  end.

(** *** rebuildProject *)

(** [{ success: true, deploymentId }] *)
Record Rebuilt := mkRebuilt {
  rb_deploymentId : string
}.

(** [project?.deployments?.[0]?.id] for the first project with that id. *)
Definition latestDeploymentId (projectId : string) (ps : list Project) : option string :=
  match find (hasId projectId) ps with
  | Some project =>
      match prj_deployments project with
      | Some (d0 :: _) => dep_id d0
      | _ => None
      end
  | None => None
  end.

(** [rebuildProject(projectId)] up to its [await]. *)
Definition rebuildProject (projectId : string) (w : World)
    : World * Progress Rebuilt string :=
  let w := onProvider (set_isLoading true) w in
  let deploymentId := latestDeploymentId projectId (projects (provider w)) in
  if negb (Js.truthy deploymentId)
  then let '(w, res) := thrown "Failed to rebuild project"
                          (newError (Some "No deployment found for this project") "") w in
       (w, Finished res)
  else (post (PostRedeploy (Js.or_default deploymentId "")) w,
        Awaiting (Js.or_default deploymentId "")).

(** [{ ...p.deployments[0], id, status: "running", updatedAt }] *)
Definition restarted (newDeploymentId now : string) (d0 : option Deployment) : Deployment :=
  mkDeployment (Some newDeploymentId) (Some "running")
               (match d0 with Some d => dep_createdAt d | None => None end)
               (Some now).

(** The [setProjects] updater of [rebuildProject] on one project; [None]
    when it throws because the project has no [deployments]. *)
Definition restartProject (projectId newDeploymentId now : string) (p : Project)
    : option Project :=
  if hasId projectId p
  then match prj_deployments p with
       | Some ds => Some (withDeployments
                            (restarted newDeploymentId now (head ds) :: tail ds) p)
       | None => None
       end
  else Some p.

(** The updater on the whole list. *)
Definition restartUpdater (projectId newDeploymentId now : string)
    (prev : list Project) : option (list Project) :=
  mapM (restartProject projectId newDeploymentId now) prev.

(** The rest of [rebuildProject], after [await axios.post]; the payload is
    [response.data.data?.deployment_id]. *)
Definition rebuildProject_settles (projectId deploymentId now : string)
    (o : Reply (option string)) (w : World) : World * Settled Rebuilt :=
  match o with
  | Response r =>
      if isSuccess r
      then
        let newDeploymentId := Js.or_default (data r) deploymentId in
        let w :=
          match restartUpdater projectId newDeploymentId now (projects (provider w)) with
          | Some ps => onProvider (set_projects (fun _ => ps)) w
          | None => mkWorld (provider w) (posted w) true
          end in
        (onProvider (set_isLoading false) w, Resolved (mkRebuilt newDeploymentId))
      else thrown "Failed to rebuild project"
                  (newError (message r) "Failed to rebuild project") w
  | Failure e => thrown "Failed to rebuild project" e w
  end.

(** A whole call whose request settles before anything else runs. *)
Definition rebuildProject_run (projectId now : string) (o : Reply (option string))
    (w : World) : World * Settled Rebuilt :=
  match rebuildProject projectId w with
  | (w, Finished res) => (w, res)
  | (w, Awaiting deploymentId) => rebuildProject_settles projectId deploymentId now o w
  end.

Definition world (s : State) : World := mkWorld s [] false.

Definition demoForm : FormData :=
  mkFormData "demo" "https://example.org/demo.git" "npm run build" "node:18" "demo".

End Deployments.

(** ** Status and level colours *)

Module Switch.

(** [switch (x) { case k: return v; ... default: return d; }] *)
Fixpoint switch (x : string) (cases : list (string * string)) (d : string) : string :=
  match cases with
  | [] => d
  | (k, v) :: rest => if String.eqb x k then v else switch x rest d
  end.

End Switch.

(** components/ProjectCard.jsx *)
Module ProjectCard.

(** [getStatusColor(status)], for a status that is a string. *)
Definition getStatusColor (status : string) : string :=
  Switch.switch (Js.toLowerCase status)
    [("deployed", "bg-green-500"); ("building", "bg-yellow-500"); ("failed", "bg-red-500")]
    "bg-gray-500".

End ProjectCard.

(** components/Dashboard.jsx *)
Module Dashboard.

Definition getStatusColor (status : option string) : string :=
  if negb (Js.truthy status) then "text-gray-500"
  else Switch.switch (Js.toLowerCase (Js.or_default status ""))
         [("success", "text-green-500"); ("running", "text-yellow-500");
          ("failure", "text-red-500")]
         "text-gray-500".

End Dashboard.

(** components/ProjectDetails.jsx *)
Module ProjectDetails.
Import Net.

Definition getStatusColor (status : option string) : string :=
  if negb (Js.truthy status) then "text-gray-500"
  else Switch.switch (Js.toLowerCase (Js.or_default status ""))
         [("deployed", "text-green-500"); ("success", "text-green-500");
          ("building", "text-yellow-500"); ("running", "text-yellow-500");
          ("failed", "text-red-500"); ("failure", "text-red-500");
          ("queued", "text-blue-500")]
         "text-gray-500".

Record State := mkState {
  (* useState *)
  project : option ProjectContext.Project;
  isLoading : bool;
  error : option string;
  (* useRef *)
  isDeleted : bool;
  loadingLockRef : bool;
  (* the environment *)
  loadCalls : nat;         (* calls of [getProjectById] made by [loadProject] *)
  loadsInFlight : nat;     (* such calls that have not settled *)
  deleteCalls : nat;       (* calls of [deleteProject] *)
  deletesInFlight : nat;
  cancelSweeps : nat;        (* sweeps over [window.axiosCancelTokens] *)
  navigations : list string
}.

(** The page when it is mounted. Of the page, the loading effect and
    the deletion handler are modelled; the refresh interval and the
    rebuild and edit handlers, which write [project] as well, are not. *)
Definition initial : State :=
  mkState None true None false false 0 0 0 0 0 [].

(** The first effect: [if (loadingLockRef.current) return; loadProject()],
    up to the [await] in [loadProject]. *)
Definition loadEffect (s : State) : State :=
  if loadingLockRef s then s
  else if isDeleted s then s
  else mkState (project s) true (error s) (isDeleted s) true
               (S (loadCalls s)) (S (loadsInFlight s))
               (deleteCalls s) (deletesInFlight s) (cancelSweeps s) (navigations s).

(** The rest of [loadProject], after [await getProjectById(projectId)];
    [None] stands for [null]. *)
Definition loadSettles (r : Settled (option ProjectContext.Project)) (s : State) : State :=
  let '(project', error') :=
    match r with
    | Resolved projectData =>
        (if isDeleted s then project s else projectData, error s)
    | Rejected err =>
        (project s, Some (Js.or_default (err_message err) "Failed to load project"))
    end in
  mkState project' false error' (isDeleted s) false
          (loadCalls s) (pred (loadsInFlight s))
          (deleteCalls s) (deletesInFlight s) (cancelSweeps s) (navigations s).

(** [handleDeleteProject], up to [await deleteProject(projectId)];
    [confirmed] is the answer to [window.confirm]. *)
Definition handleDeleteProject (confirmed : bool) (s : State) : State :=
  if negb confirmed then s
  else mkState (project s) (isLoading s) (error s) true (loadingLockRef s)
               (loadCalls s) (loadsInFlight s)
               (S (deleteCalls s)) (S (deletesInFlight s)) (cancelSweeps s) (navigations s).

(** The rest of [handleDeleteProject]. *)
Definition deleteSettles (r : Settled bool) (s : State) : State :=
  match r with
  | Resolved _ =>
      mkState (project s) (isLoading s) (error s) (isDeleted s) (loadingLockRef s)
              (loadCalls s) (loadsInFlight s)
              (deleteCalls s) (pred (deletesInFlight s)) (S (cancelSweeps s))
              (navigations s ++ ["/dashboard"])
  | Rejected err =>
      mkState (project s) (isLoading s)
              (Some (Js.or_default (err_message err) "Failed to delete project"))
              (isDeleted s) (loadingLockRef s)
              (loadCalls s) (loadsInFlight s)
              (deleteCalls s) (pred (deletesInFlight s)) (cancelSweeps s) (navigations s)
  end.

(** What can happen to the page, as far as loading and deleting go. *)
Inductive Event :=
| LoadEffect                                        (* the first effect runs *)
| LoadSettles (r : Settled (option ProjectContext.Project))
| DeleteClicked (confirmed : bool)
| DeleteSettles (r : Settled bool).

(** A settlement needs a call in flight. *)
Definition step (e : Event) (s : State) : State :=
  match e with
  | LoadEffect => loadEffect s
  | LoadSettles r => if (loadsInFlight s =? 0)%nat then s else loadSettles r s
  | DeleteClicked confirmed => handleDeleteProject confirmed s
  | DeleteSettles r => if (deletesInFlight s =? 0)%nat then s else deleteSettles r s
  end.

Definition run (es : list Event) (s : State) : State :=
  fold_left (fun s e => step e s) es s.

(** The deployment whose logs are shown:
    [urlDeploymentId || project?.deployments?.[0]?.id]. *)
Definition shownDeploymentId (urlDeploymentId : option string)
    (project : option ProjectContext.Project) : option string :=
  Js.or_else urlDeploymentId
    (match project with
     | Some p =>
         match ProjectContext.prj_deployments p with
         | Some (d0 :: _) => ProjectContext.dep_id d0
         | _ => None
         end
     | None => None
     end).

(** The log section: a [LogViewer] for that deployment and the project
    id of the route, or the text "No deployment logs available yet."
    ([None]). *)
Definition logSection (urlDeploymentId : option string)
    (project : option ProjectContext.Project) (projectId : string)
    (ctx : ProjectContext.State) : option LogViewer.State :=
  if Js.truthy (shownDeploymentId urlDeploymentId project)
  then Some (LogViewer.mount (shownDeploymentId urlDeploymentId project)
               (Some projectId) ctx)
  else None.

End ProjectDetails.

(** components/DeployForm.jsx *)
Module DeployForm.
Import Net Deployments.

Record State := mkState {
  isLoading : bool;
  error : string;
  navigations : list string        (* arguments of [navigate] *)
}.

(** [`${v}`]: a string prints as itself, [undefined] as "undefined". *)
Definition template (v : option string) : string := default "undefined" v.

(** [`/project/${result.projectId}?deploymentId=${result.deploymentId}`] *)
Definition projectUrl (result : Created) : string :=
  String.append "/project/"
    (String.append (cr_projectId result)
       (String.append "?deploymentId=" (template (cr_deploymentId result)))).

(** [handleSubmit] of a form without [existingProject], up to
    [await createProject(formData)]. *)
Definition handleSubmit (formData : FormData) (w : World) (s : State) : World * State :=
  (createProject formData w, mkState true "" (navigations s)).

(** The rest of [handleSubmit]. *)
Definition handleSubmit_settles (r : Settled Created) (s : State) : State :=
  match r with
  | Resolved result => mkState false (error s) (navigations s ++ [projectUrl result])
  | Rejected err =>
      mkState false (Js.or_default (err_message err) "Failed to process request")
              (navigations s)
  end.

(** A whole submission: the two responses of [createProject] arrive one
    after the other. *)
Definition handleSubmit_run (formData : FormData) (now : string)
    (o1 : Reply ProjectContext.Project) (o2 : Reply (option string))
    (w : World) (s : State) : World * State :=
  let '(w', r) := createProject_run formData now o1 o2 w in
  (w', handleSubmit_settles r (snd (handleSubmit formData w s))).

End DeployForm.

(** ** What the viewer renders *)

Module LogViewerView.
Import Logs.

Inductive View :=
| Spinner                                   (* "Loading logs..." *)
| ErrorBox (message : string)
| Preparing                                 (* "No logs available yet. ..." *)
| LogList (rows : list (bool * LogEntry))   (* each entry, red when flagged *)
          (completeBanner : bool).          (* "Deployment complete. ..." *)

(** The class test of a row:
    [(log.message || log.log || "").toLowerCase().includes("error")] *)
Definition flagged (l : LogEntry) : bool := Js.includes (messageText l) "error".

(** The [return]s of [LogViewer], top to bottom. *)
Definition render (s : LogViewer.State) : View :=
  if LogViewer.isLoading s && (length (LogViewer.logs s) =? 0)%nat then Spinner
  else if Js.truthy (LogViewer.error s) then ErrorBox (Js.or_default (LogViewer.error s) "")
  else if (length (LogViewer.logs s) =? 0)%nat then Preparing
  else LogList (map (fun l => (flagged l, l)) (LogViewer.logs s))
               (negb (LogViewer.pollingActive s)).

End LogViewerView.

(** ** The modal: colours, labels and the start effect *)

Module DeploymentModalView.
Import Net Logs.

(** [getStatusColor(status)]: no lower-casing here. *)
Definition getStatusColor (status : string) : string :=
  Switch.switch status
    [("success", "text-green-600"); ("running", "text-yellow-600");
     ("queued", "text-yellow-600"); ("failure", "text-red-600")]
    "text-gray-600".

(** [getLogLevelColor(level)], on [level?.toLowerCase()]. *)
Definition getLogLevelColor (level : option string) : string :=
  match level with
  | Some l =>
      Switch.switch (Js.toLowerCase l)
        [("error", "text-red-600"); ("warn", "text-yellow-600");
         ("warning", "text-yellow-600"); ("info", "text-blue-600")]
        "text-gray-600"
  | None => "text-gray-600"
  end.

(** The text under the logs. *)
Definition statusLine (deploymentStatus : string) : string :=
  if String.eqb deploymentStatus "success" then "Deployment completed successfully!"
  else if String.eqb deploymentStatus "failure"
       then "Deployment failed. Please check the logs."
       else "Deploying your project...".

(** The "Close" button is rendered for the two final statuses. *)
Definition closeShown (deploymentStatus : string) : bool :=
  String.eqb deploymentStatus "success" || String.eqb deploymentStatus "failure".

Record Props := mkProps {
  projectId : option string;
  deploymentId : option string;
  onComplete : bool;                 (* a callback was passed *)
  isRedeployment : bool;
  initialDeployment : bool
}.

(** [!deploymentId && !isRedeployment && !initialDeployment && projectId] *)
Definition shouldStartNewDeployment (p : Props) : bool :=
  negb (Js.truthy (deploymentId p)) && negb (isRedeployment p)
  && negb (initialDeployment p) && Js.truthy (projectId p).

(** Where [startDeployment] is. *)
Inductive Phase :=
| AwaitingDeploy                  (* at [await axios.post(.../deploy)] *)
| AwaitingFetch (req : nat)       (* at [await fetchDeploymentStatus()], whose
                                     tick waits for request [req] *)
| Started                         (* past [setIsInitialLoading(false)] *)
| GaveUp.                         (* in the empty [catch] *)

Record State := mkState {
  modal : DeploymentModal.State;
  isInitialLoading : bool;
  phase : Phase;
  deploys : list string             (* project ids posted to [/deploy] *)
}.

(** [await fetchDeploymentStatus(); setIsInitialLoading(false)]: the call
    returns at once when the guard stops it (the [await] of such a call
    resumes before anything else can happen), otherwise it ends with the
    tick it started. *)
Definition callFetch (s : State) : State :=
  let m := modal s in
  let m' := DeploymentModal.step DeploymentModal.Invoke m in
  match DeploymentModal.pollingInterval m with
  | None => mkState m' false Started (deploys s)
  | Some _ => mkState m' (isInitialLoading s)
                      (AwaitingFetch (DeploymentModal.nextReq m)) (deploys s)
  end.

(** The first render and the start effect, up to its first [await]. *)
Definition start (p : Props) : State :=
  let s := mkState (DeploymentModal.mount (deploymentId p) (onComplete p))
                   true AwaitingDeploy [] in
  if shouldStartNewDeployment p
  then mkState (modal s) true AwaitingDeploy [Js.or_default (projectId p) ""]
  else callFetch s.

(** After [await axios.post(.../deploy)]: a response that is not a
    success is thrown, and whatever is thrown ends in the empty [catch]. *)
Definition deploySettles (o : Reply unit) (s : State) : State :=
  match phase s with
  | AwaitingDeploy =>
      if ProjectContext.succeeded o then callFetch s
      else mkState (modal s) (isInitialLoading s) GaveUp (deploys s)
  | _ => s
  end.

(** The awaited tick went on with request [req'], or it ended. *)
Definition tickContinues (continued : option nat) (s : State) (m' : DeploymentModal.State)
    : State :=
  match continued with
  | Some req' => mkState m' (isInitialLoading s) (AwaitingFetch req') (deploys s)
  | None => mkState m' false Started (deploys s)
  end.

(** What can happen to a mounted modal. The event [Invoke] of the modal
    is the call made by [startDeployment], which [callFetch] performs. *)
Inductive Event :=
| DeploySettles (o : Reply unit)
| Modal (e : DeploymentModal.Event).

Definition step (e : Event) (s : State) : State :=
  match e with
  | DeploySettles o => deploySettles o s
  | Modal DeploymentModal.Invoke => s
  | Modal e =>
      let m := modal s in
      let m' := DeploymentModal.step e m in
      match phase s, e with
      | AwaitingFetch req, DeploymentModal.SettleStatus req' _ =>
          if Nat.eqb req req'
             && bool_decide (is_Some (DeploymentModal.lookupReq req (DeploymentModal.statusInFlight m)))
          then tickContinues
                 (match DeploymentModal.lookupReq (DeploymentModal.nextReq m)
                          (DeploymentModal.logsInFlight m') with
                  | Some _ => Some (DeploymentModal.nextReq m)
                  | None => None
                  end) s m'
          else mkState m' (isInitialLoading s) (phase s) (deploys s)
      | AwaitingFetch req, DeploymentModal.SettleLogs req' _ =>
          if Nat.eqb req req'
             && bool_decide (is_Some (DeploymentModal.lookupReq req (DeploymentModal.logsInFlight m)))
          then tickContinues None s m'
          else mkState m' (isInitialLoading s) (phase s) (deploys s)
      | _, _ => mkState m' (isInitialLoading s) (phase s) (deploys s)
      end
  end.

Definition run (es : list Event) (s : State) : State :=
  fold_left (fun s e => step e s) es s.

(** What the body of the modal shows. *)
Inductive View :=
| ErrorBox (message : string)
| Spinner                                   (* "Initializing deployment..." *)
| NoLogs                                    (* "No logs available yet..." *)
| LogLines (rows : list (string * string * option string)).

(** One line: the colour of the level, [log.level || "INFO"] and
    [log.message || log.log]. *)
Definition row (l : LogEntry) : string * string * option string :=
  (getLogLevelColor (level l), Js.or_default (level l) "INFO",
   Js.or_else (Logs.message l) (log l)).

Definition render (s : State) : View :=
  if Js.truthy (DeploymentModal.error (modal s))
  then ErrorBox (Js.or_default (DeploymentModal.error (modal s)) "")
  else if isInitialLoading s then Spinner
  else if (length (DeploymentModal.logs (modal s)) =? 0)%nat then NoLogs
  else LogLines (map row (DeploymentModal.logs (modal s))).

End DeploymentModalView.

(** * Properties *)

(** ** Strings *)

Module JsFacts.
Import Js.

Lemma prefix_app (needle post : string) :
  String.prefix needle (String.append needle post) = true.
Proof.
  induction needle as [|c needle IH]; simpl.
  - now destruct post.
  - destruct (ascii_dec c c) as [_|Hne]; [exact IH | now destruct Hne].
Qed.

Lemma prefix_split (needle hay : string) :
  String.prefix needle hay = true ->
  exists post, hay = String.append needle post.
Proof.
  revert hay. induction needle as [|c needle IH]; intros hay H.
  - exists hay. reflexivity.
  - destruct hay as [|d hay]; simpl in H; [discriminate|].
    destruct (ascii_dec c d) as [->|_]; [|discriminate].
    destruct (IH hay H) as [post ->]. exists post. reflexivity.
Qed.

(** [includes] decides the substring relation. *)
Lemma includes_spec (hay needle : string) :
  includes hay needle = true <->
  exists pre post, hay = String.append pre (String.append needle post).
Proof.
  split.
  - induction hay as [|c hay IH]; cbn [includes]; intros H.
    + rewrite orb_false_r in H. destruct (prefix_split _ _ H) as [post Hp].
      exists EmptyString, post. exact Hp.
    + apply orb_true_iff in H as [H|H].
      * destruct (prefix_split _ _ H) as [post Hp].
        exists EmptyString, post. exact Hp.
      * destruct (IH H) as (pre & post & ->).
        exists (String c pre), post. reflexivity.
  - intros (pre & post & ->). induction pre as [|c pre IH].
    + change (String.append "" (String.append needle post))
        with (String.append needle post).
      destruct (String.append needle post) eqn:E; cbn [includes]; rewrite <- E;
        rewrite prefix_app; reflexivity.
    + change (String.append (String c pre) (String.append needle post))
        with (String c (String.append pre (String.append needle post))).
      cbn [includes]. rewrite IH. apply orb_true_r.
Qed.

End JsFacts.

(** ** Terminal-state detection *)

Module LogsFacts.
Import Logs.

(** [isDone] holds exactly when some entry's text, lower-cased, includes
    one of the two markers. *)
Lemma isDone_iff (newLogs : list LogEntry) :
  isDone newLogs = true <->
  exists l, In l newLogs /\
            (Js.includes (messageText l) "done" = true \/
             Js.includes (messageText l) "completed successfully" = true).
Proof.
  unfold isDone. rewrite existsb_exists.
  split; intros (l & Hin & H); exists l; split; auto.
  - now apply orb_true_iff in H.
  - now apply orb_true_iff.
Qed.

(** [hasDoneLog] holds exactly when some entry's [message] or [log]
    includes "done". *)
Lemma hasDoneLog_iff (newLogs : list LogEntry) :
  hasDoneLog newLogs = true <->
  exists l, In l newLogs /\
            (fieldHasDone (message l) = true \/ fieldHasDone (log l) = true).
Proof.
  unfold hasDoneLog. rewrite existsb_exists.
  split; intros (l & Hin & H); exists l; split; auto.
  - now apply orb_true_iff in H.
  - now apply orb_true_iff.
Qed.

(** The viewer detects the terminal state exactly when the lower-cased
    text of some entry has "done" or "completed successfully" as a
    substring. *)
Lemma isDone_substring (newLogs : list LogEntry) :
  isDone newLogs = true <->
  exists l pre post,
    In l newLogs /\
    (messageText l = String.append pre (String.append "done" post) \/
     messageText l = String.append pre (String.append "completed successfully" post)).
Proof.
  rewrite isDone_iff. split.
  - intros (l & Hin & [H|H]); apply JsFacts.includes_spec in H as (pre & post & E);
      exists l, pre, post; auto.
  - intros (l & pre & post & Hin & [E|E]); exists l; (split; [exact Hin|]);
      [left|right]; apply JsFacts.includes_spec; eauto.
Qed.

Example isDone_scenario :
  isDone [entry "Building..."; entry "Build completed successfully"] = true.
Proof. reflexivity. Qed.

(** An entry with both fields: the viewer reads [message] only, the modal
    reads both. *)
Example detectors_disagree_on_log_field :
  isDone [mkLog "t" None (Some "step 3") (Some "done")] = false
  /\ hasDoneLog [mkLog "t" None (Some "step 3") (Some "done")] = true.
Proof. split; reflexivity. Qed.

End LogsFacts.

(** ** The provider *)

Module ProjectContextFacts.
Import Net ProjectContext.

(** The first call for an id that is neither cached nor in flight, and
    that names no member of [Object.prototype], sends one request and
    stores its promise. *)
Lemma getProjectById_first (projectId : string) (s : State) :
  Js.inherited projectId = false ->
  loadingRef s !! projectId = None ->
  find (hasId projectId) (projects s) = None ->
  let source := nextId s in
  let p := S (nextId s) in
  exists s',
    getProjectById projectId s = (s', Owner p source)
    /\ requests s' = requests s ++ [GetProject projectId p source]
    /\ loadingRef s' !! projectId = Some p
    /\ promises s' !! p = Some Pending.
Proof.
  intros Hown Hledger Hcache. unfold getProjectById. cbn.
  rewrite Hledger, Hown, Hcache. eexists. split; [reflexivity|]. cbn.
  repeat split.
  - apply lookup_insert_eq.
  - apply lookup_insert_eq.
Qed.

(** A call for an id that names a member of [Object.prototype], with no
    entry of its own in [loadingRef], returns that member: it sends no
    request, stores no promise and leaves its cancel function in the
    global list. *)
Lemma getProjectById_inherited (projectId : string) (s : State) :
  Js.inherited projectId = true ->
  loadingRef s !! projectId = None ->
  exists s',
    getProjectById projectId s = (s', Inherits projectId)
    /\ requests s' = requests s
    /\ loadingRef s' = loadingRef s
    /\ projects s' = projects s
    /\ axiosCancelTokens s' = axiosCancelTokens s ++ [nextId s]
    /\ snd <$> resume projectId (Inherits projectId) s'
       = Some (Resolved (Member projectId)).
Proof.
  intros Hown Hledger. unfold getProjectById. cbn. rewrite Hledger, Hown.
  eexists. split; [reflexivity|]. cbn. auto 6.
Qed.

(** A call that finds a promise in [loadingRef] returns it and sends
    nothing. *)
Lemma getProjectById_in_flight (projectId : string) (p : nat) (s : State) :
  loadingRef s !! projectId = Some p ->
  exists s',
    getProjectById projectId s = (s', Adopted p)
    /\ requests s' = requests s
    /\ loadingRef s' = loadingRef s
    /\ promises s' = promises s.
Proof.
  intros Hledger. unfold getProjectById. cbn. rewrite Hledger.
  eexists. split; [reflexivity|]. cbn. auto.
Qed.

Lemma concurrentCalls_in_flight (n : nat) (projectId : string) (p : nat) (s : State) :
  loadingRef s !! projectId = Some p ->
  exists s',
    concurrentCalls n projectId s = (s', repeat (Adopted p) n)
    /\ requests s' = requests s
    /\ loadingRef s' = loadingRef s
    /\ promises s' = promises s.
Proof.
  revert s. induction n as [|n IH]; intros s Hledger.
  - exists s. cbn. auto.
  - destruct (getProjectById_in_flight _ _ _ Hledger) as (s1 & E1 & R1 & L1 & P1).
    destruct (IH s1) as (s2 & E2 & R2 & L2 & P2); [congruence|].
    exists s2. cbn [concurrentCalls]. rewrite E1, E2. cbn.
    repeat split; congruence.
Qed.

(** Resuming a caller leaves the promise store as it is. *)
Lemma receive_promises (projectId : string) (c : Caller) (po : Settled Project)
    (s : State) :
  promises (fst (receive projectId c po s)) = promises s.
Proof.
  destruct c as [p source|p|name], po as [v|e]; cbn; try reflexivity.
  destruct (isCancel e); reflexivity.
Qed.

(** A caller that returned the stored promise receives its settlement
    unchanged. *)
Lemma resumeAll_adopted (projectId : string) (n p : nat) (po : Settled Project)
    (s : State) :
  promises s !! p = Some (Done po) ->
  resumeAll projectId (repeat (Adopted p) n) s = Some (s, repeat (asReceived po) n).
Proof.
  intros Hp. induction n as [|n IH]; cbn [repeat resumeAll]; [reflexivity|].
  unfold resume. cbn [callerPromise]. rewrite Hp. cbn [receive].
  rewrite IH. destruct po; reflexivity.
Qed.

Lemma last_snoc_request (l : list Request) (r : Request) : last (l ++ [r]) = Some r.
Proof. apply last_snoc. Qed.

End ProjectContextFacts.

Section SingleFlight.
Import Net ProjectContext ProjectContextFacts.

(** C1 (as amended). For an id that names no member of
    [Object.prototype], with no cached project and no entry in
    [loadingRef], [S n] concurrent calls send exactly one request, and
    none is sent when the callers resume; the first caller awaits the
    stored promise and every other caller returns that same promise. When
    the request settles with a response or with an error that is not a
    cancellation, every caller receives that settlement; when it is
    cancelled, the caller that sent it receives [null]. *)
Theorem getProjectById_single_flight
    (n : nat) (projectId : string) (o : Reply Project) (s : State) :
  Js.inherited projectId = false ->
  loadingRef s !! projectId = None ->
  find (hasId projectId) (projects s) = None ->
  exists s1 p source s2 results,
    concurrentCalls (S n) projectId s = (s1, Owner p source :: repeat (Adopted p) n)
    /\ requests s1 = requests s ++ [GetProject projectId p source]
    /\ concurrentScenario (S n) projectId o s = Some (s2, results)
    /\ requests s2 = requests s1
    /\ length results = S n
    /\ (wasCancelled o = false ->
        results = repeat (asReceived (fetchResult o)) (S n))
    /\ (wasCancelled o = true -> head results = Some (Resolved Null)).
Proof.
  intros Hown Hledger Hcache.
  destruct (getProjectById_first _ _ Hown Hledger Hcache) as (s0 & E0 & R0 & L0 & _).
  destruct (concurrentCalls_in_flight n _ _ _ L0) as (s1 & E1 & R1 & _ & _).
  set (p := S (nextId s)) in *. set (source := nextId s) in *.
  assert (Ecalls : concurrentCalls (S n) projectId s
                   = (s1, Owner p source :: repeat (Adopted p) n)).
  { cbn [concurrentCalls]. rewrite E0, E1. reflexivity. }
  assert (Ereq : requests s1 = requests s ++ [GetProject projectId p source])
    by congruence.
  set (s1' := fetchSettles projectId p o s1).
  assert (Hp : promises s1' !! p = Some (Done (fetchResult o))).
  { unfold s1', fetchSettles. cbn. apply lookup_insert_eq. }
  assert (Hsent : forall po',
             requests (fst (receive projectId (Owner p source) po' s1')) = requests s1).
  { intros [v|e]; cbn; [|destruct (isCancel e)];
      unfold s1', fetchSettles; destruct (fetchResult o); reflexivity. }
  set (po := fetchResult o) in *.
  set (so := fst (receive projectId (Owner p source) po s1')).
  set (ro := snd (receive projectId (Owner p source) po s1')).
  assert (Hpo : promises so !! p = Some (Done po)).
  { unfold so. rewrite receive_promises. exact Hp. }
  assert (Escen : concurrentScenario (S n) projectId o s
                  = Some (so, ro :: repeat (asReceived po) n)).
  { unfold concurrentScenario. rewrite Ecalls.
    unfold lastProjectRequest. rewrite Ereq, last_snoc_request.
    fold s1'. cbn [resumeAll]. unfold resume. cbn [callerPromise].
    rewrite Hp. fold po.
    rewrite (surjective_pairing (receive projectId (Owner p source) po s1')).
    fold so ro. rewrite (resumeAll_adopted _ _ _ _ _ Hpo). reflexivity. }
  exists s1, p, source, so, (ro :: repeat (asReceived po) n).
  split; [exact Ecalls|]. split; [exact Ereq|]. split; [exact Escen|].
  split; [apply Hsent|].
  split; [cbn; now rewrite repeat_length|].
  unfold wasCancelled. fold po. unfold ro.
  split; intros Hc; destruct po as [v|e]; cbn in *; try discriminate;
    rewrite ?Hc; reflexivity.
Qed.

End SingleFlight.

Section SingleFlightExamples.
Import Net ProjectContext.

Lemma getProjectById_single_flight_witness :
  Js.inherited "p1" = false
  /\ loadingRef (initial (Some "t")) !! "p1" = None
  /\ find (hasId "p1") (projects (initial (Some "t"))) = None
  /\ exists s1 p source s2 results,
       concurrentCalls 3 "p1" (initial (Some "t"))
       = (s1, Owner p source :: repeat (Adopted p) 2)
       /\ requests s1 = requests (initial (Some "t")) ++ [GetProject "p1" p source]
       /\ concurrentScenario 3 "p1" demoReply (initial (Some "t")) = Some (s2, results)
       /\ requests s2 = requests s1
       /\ length results = 3
       /\ (wasCancelled demoReply = false ->
           results = repeat (asReceived (fetchResult demoReply)) 3)
       /\ (wasCancelled demoReply = true -> head results = Some (Resolved Null)).
Proof.
  split; [reflexivity|]. split; [reflexivity|]. split; [reflexivity|].
  apply (getProjectById_single_flight 2 "p1" demoReply (initial (Some "t")));
    reflexivity.
Defined.

(** Two callers share one request, the route changes and the request is
    cancelled: the caller that sent it receives [null], the other one the
    rejection. *)
Lemma cancelled_fetch_results :
  snd <$> concurrentScenario 2 "p1" (Failure (cancelled "Route changed"))
            (initial (Some "t"))
  = Some [Resolved Null; Rejected (cancelled "Route changed")].
Proof. vm_compute. reflexivity. Qed.

Lemma cancelled_fetch_not_received_by_all :
  ~ everyCallerReceivesFetchResult 2 "p1" (Failure (cancelled "Route changed"))
      (initial (Some "t")).
Proof.
  intros (s' & results & E & _ & HF).
  pose proof cancelled_fetch_results as R. rewrite E in R. cbn in R.
  injection R as ->. inversion HF as [|? ? Hhd _]. discriminate Hhd.
Qed.

End SingleFlightExamples.

Section ProviderCalls.
Import Net ProjectContext.

(** C10. Without a stored token [fetchProjects] returns the empty list at
    once: no request is sent, and the cached projects, the error and the
    rest of the provider's state stay as they were. *)
Theorem fetchProjects_without_token (s : State) :
  token s = None ->
  fetchProjects s = (s, Returned [])
  /\ requests (fst (fetchProjects s)) = requests s
  /\ projects (fst (fetchProjects s)) = projects s
  /\ error (fst (fetchProjects s)) = error s.
Proof.
  intros Htoken. unfold fetchProjects. rewrite Htoken. cbn. auto.
Qed.

Lemma fetchProjects_without_token_witness :
  token (initial None) = None
  /\ fetchProjects (initial None) = (initial None, Returned [])
  /\ requests (fst (fetchProjects (initial None))) = requests (initial None)
  /\ projects (fst (fetchProjects (initial None))) = projects (initial None)
  /\ error (fst (fetchProjects (initial None))) = error (initial None).
Proof.
  split; [reflexivity|].
  apply (fetchProjects_without_token (initial None)). reflexivity.
Defined.

(** With a token the request does leave. *)
Example fetchProjects_with_token :
  requests (fst (fetchProjects (initial (Some "t")))) = [GetProjects "t"].
Proof. reflexivity. Qed.

(** Whatever the provider's state is when the response arrives, a failed
    deletion rejects and leaves the projects alone. *)
Lemma deleteProject_settles_failure (projectId : string) (o : Reply unit) (s : State) :
  succeeded o = false ->
  exists err,
    snd (deleteProject_settles projectId o s) = Rejected err
    /\ projects (fst (deleteProject_settles projectId o s)) = projects s.
Proof.
  intros Hfail. destruct o as [r|e]; cbn in *.
  - rewrite Hfail. eexists. split; reflexivity.
  - eexists. split; reflexivity.
Qed.

(** C9. When the server does not answer "success", or the request fails,
    [deleteProject] throws and the cached projects are unchanged: neither
    the call nor the failed settlement touches them, whatever the state
    of the provider is when the response arrives. The project is filtered
    out only by the settlement of a successful response
    ([deleteProject_success]). *)
Theorem deleteProject_atomic_on_error (projectId : string) (o : Reply unit) (s : State) :
  succeeded o = false ->
  projects (deleteProject projectId s) = projects s
  /\ (exists err, snd (deleteProject_run projectId o s) = Rejected err)
  /\ projects (fst (deleteProject_run projectId o s)) = projects s
  /\ (forall s', projects (fst (deleteProject_settles projectId o s')) = projects s').
Proof.
  intros Hfail. split; [reflexivity|].
  destruct (deleteProject_settles_failure projectId o (deleteProject projectId s) Hfail)
    as (err & Hr & Hp).
  unfold deleteProject_run. split; [now exists err|]. split; [exact Hp|].
  intros s'. now destruct (deleteProject_settles_failure projectId o s' Hfail) as (_ & _ & E).
Qed.

Lemma deleteProject_atomic_on_error_witness :
  succeeded (Response (mkEnvelope "error" (Some "not allowed") tt)) = false
  /\ projects (deleteProject "p1" (set_projects (fun _ => [demoProject]) (initial (Some "t"))))
     = projects (set_projects (fun _ => [demoProject]) (initial (Some "t")))
  /\ (exists err,
        snd (deleteProject_run "p1" (Response (mkEnvelope "error" (Some "not allowed") tt))
               (set_projects (fun _ => [demoProject]) (initial (Some "t"))))
        = Rejected err)
  /\ projects (fst (deleteProject_run "p1"
                      (Response (mkEnvelope "error" (Some "not allowed") tt))
                      (set_projects (fun _ => [demoProject]) (initial (Some "t")))))
     = projects (set_projects (fun _ => [demoProject]) (initial (Some "t")))
  /\ (forall s',
        projects (fst (deleteProject_settles "p1"
                         (Response (mkEnvelope "error" (Some "not allowed") tt)) s'))
        = projects s').
Proof.
  split; [reflexivity|].
  apply (deleteProject_atomic_on_error "p1"
           (Response (mkEnvelope "error" (Some "not allowed") tt))
           (set_projects (fun _ => [demoProject]) (initial (Some "t")))).
  reflexivity.
Defined.

(** After a successful response the project is gone. *)
Lemma deleteProject_success (projectId : string) (o : Reply unit) (s : State) :
  succeeded o = true ->
  snd (deleteProject_run projectId o s) = Resolved true
  /\ projects (fst (deleteProject_run projectId o s))
     = filter (fun p => prj_id p <> projectId) (projects s).
Proof.
  intros Hok. destruct o as [r|e]; cbn in *; [|discriminate].
  rewrite Hok. split; reflexivity.
Qed.

End ProviderCalls.

(** ** Interval timers *)

Module TimersFacts.
Import Timers.

Lemma clearInterval_nil {C} (h : nat) : clearInterval h ([] : list (Timer C)) = [].
Proof. reflexivity. Qed.

Lemma clearInterval_own {C} (h : nat) (p : N) (c : C) :
  clearInterval h [mkTimer h p c] = [].
Proof.
  unfold clearInterval. rewrite filter_cons. cbn.
  destruct (decide (h <> h)) as [Hne|_]; [now destruct Hne | reflexivity].
Qed.

Lemma lookupTimer_nil {C} (h : nat) : lookupTimer h ([] : list (Timer C)) = None.
Proof. reflexivity. Qed.

Lemma lookupTimer_own {C} (h : nat) (p : N) (c : C) :
  lookupTimer h [mkTimer h p c] = Some (mkTimer h p c).
Proof. unfold lookupTimer. cbn. now rewrite Nat.eqb_refl. Qed.

End TimersFacts.

(** ** The log viewer *)

Module LogViewerFacts.
Import Net Logs Timers TimersFacts LogViewer.

Lemma viewer_stopPolling_stopped (s : State) : stopped (stopPolling s).
Proof. unfold stopped, stopPolling. now destruct (pollingRef s) eqn:E. Qed.

Lemma viewer_stopPolling_consistent (s : State) : consistent s -> consistent (stopPolling s).
Proof.
  unfold consistent, stopPolling. intros H.
  destruct (pollingRef s) as [h|] eqn:E; cbn.
  - rewrite H. apply clearInterval_own.
  - rewrite E. exact H.
Qed.

Lemma stopPolling_sent (s : State) : sent (stopPolling s) = sent s.
Proof. unfold stopPolling. now destruct (pollingRef s). Qed.

(** [stopPolling] touches the interval ref and the timer table only. *)
Lemma viewer_stopPolling_frame (s : State) :
  projectId (stopPolling s) = projectId s
  /\ doneDetectedRef (stopPolling s) = doneDetectedRef s
  /\ statusCalls (stopPolling s) = statusCalls s
  /\ context (stopPolling s) = context s
  /\ inFlight (stopPolling s) = inFlight s
  /\ pollingActive (stopPolling s) = pollingActive s.
Proof. unfold stopPolling. destruct (pollingRef s); cbn; auto 10. Qed.

Lemma viewer_stopPolling_rest (s : State) :
  deploymentId (stopPolling s) = deploymentId s
  /\ mounted (stopPolling s) = mounted s
  /\ nextHandle (stopPolling s) = nextHandle s
  /\ logs (stopPolling s) = logs s
  /\ isLoading (stopPolling s) = isLoading s
  /\ error (stopPolling s) = error s.
Proof. unfold stopPolling. destruct (pollingRef s); cbn; auto 10. Qed.

Lemma viewer_mount_consistent (d p : option string) (ctx : ProjectContext.State) :
  consistent (mount d p ctx).
Proof. unfold mount. destruct (negb (Js.truthy d)); reflexivity. Qed.

(** A run of the effect again: what it keeps. *)
Lemma rerun_frame (s : State) :
  projectId (rerun s) = projectId s
  /\ deploymentId (rerun s) = deploymentId s
  /\ doneDetectedRef (rerun s) = doneDetectedRef s
  /\ statusCalls (rerun s) = statusCalls s
  /\ context (rerun s) = context s
  /\ pollingActive (rerun s) = pollingActive s
  /\ mounted (rerun s) = mounted s
  /\ error (rerun s) = error s
  /\ logs (rerun s) = logs s.
Proof.
  unfold rerun, setup, cleanup.
  destruct (mounted s) eqn:Hm; [|auto 10].
  destruct (viewer_stopPolling_frame s) as (F1 & F2 & F3 & F4 & _ & F6).
  destruct (viewer_stopPolling_rest s) as (G1 & G2 & _ & G4 & _ & G6).
  rewrite G1. destruct (negb (Js.truthy (deploymentId s))); cbn;
    rewrite ?F1, ?F2, ?F3, ?F4, ?F6, ?G1, ?G2, ?G4, ?G6, ?Hm; auto 10.
Qed.

Lemma rerun_consistent (s : State) : consistent s -> consistent (rerun s).
Proof.
  intros H. unfold rerun. destruct (mounted s); [|exact H].
  pose proof (viewer_stopPolling_consistent s H) as Hc.
  pose proof (viewer_stopPolling_stopped s) as Hs.
  unfold cleanup, setup. destruct (viewer_stopPolling_rest s) as (-> & _).
  unfold consistent, stopped in *. rewrite Hs in Hc.
  destruct (negb (Js.truthy (deploymentId s))); cbn; [now rewrite Hs|].
  now rewrite Hc.
Qed.

Lemma fetchLogs_settles_consistent (o : LogsReply) (s : State) :
  consistent s -> consistent (fetchLogs_settles o s).
Proof.
  intros H. unfold fetchLogs_settles.
  destruct o as [r|e]; [|exact H].
  destruct (isSuccess r); [|exact H].
  destruct (isDone (default [] (data r)) && negb (doneDetectedRef (set_logs _ s))
            && Js.truthy (projectId (set_logs _ s))); [|exact H].
  unfold onDone. apply (viewer_stopPolling_consistent _). exact H.
Qed.

Lemma viewer_step_consistent (e : Event) (s : State) : consistent s -> consistent (step e s).
Proof.
  intros H. destruct e as [h|req o| |]; cbn [step].
  - destruct (lookupTimer h (timers s)); exact H.
  - destruct (bool_decide (req ∈ inFlight s)); [|exact H].
    cbn zeta. destruct (completes o _);
      [apply rerun_consistent|]; apply fetchLogs_settles_consistent; exact H.
  - apply rerun_consistent, H.
  - apply (viewer_stopPolling_consistent s H).
Qed.

Lemma viewer_run_consistent (es : list Event) (s : State) : consistent s -> consistent (run es s).
Proof.
  revert s. induction es as [|e es IH]; intros s H; [exact H|].
  apply IH, viewer_step_consistent, H.
Qed.

Lemma fetchLogs_settles_sent (o : LogsReply) (s : State) :
  sent (fetchLogs_settles o s) = sent s.
Proof.
  unfold fetchLogs_settles.
  destruct o as [r|e]; [|reflexivity].
  destruct (isSuccess r); [|reflexivity].
  destruct (isDone (default [] (data r)) && negb (doneDetectedRef (set_logs _ s))
            && Js.truthy (projectId (set_logs _ s))); [|reflexivity].
  unfold onDone. cbn. now rewrite stopPolling_sent.
Qed.

(** What [fetchLogs_settles] keeps: the props and the mark of being in
    the tree. *)
Lemma fetchLogs_settles_props (o : LogsReply) (s : State) :
  projectId (fetchLogs_settles o s) = projectId s
  /\ deploymentId (fetchLogs_settles o s) = deploymentId s
  /\ mounted (fetchLogs_settles o s) = mounted s
  /\ nextHandle (fetchLogs_settles o s) = nextHandle s.
Proof.
  unfold fetchLogs_settles.
  destruct o as [r|e]; [|auto].
  destruct (isSuccess r); [|auto].
  destruct (isDone (default [] (data r)) && negb (doneDetectedRef (set_logs _ s))
            && Js.truthy (projectId (set_logs _ s))); [|auto].
  unfold onDone. cbn.
  match goal with |- context [stopPolling ?x] =>
    destruct (viewer_stopPolling_frame x) as (-> & _);
    destruct (viewer_stopPolling_rest x) as (-> & -> & -> & _)
  end. auto.
Qed.

(** Whether the completion branch is taken decides what
    [fetchLogs_settles] does to the latch. *)
Lemma fetchLogs_settles_completes (o : LogsReply) (s : State) :
  completes o s = true ->
  doneDetectedRef (fetchLogs_settles o s) = true
  /\ pollingActive (fetchLogs_settles o s) = false
  /\ pollingRef (fetchLogs_settles o s) = None
  /\ statusCalls (fetchLogs_settles o s)
     = statusCalls s ++ [(Js.or_default (projectId s) "", "success")]
  /\ context (fetchLogs_settles o s)
     = fst (ProjectContext.updateProjectStatus (Js.or_default (projectId s) "") "success"
              (context s)).
Proof.
  unfold completes, carriesMarker. intros H.
  destruct o as [r|e]; [|discriminate].
  apply andb_true_iff in H as [H Ht]. apply andb_true_iff in H as [H Hl].
  apply andb_true_iff in H as [Hok Hdone].
  unfold fetchLogs_settles. rewrite Hok. cbn [doneDetectedRef projectId set_logs].
  rewrite Hdone, Hl, Ht. cbn [andb]. unfold onDone. cbn.
  match goal with |- context [stopPolling ?x] =>
    destruct (viewer_stopPolling_frame x) as (_ & -> & -> & -> & _ & ->);
    pose proof (viewer_stopPolling_stopped x) as ->
  end. cbn. auto.
Qed.

Lemma fetchLogs_settles_quiet (o : LogsReply) (s : State) :
  completes o s = false ->
  doneDetectedRef (fetchLogs_settles o s) = doneDetectedRef s
  /\ pollingActive (fetchLogs_settles o s) = pollingActive s
  /\ pollingRef (fetchLogs_settles o s) = pollingRef s
  /\ timers (fetchLogs_settles o s) = timers s
  /\ statusCalls (fetchLogs_settles o s) = statusCalls s
  /\ context (fetchLogs_settles o s) = context s.
Proof.
  unfold completes, carriesMarker. intros H.
  unfold fetchLogs_settles.
  destruct o as [r|e]; [|auto 10].
  destruct (isSuccess r); [|auto 10].
  cbn [doneDetectedRef projectId set_logs]. cbn [andb] in H.
  rewrite H. cbn. auto 10.
Qed.

(** *** The interval ref in the states a viewer reaches *)

Lemma mount_wired (d p : option string) (ctx : ProjectContext.State) :
  wired (mount d p ctx).
Proof.
  unfold wired, mount.
  destruct (Js.truthy d) eqn:Hd; cbn [negb].
  - split; [reflexivity|]. split; [intros h [= <-]; cbn; lia|].
    split; [discriminate|]. split; [cbn -[Js.truthy]; congruence|].
    intros _ _. cbn. eauto.
  - split; [reflexivity|]. split; [discriminate|].
    split; [reflexivity|]. split; [reflexivity|].
    cbn -[Js.truthy]. congruence.
Qed.

(** Running the effect again restores the wiring, also right after the
    completion branch emptied the ref. *)
Lemma rerun_wired (s : State) :
  consistent s ->
  (forall h, pollingRef s = Some h -> h < nextHandle s) ->
  (mounted s = false -> pollingRef s = None) ->
  (Js.truthy (deploymentId s) = false -> pollingRef s = None) ->
  wired (rerun s).
Proof.
  intros Hc Hh Hm Hd. unfold wired. split; [now apply rerun_consistent|].
  unfold rerun. destruct (mounted s) eqn:Em.
  2:{ rewrite Em. split; [exact Hh|]. split; [exact Hm|]. split; [exact Hd|].
      discriminate. }
  unfold setup, cleanup.
  destruct (viewer_stopPolling_rest s) as (G1 & G2 & G3 & _).
  pose proof (viewer_stopPolling_stopped s) as Hs. unfold stopped in Hs.
  rewrite G1. destruct (Js.truthy (deploymentId s)) eqn:Ed; cbn [negb].
  - split; [intros h [= <-]; cbn; lia|].
    split; [cbn -[Js.truthy]; rewrite G2, Em; discriminate|].
    split; [cbn -[Js.truthy]; rewrite G1, Ed; discriminate|].
    intros _ _. cbn. eauto.
  - split; [intros h; cbn; rewrite Hs; discriminate|].
    split; [intros _; cbn; exact Hs|].
    split; [intros _; cbn; exact Hs|].
    cbn -[Js.truthy]. rewrite G1, Ed. discriminate.
Qed.

Lemma step_wired (e : Event) (s : State) : wired s -> wired (step e s).
Proof.
  intros (Hc & Hh & Hm & Hd & Hp). destruct e as [h|req o| |]; cbn [step].
  - destruct (lookupTimer h (timers s)); repeat split; assumption.
  - destruct (bool_decide (req ∈ inFlight s)); [|repeat split; assumption].
    cbn zeta. set (s0 := set_inFlight _ s).
    destruct (completes o s0) eqn:Ec.
    + destruct (fetchLogs_settles_completes o s0 Ec) as (_ & _ & Hr & _).
      destruct (fetchLogs_settles_props o s0) as (_ & Ed & Em & En).
      apply rerun_wired.
      * apply fetchLogs_settles_consistent. exact Hc.
      * intros h. rewrite Hr. discriminate.
      * intros _. exact Hr.
      * intros _. exact Hr.
    + destruct (fetchLogs_settles_quiet o s0 Ec) as (_ & _ & Hr & Ht & _).
      destruct (fetchLogs_settles_props o s0) as (_ & Ed & Em & En).
      unfold wired, consistent. rewrite Hr, Ht, Ed, Em, En.
      repeat split; assumption.
  - apply rerun_wired; assumption.
  - pose proof (viewer_stopPolling_stopped s) as Hs. unfold stopped in Hs.
    pose proof (viewer_stopPolling_consistent s Hc) as Hc'.
    unfold wired, consistent in *. unfold cleanup. cbn. rewrite Hs in *.
    repeat split; intros; first [assumption | reflexivity | discriminate].
Qed.

Lemma run_wired (es : list Event) (s : State) : wired s -> wired (run es s).
Proof.
  revert s. induction es as [|e es IH]; intros s H; [exact H|].
  apply IH, step_wired, H.
Qed.

(** The handle the ref names is live, with a period of 5000 ms. *)
Lemma wired_lookup (s : State) (h : nat) :
  wired s -> pollingRef s = Some h -> lookupTimer h (timers s) = Some (mkTimer h 5000%N tt).
Proof.
  intros (Hc & _) Hp. unfold consistent in Hc. rewrite Hp in Hc. rewrite Hc.
  apply lookupTimer_own.
Qed.

End LogViewerFacts.

Module LogViewerLatch.
Import Net Logs Timers TimersFacts LogViewer LogViewerFacts.

Lemma or_default_truthy (v : option string) (d : string) :
  Js.truthy v = true -> Some (Js.or_default v d) = v.
Proof.
  destruct v as [x|]; cbn; [|discriminate].
  destruct (String.eqb x ""); [discriminate | reflexivity].
Qed.

(** The props do not change. *)
Lemma step_projectId (e : Event) (s : State) : projectId (step e s) = projectId s.
Proof.
  destruct e as [h|req o| |]; cbn [step].
  - now destruct (lookupTimer h (timers s)).
  - destruct (bool_decide (req ∈ inFlight s)); [|reflexivity].
    cbn zeta. destruct (completes o _);
      rewrite ?(proj1 (rerun_frame _));
      exact (proj1 (fetchLogs_settles_props o _)).
  - apply rerun_frame.
  - cbn. apply viewer_stopPolling_frame.
Qed.

Lemma run_projectId (es : list Event) (s : State) : projectId (run es s) = projectId s.
Proof.
  revert s. induction es as [|e es IH]; intros s; [reflexivity|].
  change (run (e :: es) s) with (run es (step e s)).
  now rewrite IH, step_projectId.
Qed.

Lemma step_deploymentId (e : Event) (s : State) : deploymentId (step e s) = deploymentId s.
Proof.
  destruct e as [h|req o| |]; cbn [step].
  - now destruct (lookupTimer h (timers s)).
  - destruct (bool_decide (req ∈ inFlight s)); [|reflexivity].
    cbn zeta. destruct (completes o _);
      rewrite ?(proj1 (proj2 (rerun_frame _)));
      exact (proj1 (proj2 (fetchLogs_settles_props o _))).
  - apply rerun_frame.
  - cbn [deploymentId set_mounted]. unfold cleanup. apply viewer_stopPolling_rest.
Qed.

Lemma run_deploymentId (es : list Event) (s : State) :
  deploymentId (run es s) = deploymentId s.
Proof.
  revert s. induction es as [|e es IH]; intros s; [reflexivity|].
  change (run (e :: es) s) with (run es (step e s)).
  now rewrite IH, step_deploymentId.
Qed.

(** An event that carries no marker leaves the latch and the record of
    completions alone. *)
Lemma viewer_step_without_marker (e : Event) (s : State) :
  markerEvent e = false ->
  doneDetectedRef (step e s) = doneDetectedRef s
  /\ statusCalls (step e s) = statusCalls s.
Proof.
  intros Hm. destruct e as [h|req o| |]; cbn [step].
  - now destruct (lookupTimer h (timers s)).
  - destruct (bool_decide (req ∈ inFlight s)); [|auto].
    cbn zeta. cbn in Hm. unfold completes. rewrite Hm. cbn [andb].
    match goal with |- context [fetchLogs_settles o ?x] =>
      destruct (fetchLogs_settles_quiet o x) as (E1 & _ & _ & _ & E2 & _)
    end; [unfold completes; now rewrite Hm|]. auto.
  - destruct (rerun_frame s) as (_ & _ & E1 & E2 & _). auto.
  - cbn [doneDetectedRef statusCalls set_mounted]. unfold cleanup.
    destruct (viewer_stopPolling_frame s) as (_ & ? & ? & _). auto.
Qed.

(** Once the latch is set, no event completes again. *)
Lemma viewer_step_latched (e : Event) (s : State) :
  doneDetectedRef s = true ->
  doneDetectedRef (step e s) = true
  /\ statusCalls (step e s) = statusCalls s.
Proof.
  intros Hl. destruct e as [h|req o| |]; cbn [step].
  - now destruct (lookupTimer h (timers s)).
  - destruct (bool_decide (req ∈ inFlight s)); [|auto].
    cbn zeta.
    assert (Ec : completes o (set_inFlight (filter (fun r => r <> req) (inFlight s)) s)
                 = false).
    { unfold completes. cbn [doneDetectedRef set_inFlight]. rewrite Hl.
      now rewrite andb_false_r. }
    rewrite Ec. destruct (fetchLogs_settles_quiet o _ Ec) as (E1 & _ & _ & _ & E2 & _).
    rewrite E1, E2. auto.
  - destruct (rerun_frame s) as (_ & _ & E1 & E2 & _). rewrite E1, E2. auto.
  - cbn [doneDetectedRef statusCalls set_mounted]. unfold cleanup.
    destruct (viewer_stopPolling_frame s) as (_ & E1 & E2 & _).
    rewrite E1, E2. auto.
Qed.

Lemma viewer_run_latched (es : list Event) (s : State) :
  doneDetectedRef s = true ->
  doneDetectedRef (run es s) = true
  /\ statusCalls (run es s) = statusCalls s.
Proof.
  revert s. induction es as [|e es IH]; intros s Hl; [auto|].
  destruct (viewer_step_latched e s Hl) as [Hl' E].
  destruct (IH _ Hl') as [Hl'' E'].
  change (run (e :: es) s) with (run es (step e s)).
  split; [exact Hl'' | now rewrite E', E].
Qed.

Lemma viewer_run_without_marker (es : list Event) (s : State) :
  forallb (fun e => negb (markerEvent e)) es = true ->
  doneDetectedRef (run es s) = doneDetectedRef s
  /\ statusCalls (run es s) = statusCalls s.
Proof.
  revert s. induction es as [|e es IH]; intros s H; [auto|].
  cbn in H. apply andb_true_iff in H as [He Hes].
  apply negb_true_iff in He.
  destruct (viewer_step_without_marker e s He) as [E1 E2].
  destruct (IH (step e s) Hes) as [E1' E2'].
  change (run (e :: es) s) with (run es (step e s)).
  split; congruence.
Qed.

(** The first reply with a marker performs the completion in a viewer
    that was given a project id: the latch is set, the provider is called
    once and the interval the viewer held is cleared. *)
Lemma viewer_settle_first_marker (req : nat) (o : LogsReply) (pid : string) (s : State) :
  wired s ->
  doneDetectedRef s = false ->
  projectId s = Some pid -> Js.truthy (Some pid) = true ->
  req ∈ inFlight s ->
  carriesMarker o = true ->
  let s' := step (Settle req o) s in
  statusCalls s' = statusCalls s ++ [(pid, "success")]
  /\ doneDetectedRef s' = true
  /\ pollingActive s' = false
  /\ (forall h, pollingRef s = Some h -> lookupTimer h (timers s') = None)
  /\ ProjectContext.projects (context s')
     = ProjectContext.statusUpdater pid "success" (ProjectContext.projects (context s)).
Proof.
  intros Hw Hl Hp Ht Hin Hm. cbn [step].
  rewrite (bool_decide_eq_true_2 _ Hin). cbn zeta.
  set (s0 := set_inFlight _ s).
  assert (Ec : completes o s0 = true).
  { unfold completes. cbn [doneDetectedRef projectId s0 set_inFlight].
    now rewrite Hm, Hl, Hp, Ht. }
  rewrite Ec.
  destruct (fetchLogs_settles_completes o s0 Ec) as (Hd & Ha & Hr & Hs & Hx).
  destruct (fetchLogs_settles_props o s0) as (_ & _ & _ & En).
  assert (Epid : Js.or_default (projectId s0) "" = pid).
  { cbn [projectId s0 set_inFlight]. rewrite Hp.
    pose proof (or_default_truthy (Some pid) "" Ht) as E. now injection E. }
  rewrite Epid in *.
  destruct (rerun_frame (fetchLogs_settles o s0)) as (_ & _ & F3 & F4 & F5 & F6 & _).
  rewrite F3, F4, F5, F6, Hd, Ha, Hs, Hx.
  split; [reflexivity|]. split; [reflexivity|]. split; [reflexivity|].
  split; [|reflexivity].
  intros h Hh.
  assert (Hlt : h < nextHandle s) by (destruct Hw as (_ & Hw & _); now apply Hw).
  assert (Hcons : consistent (fetchLogs_settles o s0)).
  { apply fetchLogs_settles_consistent. destruct Hw as (Hw & _). exact Hw. }
  unfold consistent in Hcons. rewrite Hr in Hcons.
  unfold rerun, setup, cleanup.
  destruct (mounted (fetchLogs_settles o s0)); [|now rewrite Hcons].
  unfold stopPolling at 1 2 3. rewrite Hr.
  destruct (negb (Js.truthy (deploymentId (fetchLogs_settles o s0)))); cbn;
    rewrite Hcons; [reflexivity|].
  cbn. rewrite En. cbn [nextHandle s0 set_inFlight].
  destruct (Nat.eqb_spec (nextHandle s) h); [lia | reflexivity].
Qed.

End LogViewerLatch.

(** ** The deployment modal *)

Module DeploymentModalFacts.
Import Net Logs Timers TimersFacts DeploymentModal.

Lemma modal_stopPolling_stopped (s : State) : stopped (stopPolling s).
Proof. unfold stopped, stopPolling. now destruct (pollingInterval s) eqn:E. Qed.

Lemma modal_stopPolling_consistent (s : State) : consistent s -> consistent (stopPolling s).
Proof.
  unfold consistent, stopPolling. intros H.
  destruct (pollingInterval s) as [h|] eqn:E; cbn.
  - destruct H as (p & c & ->). apply clearInterval_own.
  - now rewrite E.
Qed.

Lemma modal_stopPolling_frame (s : State) :
  sent (stopPolling s) = sent s
  /\ projectRefreshed (stopPolling s) = projectRefreshed s
  /\ onCompleteCalls (stopPolling s) = onCompleteCalls s
  /\ hasOnComplete (stopPolling s) = hasOnComplete s
  /\ statusInFlight (stopPolling s) = statusInFlight s
  /\ logsInFlight (stopPolling s) = logsInFlight s.
Proof. unfold stopPolling. destruct (pollingInterval s); cbn; auto 10. Qed.

Lemma onError_stopped (err : Error) (s : State) : stopped (onError err s).
Proof. apply modal_stopPolling_stopped. Qed.

Lemma onError_consistent (err : Error) (s : State) :
  consistent s -> consistent (onError err s).
Proof. intros H. unfold onError. apply modal_stopPolling_consistent. exact H. Qed.

Lemma onError_frame (err : Error) (s : State) :
  sent (onError err s) = sent s
  /\ projectRefreshed (onError err s) = projectRefreshed s
  /\ onCompleteCalls (onError err s) = onCompleteCalls s.
Proof.
  unfold onError.
  match goal with |- context [stopPolling ?x] =>
    destruct (modal_stopPolling_frame x) as (F1 & F2 & F3 & _) end.
  rewrite F1, F2, F3. auto.
Qed.

Lemma onDone_stopped (newStatus : string) (s : State) : stopped (onDone newStatus s).
Proof.
  unfold onDone.
  match goal with |- context [stopPolling ?x] =>
    pose proof (modal_stopPolling_stopped x) as H end.
  destruct (hasOnComplete _); exact H.
Qed.

Lemma onDone_consistent (newStatus : string) (s : State) :
  consistent s -> consistent (onDone newStatus s).
Proof.
  intros H. unfold onDone.
  match goal with |- context [stopPolling ?x] =>
    assert (Hc : consistent (stopPolling x)) by (apply modal_stopPolling_consistent; exact H)
  end.
  destruct (hasOnComplete _); exact Hc.
Qed.

Lemma onDone_sent (newStatus : string) (s : State) : sent (onDone newStatus s) = sent s.
Proof.
  unfold onDone.
  match goal with |- context [stopPolling ?x] =>
    destruct (modal_stopPolling_frame x) as (F1 & _) end.
  destruct (hasOnComplete _); cbn; now rewrite F1.
Qed.

Lemma adaptiveEffect_consistent (s : State) : consistent s -> consistent (adaptiveEffect s).
Proof.
  unfold adaptiveEffect, consistent. intros H.
  destruct ((5 <? pollCount s)%nat && (length (logs s) =? lastLogCount s)%nat);
    [|exact H].
  destruct (pollingInterval s) as [h|] eqn:E; cbn.
  - destruct H as (p & c & ->). rewrite clearInterval_own. cbn. eauto.
  - now rewrite E.
Qed.

Lemma statusSettles_consistent (c : Closure) (o : StatusReply) (s : State) :
  consistent s -> consistent (statusSettles c o s).
Proof.
  intros H. unfold statusSettles.
  destruct o as [r|e]; [|now apply onError_consistent].
  destruct (negb (isSuccess r)); [now apply onError_consistent|].
  destruct (String.eqb _ _);
    destruct (negb (Js.truthy (cl_currentDeploymentId c))
              && Js.truthy (latestDeploymentId (data r)));
    match goal with |- context [if ?b then _ else _] => destruct b end; exact H.
Qed.

Lemma logsSettle_consistent (newStatus : string) (o : LogsReply) (s : State) :
  consistent s -> consistent (logsSettle newStatus o s).
Proof.
  intros H. unfold logsSettle.
  destruct o as [r|e]; [|now apply onError_consistent].
  destruct (negb (isSuccess r)); [now apply onError_consistent|].
  destruct (hasDoneLog _ && _); [now apply onDone_consistent | exact H].
Qed.

Lemma fetchDeploymentStatus_consistent (c : Closure) (s : State) :
  consistent s -> consistent (fetchDeploymentStatus c s).
Proof.
  intros H. unfold fetchDeploymentStatus.
  destruct (pollingInterval s) eqn:E; [|exact H].
  unfold consistent in *. cbn. now rewrite E in *.
Qed.

Lemma modal_step_consistent (e : Event) (s : State) : consistent s -> consistent (step e s).
Proof.
  intros H. destruct e as [h| |req o|req o| |]; cbn [step].
  - destruct (lookupTimer h (timers s)); [|exact H].
    now apply fetchDeploymentStatus_consistent.
  - now apply fetchDeploymentStatus_consistent.
  - destruct (lookupReq req (statusInFlight s)); [|exact H].
    apply statusSettles_consistent. exact H.
  - destruct (lookupReq req (logsInFlight s)); [|exact H].
    apply logsSettle_consistent. exact H.
  - now apply adaptiveEffect_consistent.
  - now apply modal_stopPolling_consistent.
Qed.

Lemma modal_run_consistent (es : list Event) (s : State) : consistent s -> consistent (run es s).
Proof.
  revert s. induction es as [|e es IH]; intros s H; [exact H|].
  apply IH, modal_step_consistent, H.
Qed.

Lemma modal_mount_consistent (d : option string) (cb : bool) : consistent (mount d cb).
Proof. reflexivity. Qed.

End DeploymentModalFacts.

(** As the modal is written, nothing creates its first interval: from
    [mount] on, whatever happens, the interval ref stays empty and no
    request is sent. *)
Lemma modal_idle_from_mount (d : option string) (cb : bool)
    (es : list DeploymentModal.Event) :
  DeploymentModal.pollingInterval (DeploymentModal.run es (DeploymentModal.mount d cb)) = None
  /\ DeploymentModal.sent (DeploymentModal.run es (DeploymentModal.mount d cb)) = [].
Proof.
  set (idle := fun s =>
         DeploymentModal.pollingInterval s = None
         /\ DeploymentModal.timers s = []
         /\ DeploymentModal.statusInFlight s = []
         /\ DeploymentModal.logsInFlight s = []
         /\ DeploymentModal.sent s = []).
  assert (Hstep : forall e s, idle s -> idle (DeploymentModal.step e s)).
  { intros e s (Hp & Ht & Hs & Hl & Hsent).
    destruct e as [h| |req o|req o| |]; cbn [DeploymentModal.step].
    - rewrite Ht. cbn. repeat split; assumption.
    - unfold DeploymentModal.fetchDeploymentStatus. rewrite Hp. repeat split; assumption.
    - rewrite Hs. cbn. repeat split; assumption.
    - rewrite Hl. cbn. repeat split; assumption.
    - unfold DeploymentModal.adaptiveEffect. rewrite Hp.
      destruct ((5 <? DeploymentModal.pollCount s)%nat
                && (length (DeploymentModal.logs s)
                    =? DeploymentModal.lastLogCount s)%nat);
        repeat split; assumption.
    - unfold DeploymentModal.cleanup, DeploymentModal.stopPolling. rewrite Hp.
      repeat split; assumption. }
  assert (Hrun : forall s, idle s -> idle (DeploymentModal.run es s)).
  { induction es as [|e es IH]; intros s Hs; [exact Hs|].
    apply IH, Hstep, Hs. }
  destruct (Hrun (DeploymentModal.mount d cb)) as (Hp & _ & _ & _ & Hsent).
  - repeat split.
  - auto.
Qed.

(** Nothing moves a modal that was just mounted. *)
Lemma modal_run_mount (d : option string) (cb : bool) (es : list DeploymentModal.Event) :
  DeploymentModal.run es (DeploymentModal.mount d cb) = DeploymentModal.mount d cb.
Proof.
  induction es as [|e es IH]; [reflexivity|].
  cbn [DeploymentModal.run fold_left].
  replace (DeploymentModal.step e (DeploymentModal.mount d cb))
    with (DeploymentModal.mount d cb) by (destruct e; reflexivity).
  exact IH.
Qed.

(** C5. The viewer does not stay stopped after the terminal detection.
    A viewer for deployment "d1" of project "p1" receives "Done" in its
    first response: the completion branch sets the latch, calls
    [updateProjectStatus] and clears interval 1; the provider renders, the
    effect runs again, sends a request at once and creates interval 2,
    which the latch keeps every later marker from clearing. After three
    firings of interval 2 five requests have been sent, and the interval
    is still live. *)
Theorem viewer_polls_after_completion :
  LogViewer.pollingRef
    (LogViewer.mount (Some "d1") (Some "p1") (ProjectContext.initial None)) = Some 1
  /\ LogViewer.sent
       (LogViewer.mount (Some "d1") (Some "p1") (ProjectContext.initial None)) = 1
  /\ LogViewer.doneDetectedRef
       (LogViewer.run [LogViewer.Settle 0 LogViewer.doneReply]
          (LogViewer.mount (Some "d1") (Some "p1") (ProjectContext.initial None))) = true
  /\ LogViewer.statusCalls
       (LogViewer.run [LogViewer.Settle 0 LogViewer.doneReply]
          (LogViewer.mount (Some "d1") (Some "p1") (ProjectContext.initial None)))
     = [("p1", "success")]
  /\ Timers.lookupTimer 1
       (LogViewer.timers
          (LogViewer.run [LogViewer.Settle 0 LogViewer.doneReply]
             (LogViewer.mount (Some "d1") (Some "p1") (ProjectContext.initial None))))
     = None
  /\ LogViewer.pollingRef
       (LogViewer.run [LogViewer.Settle 0 LogViewer.doneReply]
          (LogViewer.mount (Some "d1") (Some "p1") (ProjectContext.initial None))) = Some 2
  /\ LogViewer.periods
       (LogViewer.run [LogViewer.Settle 0 LogViewer.doneReply]
          (LogViewer.mount (Some "d1") (Some "p1") (ProjectContext.initial None)))
     = [5000%N]
  /\ LogViewer.sent
       (LogViewer.run [LogViewer.Settle 0 LogViewer.doneReply]
          (LogViewer.mount (Some "d1") (Some "p1") (ProjectContext.initial None))) = 2
  /\ LogViewer.sent
       (LogViewer.run
          [LogViewer.Settle 0 LogViewer.doneReply;
           LogViewer.Fire 2; LogViewer.Settle 1 LogViewer.doneReply;
           LogViewer.Fire 2; LogViewer.Settle 2 LogViewer.doneReply;
           LogViewer.Fire 2]
          (LogViewer.mount (Some "d1") (Some "p1") (ProjectContext.initial None))) = 5
  /\ LogViewer.periods
       (LogViewer.run
          [LogViewer.Settle 0 LogViewer.doneReply;
           LogViewer.Fire 2; LogViewer.Settle 1 LogViewer.doneReply;
           LogViewer.Fire 2; LogViewer.Settle 2 LogViewer.doneReply;
           LogViewer.Fire 2]
          (LogViewer.mount (Some "d1") (Some "p1") (ProjectContext.initial None)))
     = [5000%N].
Proof. vm_compute. repeat split. Qed.

Module DeploymentModalLatch.
Import Net Logs Timers TimersFacts DeploymentModal DeploymentModalFacts.

(** What a step can do to the latch and to the record of [onComplete]
    calls is decided by [logsSettle] alone. *)
Lemma statusSettles_frame (c : Closure) (o : StatusReply) (s : State) :
  projectRefreshed (statusSettles c o s) = projectRefreshed s
  /\ onCompleteCalls (statusSettles c o s) = onCompleteCalls s
  /\ hasOnComplete (statusSettles c o s) = hasOnComplete s.
Proof.
  unfold statusSettles.
  assert (Herr : forall err,
             projectRefreshed (onError err s) = projectRefreshed s
             /\ onCompleteCalls (onError err s) = onCompleteCalls s
             /\ hasOnComplete (onError err s) = hasOnComplete s).
  { intros err. unfold onError.
    match goal with |- context [stopPolling ?x] =>
      destruct (modal_stopPolling_frame x) as (_ & F2 & F3 & F4 & _) end.
    rewrite F2, F3, F4. auto. }
  destruct o as [r|e]; [|apply Herr].
  destruct (negb (isSuccess r)); [apply Herr|].
  destruct (String.eqb _ _);
    destruct (negb (Js.truthy (cl_currentDeploymentId c))
              && Js.truthy (latestDeploymentId (data r)));
    match goal with |- context [if ?b then _ else _] => destruct b end; auto.
Qed.

Lemma onError_latch (err : Error) (s : State) :
  projectRefreshed (onError err s) = projectRefreshed s
  /\ onCompleteCalls (onError err s) = onCompleteCalls s
  /\ hasOnComplete (onError err s) = hasOnComplete s.
Proof.
  unfold onError.
  match goal with |- context [stopPolling ?x] =>
    destruct (modal_stopPolling_frame x) as (_ & F2 & F3 & F4 & _) end.
  rewrite F2, F3, F4. auto.
Qed.

Lemma adaptiveEffect_frame (s : State) :
  projectRefreshed (adaptiveEffect s) = projectRefreshed s
  /\ onCompleteCalls (adaptiveEffect s) = onCompleteCalls s
  /\ hasOnComplete (adaptiveEffect s) = hasOnComplete s.
Proof.
  unfold adaptiveEffect.
  destruct ((5 <? pollCount s)%nat && (length (logs s) =? lastLogCount s)%nat);
    [destruct (pollingInterval s)|]; auto.
Qed.

Lemma fetchDeploymentStatus_frame (c : Closure) (s : State) :
  projectRefreshed (fetchDeploymentStatus c s) = projectRefreshed s
  /\ onCompleteCalls (fetchDeploymentStatus c s) = onCompleteCalls s
  /\ hasOnComplete (fetchDeploymentStatus c s) = hasOnComplete s.
Proof. unfold fetchDeploymentStatus. destruct (pollingInterval s); auto. Qed.

Lemma cleanup_frame (s : State) :
  projectRefreshed (cleanup s) = projectRefreshed s
  /\ onCompleteCalls (cleanup s) = onCompleteCalls s
  /\ hasOnComplete (cleanup s) = hasOnComplete s.
Proof.
  unfold cleanup. destruct (modal_stopPolling_frame s) as (_ & F2 & F3 & F4 & _). auto.
Qed.

Lemma onDone_hasOnComplete (newStatus : string) (s : State) :
  hasOnComplete (onDone newStatus s) = hasOnComplete s.
Proof.
  unfold onDone, stopPolling. cbn.
  destruct (pollingInterval s); cbn; destruct (hasOnComplete s) eqn:E; cbn;
    rewrite ?E; reflexivity.
Qed.

Lemma step_hasOnComplete (e : Event) (s : State) :
  hasOnComplete (step e s) = hasOnComplete s.
Proof.
  destruct e as [h| |req o|req o| |]; cbn [step].
  - destruct (lookupTimer h (timers s)); [|reflexivity].
    apply fetchDeploymentStatus_frame.
  - apply fetchDeploymentStatus_frame.
  - destruct (lookupReq req (statusInFlight s)); [|reflexivity].
    now rewrite (proj2 (proj2 (statusSettles_frame _ _ _))).
  - destruct (lookupReq req (logsInFlight s)) as [newStatus|]; [|reflexivity].
    unfold logsSettle. destruct o as [r|err].
    + destruct (negb (isSuccess r));
        [now rewrite (proj2 (proj2 (onError_latch _ _)))|].
      destruct (hasDoneLog _ && _); [|reflexivity].
      now rewrite onDone_hasOnComplete.
    + now rewrite (proj2 (proj2 (onError_latch _ _))).
  - apply adaptiveEffect_frame.
  - apply cleanup_frame.
Qed.

Lemma run_hasOnComplete (es : list Event) (s : State) :
  hasOnComplete (run es s) = hasOnComplete s.
Proof.
  revert s. induction es as [|e es IH]; intros s; [reflexivity|].
  change (run (e :: es) s) with (run es (step e s)).
  now rewrite IH, step_hasOnComplete.
Qed.

(** An event that carries no marker leaves the latch and the record of
    [onComplete] calls alone. *)
Lemma modal_step_without_marker (e : Event) (s : State) :
  markerEvent e = false ->
  projectRefreshed (step e s) = projectRefreshed s
  /\ onCompleteCalls (step e s) = onCompleteCalls s.
Proof.
  intros Hm. destruct e as [h| |req o|req o| |]; cbn [step].
  - destruct (lookupTimer h (timers s)); [|auto].
    destruct (fetchDeploymentStatus_frame (callback t) s) as (? & ? & _); auto.
  - destruct (fetchDeploymentStatus_frame (closure s) s) as (? & ? & _); auto.
  - destruct (lookupReq req (statusInFlight s)); [|auto].
    match goal with |- context [statusSettles ?c ?o ?x] =>
      destruct (statusSettles_frame c o x) as (? & ? & _) end; auto.
  - destruct (lookupReq req (logsInFlight s)) as [newStatus|]; [|auto].
    unfold logsSettle. destruct o as [r|err].
    + cbn in Hm. destruct (isSuccess r); cbn.
      * cbn in Hm. rewrite Hm. cbn. auto.
      * match goal with |- context [onError ?err ?x] =>
          destruct (onError_latch err x) as (? & ? & _) end; auto.
    + match goal with |- context [onError ?err ?x] =>
        destruct (onError_latch err x) as (? & ? & _) end; auto.
  - destruct (adaptiveEffect_frame s) as (? & ? & _); auto.
  - destruct (cleanup_frame s) as (? & ? & _); auto.
Qed.

(** Once the latch is set, no event completes again. *)
Lemma modal_step_latched (e : Event) (s : State) :
  projectRefreshed s = true ->
  projectRefreshed (step e s) = true
  /\ onCompleteCalls (step e s) = onCompleteCalls s.
Proof.
  intros Hl.
  destruct (markerEvent e) eqn:Hm.
  - destruct e as [h| |req o|req o| |]; try discriminate. cbn [step].
    destruct (lookupReq req (logsInFlight s)) as [newStatus|]; [|auto].
    unfold logsSettle. destruct o as [r|err]; [|discriminate].
    cbn in Hm. apply andb_true_iff in Hm as [Hok Hdone]. rewrite Hok. cbn.
    rewrite Hl, andb_false_r. cbn. auto.
  - destruct (modal_step_without_marker e s Hm) as [E1 E2]. rewrite E1. auto.
Qed.

Lemma modal_run_latched (es : list Event) (s : State) :
  projectRefreshed s = true ->
  projectRefreshed (run es s) = true
  /\ onCompleteCalls (run es s) = onCompleteCalls s.
Proof.
  revert s. induction es as [|e es IH]; intros s Hl; [auto|].
  destruct (modal_step_latched e s Hl) as [Hl' E].
  destruct (IH _ Hl') as [Hl'' E'].
  change (run (e :: es) s) with (run es (step e s)).
  split; [exact Hl'' | now rewrite E', E].
Qed.

Lemma modal_run_without_marker (es : list Event) (s : State) :
  forallb (fun e => negb (markerEvent e)) es = true ->
  projectRefreshed (run es s) = projectRefreshed s
  /\ onCompleteCalls (run es s) = onCompleteCalls s.
Proof.
  revert s. induction es as [|e es IH]; intros s H; [auto|].
  cbn in H. apply andb_true_iff in H as [He Hes].
  apply negb_true_iff in He.
  destruct (modal_step_without_marker e s He) as [E1 E2].
  destruct (IH (step e s) Hes) as [E1' E2'].
  change (run (e :: es) s) with (run es (step e s)).
  split; congruence.
Qed.

(** The first reply with a marker completes the session: the latch is
    set, the interval is cleared and [onComplete], when there is one, is
    called with the status of that tick. *)
Lemma modal_settle_first_marker (req : nat) (o : LogsReply) (newStatus : string) (s : State) :
  projectRefreshed s = false ->
  lookupReq req (logsInFlight s) = Some newStatus ->
  carriesMarker o = true ->
  let s' := step (SettleLogs req o) s in
  onCompleteCalls s'
  = onCompleteCalls s ++ (if hasOnComplete s then [newStatus] else [])
  /\ projectRefreshed s' = true
  /\ deploymentFinished s' = true
  /\ stopped s'.
Proof.
  intros Hl Hreq Hm. cbn [step]. rewrite Hreq.
  unfold logsSettle. destruct o as [r|err]; [|discriminate].
  cbn in Hm. apply andb_true_iff in Hm as [Hok Hdone]. rewrite Hok. cbn.
  rewrite Hdone, Hl. cbn.
  match goal with |- context [onDone ?n ?x] =>
    pose proof (onDone_stopped n x) as Hs end.
  split; [|split; [|split]]; try exact Hs; unfold onDone;
    match goal with |- context [stopPolling ?x] =>
      destruct (modal_stopPolling_frame x) as (_ & F2 & F3 & F4 & _);
      unfold stopPolling in *; destruct (pollingInterval x)
    end; cbn in *; destruct (hasOnComplete s); cbn; rewrite ?app_nil_r; reflexivity.
Qed.

End DeploymentModalLatch.

Lemma LogViewer_run_app (es1 es2 : list LogViewer.Event) (s : LogViewer.State) :
  LogViewer.run (es1 ++ es2) s = LogViewer.run es2 (LogViewer.run es1 s).
Proof. apply fold_left_app. Qed.

Lemma DeploymentModal_run_app (es1 es2 : list DeploymentModal.Event)
    (s : DeploymentModal.State) :
  DeploymentModal.run (es1 ++ es2) s = DeploymentModal.run es2 (DeploymentModal.run es1 s).
Proof. apply fold_left_app. Qed.

(** C2 (as amended). The completion is latched. In a viewer that was
    given a project id, the first reply that carries a marker performs the
    completion (the latch is set, [updateProjectStatus(projectId,
    "success")] is called, the interval the viewer holds at that moment
    is cleared), and whatever follows, markers, renders of the provider
    and the unmount included, performs it no second time. The same holds
    for the
    modal from any state whose latch is not yet set: the first reply
    with a marker sets the latch, clears the interval and calls
    [onComplete] (when one was passed) once, and no later event calls it
    again. *)
Theorem completion_latched
    (d : option string) (pid : string) (ctx : ProjectContext.State)
    (evs1 evs2 : list LogViewer.Event) (req : nat) (o : LogViewer.LogsReply)
    (m : DeploymentModal.State) (ems1 ems2 : list DeploymentModal.Event)
    (mreq : nat) (mo : DeploymentModal.LogsReply) (newStatus : string) :
  Js.truthy (Some pid) = true ->
  forallb (fun e => negb (LogViewer.markerEvent e)) evs1 = true ->
  req ∈ LogViewer.inFlight (LogViewer.run evs1 (LogViewer.mount d (Some pid) ctx)) ->
  LogViewer.carriesMarker o = true ->
  DeploymentModal.projectRefreshed m = false ->
  forallb (fun e => negb (DeploymentModal.markerEvent e)) ems1 = true ->
  DeploymentModal.lookupReq mreq
    (DeploymentModal.logsInFlight (DeploymentModal.run ems1 m)) = Some newStatus ->
  DeploymentModal.carriesMarker mo = true ->
  (LogViewer.statusCalls (LogViewer.run evs1 (LogViewer.mount d (Some pid) ctx)) = []
   /\ LogViewer.statusCalls
        (LogViewer.run (evs1 ++ [LogViewer.Settle req o])
           (LogViewer.mount d (Some pid) ctx)) = [(pid, "success")]
   /\ (forall h,
         LogViewer.pollingRef (LogViewer.run evs1 (LogViewer.mount d (Some pid) ctx))
         = Some h ->
         Timers.lookupTimer h
           (LogViewer.timers
              (LogViewer.run (evs1 ++ [LogViewer.Settle req o])
                 (LogViewer.mount d (Some pid) ctx))) = None)
   /\ LogViewer.statusCalls
        (LogViewer.run (evs1 ++ LogViewer.Settle req o :: evs2)
           (LogViewer.mount d (Some pid) ctx)) = [(pid, "success")])
  /\ (DeploymentModal.onCompleteCalls (DeploymentModal.run ems1 m)
      = DeploymentModal.onCompleteCalls m
      /\ DeploymentModal.onCompleteCalls
           (DeploymentModal.run (ems1 ++ [DeploymentModal.SettleLogs mreq mo]) m)
         = DeploymentModal.onCompleteCalls m
           ++ (if DeploymentModal.hasOnComplete m then [newStatus] else [])
      /\ DeploymentModal.stopped
           (DeploymentModal.run (ems1 ++ [DeploymentModal.SettleLogs mreq mo]) m)
      /\ DeploymentModal.onCompleteCalls
           (DeploymentModal.run (ems1 ++ DeploymentModal.SettleLogs mreq mo :: ems2) m)
         = DeploymentModal.onCompleteCalls m
           ++ (if DeploymentModal.hasOnComplete m then [newStatus] else [])).
Proof.
  intros Ht Hev1 Hreq Ho Hlatch Hem1 Hmreq Hmo. split.
  - set (v0 := LogViewer.mount d (Some pid) ctx) in *.
    destruct (LogViewerLatch.viewer_run_without_marker evs1 v0 Hev1) as [L1 C1].
    assert (L0 : LogViewer.doneDetectedRef v0 = false).
    { unfold v0, LogViewer.mount. now destruct (negb (Js.truthy d)). }
    assert (C0 : LogViewer.statusCalls v0 = []).
    { unfold v0, LogViewer.mount. now destruct (negb (Js.truthy d)). }
    assert (P0 : LogViewer.projectId (LogViewer.run evs1 v0) = Some pid).
    { rewrite LogViewerLatch.run_projectId. unfold v0, LogViewer.mount.
      now destruct (negb (Js.truthy d)). }
    rewrite L0 in L1. rewrite C0 in C1.
    pose proof (LogViewerFacts.run_wired evs1 v0 (LogViewerFacts.mount_wired _ _ _)) as W.
    destruct (LogViewerLatch.viewer_settle_first_marker req o pid _ W L1 P0 Ht Hreq Ho)
      as (S1 & S2 & _ & S4 & _).
    rewrite C1 in S1. cbn in S1.
    split; [exact C1|].
    rewrite LogViewer_run_app. cbn [LogViewer.run fold_left].
    split; [exact S1|]. split; [exact S4|].
    change (evs1 ++ LogViewer.Settle req o :: evs2)
      with (evs1 ++ [LogViewer.Settle req o] ++ evs2).
    rewrite app_assoc, LogViewer_run_app, LogViewer_run_app.
    cbn [LogViewer.run fold_left].
    destruct (LogViewerLatch.viewer_run_latched evs2 _ S2) as [_ E]. fold LogViewer.run in E.
    unfold LogViewer.run in *. rewrite E. exact S1.
  - destruct (DeploymentModalLatch.modal_run_without_marker ems1 m Hem1) as [L1 C1].
    rewrite Hlatch in L1.
    destruct (DeploymentModalLatch.modal_settle_first_marker mreq mo newStatus _ L1 Hmreq Hmo)
      as (S1 & S2 & _ & S4).
    rewrite C1, DeploymentModalLatch.run_hasOnComplete in S1.
    split; [exact C1|].
    rewrite DeploymentModal_run_app. cbn [DeploymentModal.run fold_left].
    split; [exact S1|]. split; [exact S4|].
    change (ems1 ++ DeploymentModal.SettleLogs mreq mo :: ems2)
      with (ems1 ++ [DeploymentModal.SettleLogs mreq mo] ++ ems2).
    rewrite app_assoc, DeploymentModal_run_app, DeploymentModal_run_app.
    cbn [DeploymentModal.run fold_left].
    destruct (DeploymentModalLatch.modal_run_latched ems2 _ S2) as [_ E].
    unfold DeploymentModal.run in *. rewrite E. exact S1.
Qed.

Lemma completion_latched_witness :
  Js.truthy (Some "p1") = true
  /\ forallb (fun e => negb (LogViewer.markerEvent e))
       [LogViewer.Settle 0 (LogViewer.logsReply ["Building..."]); LogViewer.Fire 1] = true
  /\ 1 ∈ LogViewer.inFlight
       (LogViewer.run
          [LogViewer.Settle 0 (LogViewer.logsReply ["Building..."]); LogViewer.Fire 1]
          (LogViewer.mount (Some "d1") (Some "p1") (ProjectContext.initial (Some "t"))))
  /\ LogViewer.carriesMarker LogViewer.doneReply = true
  /\ DeploymentModal.projectRefreshed (DeploymentModal.polling 3000 (Some "d1") true) = false
  /\ forallb (fun e => negb (DeploymentModal.markerEvent e))
       [DeploymentModal.Fire 1;
        DeploymentModal.SettleStatus 0 (DeploymentModal.statusReply "RUNNING" None)] = true
  /\ DeploymentModal.lookupReq 1
       (DeploymentModal.logsInFlight
          (DeploymentModal.run
             [DeploymentModal.Fire 1;
              DeploymentModal.SettleStatus 0 (DeploymentModal.statusReply "RUNNING" None)]
             (DeploymentModal.polling 3000 (Some "d1") true))) = Some "running"
  /\ DeploymentModal.carriesMarker DeploymentModal.doneReply = true
  /\ (LogViewer.statusCalls
        (LogViewer.run
           [LogViewer.Settle 0 (LogViewer.logsReply ["Building..."]); LogViewer.Fire 1]
           (LogViewer.mount (Some "d1") (Some "p1") (ProjectContext.initial (Some "t"))))
      = []
      /\ LogViewer.statusCalls
           (LogViewer.run
              ([LogViewer.Settle 0 (LogViewer.logsReply ["Building..."]); LogViewer.Fire 1]
               ++ [LogViewer.Settle 1 LogViewer.doneReply])
              (LogViewer.mount (Some "d1") (Some "p1") (ProjectContext.initial (Some "t"))))
         = [("p1", "success")]
      /\ (forall h,
            LogViewer.pollingRef
              (LogViewer.run
                 [LogViewer.Settle 0 (LogViewer.logsReply ["Building..."]); LogViewer.Fire 1]
                 (LogViewer.mount (Some "d1") (Some "p1")
                    (ProjectContext.initial (Some "t"))))
            = Some h ->
            Timers.lookupTimer h
              (LogViewer.timers
                 (LogViewer.run
                    ([LogViewer.Settle 0 (LogViewer.logsReply ["Building..."]);
                      LogViewer.Fire 1]
                     ++ [LogViewer.Settle 1 LogViewer.doneReply])
                    (LogViewer.mount (Some "d1") (Some "p1")
                       (ProjectContext.initial (Some "t"))))) = None)
      /\ LogViewer.statusCalls
           (LogViewer.run
              ([LogViewer.Settle 0 (LogViewer.logsReply ["Building..."]); LogViewer.Fire 1]
               ++ LogViewer.Settle 1 LogViewer.doneReply
                  :: [LogViewer.Fire 1;
                      LogViewer.Settle 2 LogViewer.doneReply])
              (LogViewer.mount (Some "d1") (Some "p1") (ProjectContext.initial (Some "t"))))
         = [("p1", "success")])
  /\ (DeploymentModal.onCompleteCalls
        (DeploymentModal.run
           [DeploymentModal.Fire 1;
            DeploymentModal.SettleStatus 0 (DeploymentModal.statusReply "RUNNING" None)]
           (DeploymentModal.polling 3000 (Some "d1") true))
      = DeploymentModal.onCompleteCalls (DeploymentModal.polling 3000 (Some "d1") true)
      /\ DeploymentModal.onCompleteCalls
           (DeploymentModal.run
              ([DeploymentModal.Fire 1;
                DeploymentModal.SettleStatus 0 (DeploymentModal.statusReply "RUNNING" None)]
               ++ [DeploymentModal.SettleLogs 1
                     DeploymentModal.doneReply])
              (DeploymentModal.polling 3000 (Some "d1") true))
         = DeploymentModal.onCompleteCalls (DeploymentModal.polling 3000 (Some "d1") true)
           ++ (if DeploymentModal.hasOnComplete (DeploymentModal.polling 3000 (Some "d1") true)
               then ["running"] else [])
      /\ DeploymentModal.stopped
           (DeploymentModal.run
              ([DeploymentModal.Fire 1;
                DeploymentModal.SettleStatus 0 (DeploymentModal.statusReply "RUNNING" None)]
               ++ [DeploymentModal.SettleLogs 1
                     DeploymentModal.doneReply])
              (DeploymentModal.polling 3000 (Some "d1") true))
      /\ DeploymentModal.onCompleteCalls
           (DeploymentModal.run
              ([DeploymentModal.Fire 1;
                DeploymentModal.SettleStatus 0 (DeploymentModal.statusReply "RUNNING" None)]
               ++ DeploymentModal.SettleLogs 1
                    DeploymentModal.doneReply
                  :: [DeploymentModal.Fire 1; DeploymentModal.Effect])
              (DeploymentModal.polling 3000 (Some "d1") true))
         = DeploymentModal.onCompleteCalls (DeploymentModal.polling 3000 (Some "d1") true)
           ++ (if DeploymentModal.hasOnComplete (DeploymentModal.polling 3000 (Some "d1") true)
               then ["running"] else [])).
Proof.
  split; [reflexivity|]. split; [reflexivity|].
  split; [vm_compute; repeat constructor|].
  split; [reflexivity|]. split; [reflexivity|]. split; [reflexivity|].
  split; [reflexivity|]. split; [reflexivity|].
  apply (completion_latched (Some "d1") "p1" (ProjectContext.initial (Some "t"))
           [LogViewer.Settle 0 (LogViewer.logsReply ["Building..."]); LogViewer.Fire 1]
           [LogViewer.Fire 1;
            LogViewer.Settle 2 LogViewer.doneReply]
           1 LogViewer.doneReply
           (DeploymentModal.polling 3000 (Some "d1") true)
           [DeploymentModal.Fire 1;
            DeploymentModal.SettleStatus 0 (DeploymentModal.statusReply "RUNNING" None)]
           [DeploymentModal.Fire 1; DeploymentModal.Effect]
           1 DeploymentModal.doneReply "running");
    try reflexivity.
  vm_compute; repeat constructor.
Defined.

(** A viewer without a project id: two replies in a row carry a marker,
    the completion is performed for neither, and the viewer keeps its
    interval. *)
Lemma viewer_without_project_never_completes :
  LogViewer.carriesMarker LogViewer.doneReply = true
  /\ LogViewer.inFlight (LogViewer.mount (Some "d1") None (ProjectContext.initial None))
     = [0]
  /\ LogViewer.inFlight
       (LogViewer.run [LogViewer.Settle 0 LogViewer.doneReply; LogViewer.Fire 1]
          (LogViewer.mount (Some "d1") None (ProjectContext.initial None)))
     = [1]
  /\ LogViewer.statusCalls
       (LogViewer.run [LogViewer.Settle 0 LogViewer.doneReply; LogViewer.Fire 1;
                       LogViewer.Settle 1 LogViewer.doneReply]
          (LogViewer.mount (Some "d1") None (ProjectContext.initial None)))
     = []
  /\ LogViewer.pollingRef
       (LogViewer.run [LogViewer.Settle 0 LogViewer.doneReply; LogViewer.Fire 1;
                       LogViewer.Settle 1 LogViewer.doneReply]
          (LogViewer.mount (Some "d1") None (ProjectContext.initial None)))
     = Some 1.
Proof. vm_compute. repeat split. Qed.




(** C6. A transport error does not end the polling. In every state a
    viewer reaches, when a request in flight fails in the network the
    [catch] block only records the error: the interval ref and the timer
    table are as before, no request is sent at once, and the next firing
    of the interval sends the request again; a viewer that is in the tree
    and has a deployment id holds such an interval. The modal, as it is
    written, performs no tick fetch that could fail: from mount on it
    sends no request. *)
Theorem transport_error_retried
    (d pid : option string) (ctx : ProjectContext.State) (es : list LogViewer.Event)
    (req : nat) (err : Net.Error)
    (md : option string) (cb : bool) (mes : list DeploymentModal.Event) :
  req ∈ LogViewer.inFlight (LogViewer.run es (LogViewer.mount d pid ctx)) ->
  LogViewer.pollingRef
    (LogViewer.step (LogViewer.Settle req (Net.Failure err))
       (LogViewer.run es (LogViewer.mount d pid ctx)))
  = LogViewer.pollingRef (LogViewer.run es (LogViewer.mount d pid ctx))
  /\ LogViewer.timers
       (LogViewer.step (LogViewer.Settle req (Net.Failure err))
          (LogViewer.run es (LogViewer.mount d pid ctx)))
     = LogViewer.timers (LogViewer.run es (LogViewer.mount d pid ctx))
  /\ LogViewer.sent
       (LogViewer.step (LogViewer.Settle req (Net.Failure err))
          (LogViewer.run es (LogViewer.mount d pid ctx)))
     = LogViewer.sent (LogViewer.run es (LogViewer.mount d pid ctx))
  /\ (forall h,
        LogViewer.pollingRef (LogViewer.run es (LogViewer.mount d pid ctx)) = Some h ->
        LogViewer.sent
          (LogViewer.step (LogViewer.Fire h)
             (LogViewer.step (LogViewer.Settle req (Net.Failure err))
                (LogViewer.run es (LogViewer.mount d pid ctx))))
        = S (LogViewer.sent (LogViewer.run es (LogViewer.mount d pid ctx))))
  /\ (LogViewer.mounted (LogViewer.run es (LogViewer.mount d pid ctx)) = true ->
      Js.truthy d = true ->
      is_Some (LogViewer.pollingRef
                 (LogViewer.step (LogViewer.Settle req (Net.Failure err))
                    (LogViewer.run es (LogViewer.mount d pid ctx)))))
  /\ DeploymentModal.sent (DeploymentModal.run mes (DeploymentModal.mount md cb)) = [].
Proof.
  intros Hin.
  pose proof (LogViewerFacts.run_wired es _ (LogViewerFacts.mount_wired d pid ctx)) as W.
  set (v := LogViewer.run es (LogViewer.mount d pid ctx)) in *.
  assert (E : LogViewer.step (LogViewer.Settle req (Net.Failure err)) v
              = LogViewer.onError err
                  (LogViewer.set_inFlight
                     (filter (fun r => r <> req) (LogViewer.inFlight v)) v)).
  { cbn [LogViewer.step]. rewrite (bool_decide_eq_true_2 _ Hin). reflexivity. }
  rewrite E.
  split; [reflexivity|]. split; [reflexivity|]. split; [reflexivity|].
  split; [|split].
  - intros h Hh. cbn [LogViewer.step].
    change (LogViewer.timers (LogViewer.onError err _)) with (LogViewer.timers v).
    rewrite (LogViewerFacts.wired_lookup v h W Hh). reflexivity.
  - intros Hm Hd. destruct W as (_ & _ & _ & _ & W). apply W; [exact Hm|].
    unfold v. rewrite LogViewerLatch.run_deploymentId.
    unfold LogViewer.mount. rewrite Hd. exact Hd.
  - now rewrite modal_run_mount.
Qed.

Lemma transport_error_retried_witness :
  1 ∈ LogViewer.inFlight
        (LogViewer.run [LogViewer.Fire 1]
           (LogViewer.mount (Some "d1") (Some "p1") (ProjectContext.initial None)))
  /\ LogViewer.pollingRef
       (LogViewer.step (LogViewer.Settle 1 (Net.Failure DeploymentModal.networkError))
          (LogViewer.run [LogViewer.Fire 1]
             (LogViewer.mount (Some "d1") (Some "p1") (ProjectContext.initial None))))
     = Some 1
  /\ LogViewer.sent
       (LogViewer.step (LogViewer.Fire 1)
          (LogViewer.step (LogViewer.Settle 1 (Net.Failure DeploymentModal.networkError))
             (LogViewer.run [LogViewer.Fire 1]
                (LogViewer.mount (Some "d1") (Some "p1") (ProjectContext.initial None)))))
     = 3.
Proof.
  assert (Hin : 1 ∈ LogViewer.inFlight
                      (LogViewer.run [LogViewer.Fire 1]
                         (LogViewer.mount (Some "d1") (Some "p1")
                            (ProjectContext.initial None))))
    by (vm_compute; repeat constructor).
  split; [exact Hin|].
  destruct (transport_error_retried (Some "d1") (Some "p1") (ProjectContext.initial None)
              [LogViewer.Fire 1] 1 DeploymentModal.networkError None false [] Hin)
    as (H1 & _ & _ & H4 & _).
  split; [rewrite H1; reflexivity|].
  rewrite (H4 1 eq_refl). reflexivity.
Defined.

Module Overlap.
Import Net Logs Timers TimersFacts.

(** After mount the viewer's interval [1] stays live as long as nothing
    settles, and every firing adds a request to those in flight. *)
Lemma viewer_firings (n : nat) (d p : option string) (ctx : ProjectContext.State) :
  Js.truthy d = true ->
  let v := LogViewer.run (repeat (LogViewer.Fire 1) n) (LogViewer.mount d p ctx) in
  LogViewer.timers v = [mkTimer 1 5000%N tt]
  /\ LogViewer.inFlight v = seq 0 (S n)
  /\ LogViewer.sent v = S n.
Proof.
  intros Hd. induction n as [|n IH].
  - cbn. unfold LogViewer.mount. rewrite Hd. cbn. auto.
  - cbn zeta in *. replace (repeat (LogViewer.Fire 1) (S n))
      with (repeat (LogViewer.Fire 1) n ++ [LogViewer.Fire 1])
      by (symmetry; apply (repeat_cons n (LogViewer.Fire 1))).
    unfold LogViewer.run in *. rewrite fold_left_app. cbn [fold_left].
    destruct IH as (T & F & S0).
    set (v := fold_left (fun s e => LogViewer.step e s)
                (repeat (LogViewer.Fire 1) n) (LogViewer.mount d p ctx)) in *.
    assert (E : LogViewer.step (LogViewer.Fire 1) v = LogViewer.fetchLogs v).
    { cbn [LogViewer.step]. rewrite T. reflexivity. }
    rewrite E. cbn [LogViewer.fetchLogs LogViewer.timers LogViewer.inFlight LogViewer.sent].
    rewrite T, F, S0. split; [reflexivity|]. split; [|reflexivity].
    rewrite (seq_S (S n) 0). reflexivity.
Qed.

End Overlap.

(** C8 (as amended). Neither component checks whether a fetch is
    outstanding before it sends the next one. In the viewer every firing
    of the live interval sends a request, so after mount and [n] firings
    with no settlement in between [n + 1] requests are outstanding. In
    the modal a firing sends a status request whenever the interval ref
    is set, however many requests are still in flight. *)
Theorem ticks_overlap
    (n : nat) (d p : option string) (ctx : ProjectContext.State)
    (m : DeploymentModal.State) (h : nat) (t : Timers.Timer DeploymentModal.Closure) :
  Js.truthy d = true ->
  Timers.lookupTimer h (DeploymentModal.timers m) = Some t ->
  DeploymentModal.pollingInterval m <> None ->
  length (LogViewer.inFlight
            (LogViewer.run (repeat (LogViewer.Fire 1) n) (LogViewer.mount d p ctx)))
  = S n
  /\ DeploymentModal.statusInFlight (DeploymentModal.step (DeploymentModal.Fire h) m)
     = DeploymentModal.statusInFlight m
       ++ [(DeploymentModal.nextReq m, Timers.callback t)]
  /\ DeploymentModal.logsInFlight (DeploymentModal.step (DeploymentModal.Fire h) m)
     = DeploymentModal.logsInFlight m.
Proof.
  intros Hd Ht Hp. split.
  - destruct (Overlap.viewer_firings n d p ctx Hd) as (_ & F & _).
    rewrite F. apply length_seq.
  - cbn [DeploymentModal.step]. rewrite Ht. unfold DeploymentModal.fetchDeploymentStatus.
    destruct (DeploymentModal.pollingInterval m); [|now destruct Hp]. cbn. auto.
Qed.

Lemma ticks_overlap_witness :
  Js.truthy (Some "d1") = true
  /\ Timers.lookupTimer 1
       (DeploymentModal.timers
          (DeploymentModal.step (DeploymentModal.Fire 1)
             (DeploymentModal.polling 3000 (Some "d1") true)))
     = Some (Timers.mkTimer 1 3000 (DeploymentModal.mkClosure "running" (Some "d1")))
  /\ DeploymentModal.pollingInterval
       (DeploymentModal.step (DeploymentModal.Fire 1)
          (DeploymentModal.polling 3000 (Some "d1") true)) <> None
  /\ length (LogViewer.inFlight
               (LogViewer.run (repeat (LogViewer.Fire 1) 3)
                  (LogViewer.mount (Some "d1") (Some "p1") (ProjectContext.initial None))))
     = 4
  /\ DeploymentModal.statusInFlight
       (DeploymentModal.step (DeploymentModal.Fire 1)
          (DeploymentModal.step (DeploymentModal.Fire 1)
             (DeploymentModal.polling 3000 (Some "d1") true)))
     = DeploymentModal.statusInFlight
         (DeploymentModal.step (DeploymentModal.Fire 1)
            (DeploymentModal.polling 3000 (Some "d1") true))
       ++ [(DeploymentModal.nextReq
              (DeploymentModal.step (DeploymentModal.Fire 1)
                 (DeploymentModal.polling 3000 (Some "d1") true)),
            Timers.callback
              (Timers.mkTimer 1 3000 (DeploymentModal.mkClosure "running" (Some "d1"))))]
  /\ DeploymentModal.logsInFlight
       (DeploymentModal.step (DeploymentModal.Fire 1)
          (DeploymentModal.step (DeploymentModal.Fire 1)
             (DeploymentModal.polling 3000 (Some "d1") true)))
     = DeploymentModal.logsInFlight
         (DeploymentModal.step (DeploymentModal.Fire 1)
            (DeploymentModal.polling 3000 (Some "d1") true)).
Proof.
  split; [reflexivity|]. split; [reflexivity|]. split; [discriminate|].
  apply (ticks_overlap 3 (Some "d1") (Some "p1") (ProjectContext.initial None)
           (DeploymentModal.step (DeploymentModal.Fire 1)
              (DeploymentModal.polling 3000 (Some "d1") true))
           1 (Timers.mkTimer 1 3000 (DeploymentModal.mkClosure "running" (Some "d1"))));
    [reflexivity | reflexivity | discriminate].
Defined.

(** The viewer was mounted and its first request has not settled when the
    interval fires: the tick is not skipped, two requests are in flight. *)
Lemma viewer_tick_not_skipped :
  LogViewer.inFlight
    (LogViewer.mount (Some "d1") (Some "p1") (ProjectContext.initial None)) = [0]
  /\ LogViewer.inFlight
       (LogViewer.step (LogViewer.Fire 1)
          (LogViewer.mount (Some "d1") (Some "p1") (ProjectContext.initial None)))
     = [0; 1]
  /\ ~ length (LogViewer.inFlight
                 (LogViewer.step (LogViewer.Fire 1)
                    (LogViewer.mount (Some "d1") (Some "p1")
                       (ProjectContext.initial None)))) <= 1.
Proof. vm_compute. repeat split. lia. Qed.

Module StatusUpdate.
Import Net ProjectContext.

Lemma hasId_true (projectId : string) (p : Project) :
  hasId projectId p = true <-> prj_id p = projectId.
Proof. unfold hasId. apply String.eqb_eq. Qed.

(** [statusUpdater] rewrites the projects in place, one by one. *)
Lemma statusUpdater_lookup (projectId status : string) (ps : list Project)
    (i : nat) (p : Project) :
  ps !! i = Some p ->
  statusUpdater projectId status ps !! i
  = Some (if hasId projectId p
          then withDeployments (statusDeployments status (prj_deployments p)) p
          else p).
Proof.
  revert i. induction ps as [|q ps IH]; intros i H; [discriminate|].
  destruct i as [|i]; cbn in *.
  - now injection H as ->.
  - apply IH, H.
Qed.

Lemma statusUpdater_length (projectId status : string) (ps : list Project) :
  length (statusUpdater projectId status ps) = length ps.
Proof. unfold statusUpdater. apply length_map. Qed.

End StatusUpdate.

(** C7 (as amended). On the first terminal detection, in every state a
    viewer with a project id reaches, the interval the viewer holds is
    cleared and [updateProjectStatus] rewrites the cached project with
    that id: the latest deployment gets the status "success" and keeps
    its id, its [createdAt] and its [updatedAt]; a project without
    deployments gets the single deployment [{ status }]. Other projects
    are left as they are. *)
Theorem completion_sets_status_only
    (d : option string) (pid : string) (ctx : ProjectContext.State)
    (evs : list LogViewer.Event) (req : nat) (o : LogViewer.LogsReply) :
  Js.truthy (Some pid) = true ->
  LogViewer.doneDetectedRef (LogViewer.run evs (LogViewer.mount d (Some pid) ctx)) = false ->
  req ∈ LogViewer.inFlight (LogViewer.run evs (LogViewer.mount d (Some pid) ctx)) ->
  LogViewer.carriesMarker o = true ->
  (forall h,
     LogViewer.pollingRef (LogViewer.run evs (LogViewer.mount d (Some pid) ctx)) = Some h ->
     Timers.lookupTimer h
       (LogViewer.timers
          (LogViewer.step (LogViewer.Settle req o)
             (LogViewer.run evs (LogViewer.mount d (Some pid) ctx)))) = None)
  /\ (forall i project,
        ProjectContext.projects
          (LogViewer.context (LogViewer.run evs (LogViewer.mount d (Some pid) ctx))) !! i
        = Some project ->
        exists project',
          ProjectContext.projects
            (LogViewer.context
               (LogViewer.step (LogViewer.Settle req o)
                  (LogViewer.run evs (LogViewer.mount d (Some pid) ctx)))) !! i
          = Some project'
          /\ (ProjectContext.prj_id project <> pid -> project' = project)
          /\ (ProjectContext.prj_id project = pid ->
              project'
              = ProjectContext.withDeployments
                  (ProjectContext.statusDeployments "success"
                     (ProjectContext.prj_deployments project)) project))
  /\ (forall d0 rest,
        ProjectContext.statusDeployments "success" (Some (d0 :: rest))
        = ProjectContext.mkDeployment
            (ProjectContext.dep_id d0) (Some "success")
            (ProjectContext.dep_createdAt d0) (ProjectContext.dep_updatedAt d0)
          :: rest)
  /\ ProjectContext.statusDeployments "success" None
     = [ProjectContext.mkDeployment None (Some "success") None None].
Proof.
  intros Ht Hl Hin Hm.
  pose proof (LogViewerFacts.run_wired evs _ (LogViewerFacts.mount_wired d (Some pid) ctx))
    as W.
  assert (Hp : LogViewer.projectId (LogViewer.run evs (LogViewer.mount d (Some pid) ctx))
               = Some pid).
  { rewrite LogViewerLatch.run_projectId. unfold LogViewer.mount.
    now destruct (negb (Js.truthy d)). }
  set (v := LogViewer.run evs (LogViewer.mount d (Some pid) ctx)) in *.
  destruct (LogViewerLatch.viewer_settle_first_marker req o pid v W Hl Hp Ht Hin Hm)
    as (_ & _ & _ & Hs & Hprojects).
  split; [exact Hs|]. split; [|split; reflexivity].
  intros i project Hi. rewrite Hprojects.
  rewrite (StatusUpdate.statusUpdater_lookup pid "success" _ i project Hi).
  eexists. split; [reflexivity|].
  destruct (ProjectContext.hasId pid project) eqn:E.
  - apply StatusUpdate.hasId_true in E. split; [intros Hne; now destruct Hne | auto].
  - split; [auto|]. intros Heq. apply StatusUpdate.hasId_true in Heq. congruence.
Qed.

Lemma completion_sets_status_only_witness :
  Js.truthy (Some "p1") = true
  /\ LogViewer.doneDetectedRef
       (LogViewer.run [LogViewer.Fire 1]
          (LogViewer.mount (Some "d1") (Some "p1")
             (ProjectContext.set_projects (fun _ => [ProjectContext.runningProject])
                (ProjectContext.initial None)))) = false
  /\ 0 ∈ LogViewer.inFlight
       (LogViewer.run [LogViewer.Fire 1]
          (LogViewer.mount (Some "d1") (Some "p1")
             (ProjectContext.set_projects (fun _ => [ProjectContext.runningProject])
                (ProjectContext.initial None))))
  /\ LogViewer.carriesMarker LogViewer.doneReply = true
  /\ Timers.lookupTimer 1
       (LogViewer.timers
          (LogViewer.step (LogViewer.Settle 0 LogViewer.doneReply)
             (LogViewer.run [LogViewer.Fire 1]
                (LogViewer.mount (Some "d1") (Some "p1")
                   (ProjectContext.set_projects (fun _ => [ProjectContext.runningProject])
                      (ProjectContext.initial None)))))) = None.
Proof.
  assert (Hin : 0 ∈ LogViewer.inFlight
                      (LogViewer.run [LogViewer.Fire 1]
                         (LogViewer.mount (Some "d1") (Some "p1")
                            (ProjectContext.set_projects
                               (fun _ => [ProjectContext.runningProject])
                               (ProjectContext.initial None)))))
    by (vm_compute; repeat constructor).
  split; [reflexivity|]. split; [reflexivity|]. split; [exact Hin|].
  split; [reflexivity|].
  destruct (completion_sets_status_only (Some "d1") "p1"
              (ProjectContext.set_projects (fun _ => [ProjectContext.runningProject])
                 (ProjectContext.initial None))
              [LogViewer.Fire 1] 0 LogViewer.doneReply eq_refl eq_refl Hin eq_refl)
    as (H & _).
  apply (H 1). reflexivity.
Defined.

(** The viewer detects "Done" for a project whose running deployment has
    no [updatedAt]: afterwards the cached deployment is "success" and
    still has no [updatedAt]. *)
Lemma completion_leaves_updatedAt_unset :
  ProjectContext.projects
    (LogViewer.context
       (LogViewer.step (LogViewer.Settle 0 LogViewer.doneReply)
          (LogViewer.mount (Some "d1") (Some "p1")
             (ProjectContext.set_projects (fun _ => [ProjectContext.runningProject])
                (ProjectContext.initial None)))))
  = [ProjectContext.mkProject "p1" "demo" "https://example.org/demo.git" "demo"
       (Some [ProjectContext.mkDeployment (Some "d1") (Some "success")
                (Some "2025-01-01T00:00:00Z") None])]
  /\ ~ exists d rest t,
         ProjectContext.prj_deployments
           <$> head (ProjectContext.projects
                       (LogViewer.context
                          (LogViewer.step (LogViewer.Settle 0 LogViewer.doneReply)
                             (LogViewer.mount (Some "d1") (Some "p1")
                                (ProjectContext.set_projects
                                   (fun _ => [ProjectContext.runningProject])
                                   (ProjectContext.initial None))))))
         = Some (Some (d :: rest))
         /\ ProjectContext.dep_updatedAt d = Some t.
Proof.
  split; [vm_compute; reflexivity|].
  intros (d & rest & t & H & Ht). vm_compute in H.
  injection H as <- _. discriminate Ht.
Qed.

Module Adaptive.
Import Net Logs Timers TimersFacts DeploymentModal DeploymentModalFacts.

Lemma currentPeriod_stopped (s : State) : stopped s -> currentPeriod s = None.
Proof. unfold stopped, currentPeriod. now intros ->. Qed.

(** With more than five polls and an unchanged log count the live
    interval is replaced by one of 8000 ms. *)
Lemma adaptiveEffect_slows (s : State) :
  consistent s ->
  5 < pollCount s -> length (logs s) = lastLogCount s -> pollingInterval s <> None ->
  currentPeriod (adaptiveEffect s) = Some 8000%N.
Proof.
  intros Hc Hp Hl Hi. unfold adaptiveEffect.
  apply Nat.ltb_lt in Hp. apply Nat.eqb_eq in Hl. rewrite Hp, Hl. cbn [andb].
  unfold consistent in Hc.
  destruct (pollingInterval s) as [h|]; [|now destruct Hi].
  destruct Hc as (p & c & ->). rewrite clearInterval_own.
  unfold currentPeriod. cbn. now rewrite Nat.eqb_refl.
Qed.

(** Otherwise the interval is left alone. *)
Lemma adaptiveEffect_keeps (s : State) :
  pollCount s <= 5 \/ length (logs s) <> lastLogCount s ->
  currentPeriod (adaptiveEffect s) = currentPeriod s.
Proof.
  intros H. unfold adaptiveEffect.
  assert (E : ((5 <? pollCount s)%nat && (length (logs s) =? lastLogCount s)%nat) = false).
  { apply andb_false_iff. destruct H as [H|H].
    - left. apply Nat.ltb_ge. exact H.
    - right. apply Nat.eqb_neq. exact H. }
  rewrite E. reflexivity.
Qed.

(** After any event the period is what it was, or 8000 ms, or there is
    no interval any more. *)
Lemma step_period (e : Event) (s : State) (p' : N) :
  consistent s ->
  currentPeriod (step e s) = Some p' ->
  currentPeriod s = Some p' \/ p' = 8000%N.
Proof.
  intros Hc H.
  assert (Herr : forall err x, currentPeriod (onError err x) = Some p' -> False).
  { intros err x Hx. rewrite (currentPeriod_stopped _ (onError_stopped err x)) in Hx.
    discriminate. }
  destruct e as [h| |req o|req o| |]; cbn [step] in H.
  - left. destruct (lookupTimer h (timers s)); [|exact H].
    unfold fetchDeploymentStatus in H. now destruct (pollingInterval s).
  - left. unfold fetchDeploymentStatus in H. now destruct (pollingInterval s).
  - left. destruct (lookupReq req (statusInFlight s)) as [c|]; [|exact H].
    unfold statusSettles in H. destruct o as [r|err]; [|now apply Herr in H].
    destruct (negb (isSuccess r)); [now apply Herr in H|].
    destruct (String.eqb _ _);
      destruct (negb (Js.truthy (cl_currentDeploymentId c))
                && Js.truthy (latestDeploymentId (data r)));
      match type of H with context [if ?b then _ else _] => destruct b end; exact H.
  - left. destruct (lookupReq req (logsInFlight s)) as [newStatus|]; [|exact H].
    unfold logsSettle in H. destruct o as [r|err]; [|now apply Herr in H].
    destruct (negb (isSuccess r)); [now apply Herr in H|].
    destruct (hasDoneLog _ && _); [|exact H].
    rewrite (currentPeriod_stopped _ (onDone_stopped _ _)) in H. discriminate.
  - destruct (le_lt_dec (pollCount s) 5) as [Hle|Hgt];
      [left; now rewrite adaptiveEffect_keeps in H by auto|].
    destruct (Nat.eq_dec (length (logs s)) (lastLogCount s)) as [Heq|Hne];
      [|left; now rewrite adaptiveEffect_keeps in H by auto].
    destruct (pollingInterval s) as [h|] eqn:Hi.
    + right. rewrite adaptiveEffect_slows in H; [congruence | exact Hc | exact Hgt
                                                 | exact Heq | congruence].
    + unfold adaptiveEffect in H. rewrite Hi in H.
      destruct ((5 <? pollCount s)%nat && (length (logs s) =? lastLogCount s)%nat);
        unfold currentPeriod in H; cbn in H; rewrite Hi in H; discriminate.
  - unfold cleanup in H.
    rewrite (currentPeriod_stopped _ (modal_stopPolling_stopped s)) in H. discriminate.
Qed.

End Adaptive.

(** C4 (as amended). The viewer polls at a fixed period: in every state
    it reaches, whatever the ticks brought, every live interval has the
    base period of 5000 ms. No event resets an interval to a base period:
    in the modal the period of the interval it holds is, after any event,
    what it was before or 8000 ms, or the interval is gone. *)
Theorem adaptive_polling
    (d pid : option string) (ctx : ProjectContext.State) (es : list LogViewer.Event)
    (s : DeploymentModal.State) (e : DeploymentModal.Event) :
  (forall p,
     In p (LogViewer.periods (LogViewer.run es (LogViewer.mount d pid ctx))) ->
     p = 5000%N)
  /\ (DeploymentModal.consistent s ->
      forall p',
        DeploymentModal.currentPeriod (DeploymentModal.step e s) = Some p' ->
        DeploymentModal.currentPeriod s = Some p' \/ p' = 8000%N).
Proof.
  split.
  - intros p Hp.
    pose proof (LogViewerFacts.viewer_run_consistent es _
                  (LogViewerFacts.viewer_mount_consistent d pid ctx)) as H.
    unfold LogViewer.periods in Hp. unfold LogViewer.consistent in H. rewrite H in Hp.
    destruct (LogViewer.pollingRef (LogViewer.run es (LogViewer.mount d pid ctx)));
      cbn in Hp; [destruct Hp as [<-|[]]; reflexivity | destruct Hp].
  - intros Hc p'. now apply Adaptive.step_period.
Qed.

(** A viewer polls every 5000 ms and seven ticks in a row bring the same
    single log entry: eight requests were sent, the log count is still 1,
    and the interval still has 5000 ms. *)
Lemma viewer_interval_not_raised :
  LogViewer.sent
    (LogViewer.run (LogViewer.quietTicks 7)
       (LogViewer.mount (Some "d1") (Some "p1") (ProjectContext.initial None)))
  = 8
  /\ length (LogViewer.logs
               (LogViewer.run (LogViewer.quietTicks 7)
                  (LogViewer.mount (Some "d1") (Some "p1") (ProjectContext.initial None))))
     = 1
  /\ LogViewer.periods
       (LogViewer.run (LogViewer.quietTicks 7)
          (LogViewer.mount (Some "d1") (Some "p1") (ProjectContext.initial None)))
     = [5000%N]
  /\ ~ (exists p,
          In p (LogViewer.periods
                  (LogViewer.run (LogViewer.quietTicks 7)
                     (LogViewer.mount (Some "d1") (Some "p1")
                        (ProjectContext.initial None))))
          /\ (5000 < p)%N).
Proof.
  split; [vm_compute; reflexivity|]. split; [vm_compute; reflexivity|].
  split; [vm_compute; reflexivity|].
  intros (p & Hin & Hlt). vm_compute in Hin. destruct Hin as [<-|[]].
  vm_compute in Hlt. discriminate.
Qed.

(** * Further properties of the provider *)

Module CacheFacts.
Import Net ProjectContext ProjectContextFacts.

Lemma hasId_eq (projectId : string) (p : Project) :
  hasId projectId p = true <-> prj_id p = projectId.
Proof. unfold hasId. apply String.eqb_eq. Qed.

Lemma hasId_other (a b : string) (p : Project) :
  a <> b -> hasId a p = true -> hasId b p = false.
Proof.
  intros Hne Ha. apply hasId_eq in Ha. unfold hasId. apply String.eqb_neq. congruence.
Qed.

Lemma find_absent (projectId : string) (ps : list Project) :
  existsb (hasId projectId) ps = false -> find (hasId projectId) ps = None.
Proof.
  induction ps as [|p ps IH]; cbn; [reflexivity|].
  destruct (hasId projectId p); cbn; [discriminate | exact IH].
Qed.

Lemma find_present (projectId : string) (ps : list Project) :
  existsb (hasId projectId) ps = true -> exists p, find (hasId projectId) ps = Some p.
Proof.
  induction ps as [|p ps IH]; cbn; [discriminate|].
  destruct (hasId projectId p); cbn; eauto.
Qed.

Lemma find_replaced (projectId : string) (d : Project) (ps : list Project) :
  hasId projectId d = true ->
  existsb (hasId projectId) ps = true ->
  find (hasId projectId)
       (map (fun p => if hasId projectId p then d else p) ps) = Some d.
Proof.
  intros Hd. induction ps as [|p ps IH]; cbn; [discriminate|].
  destruct (hasId projectId p) eqn:E; cbn.
  - now rewrite Hd.
  - rewrite E. exact IH.
Qed.

Lemma find_replaced_other (a b : string) (d : Project) (ps : list Project) :
  a <> b -> hasId a d = true ->
  find (hasId b) (map (fun p => if hasId a p then d else p) ps) = find (hasId b) ps.
Proof.
  intros Hne Hd. induction ps as [|p ps IH]; cbn; [reflexivity|].
  destruct (hasId a p) eqn:E.
  - rewrite (hasId_other a b d Hne Hd), (hasId_other a b p Hne E). exact IH.
  - destruct (hasId b p); [reflexivity | exact IH].
Qed.

Lemma find_app_list (f : Project -> bool) (l1 l2 : list Project) :
  find f (l1 ++ l2) = match find f l1 with Some p => Some p | None => find f l2 end.
Proof.
  induction l1 as [|p l1 IH]; cbn; [reflexivity|].
  destruct (f p); [reflexivity | exact IH].
Qed.

End CacheFacts.

(** X1. The updater that stores a fetched project: afterwards the project
    is the cached entry of its id, the entries of all other ids are as
    before, and the list grew by one exactly when the id was absent. *)
Theorem upsert_lookup
    (projectId other : string) (projectData : ProjectContext.Project)
    (prevProjects : list ProjectContext.Project) :
  ProjectContext.prj_id projectData = projectId ->
  other <> projectId ->
  find (ProjectContext.hasId projectId)
       (ProjectContext.upsert projectId projectData prevProjects) = Some projectData
  /\ find (ProjectContext.hasId other)
          (ProjectContext.upsert projectId projectData prevProjects)
     = find (ProjectContext.hasId other) prevProjects
  /\ length (ProjectContext.upsert projectId projectData prevProjects)
     = if existsb (ProjectContext.hasId projectId) prevProjects
       then length prevProjects else S (length prevProjects).
Proof.
  intros Hid Hne. apply CacheFacts.hasId_eq in Hid.
  unfold ProjectContext.upsert.
  destruct (existsb (ProjectContext.hasId projectId) prevProjects) eqn:E.
  - split; [now apply CacheFacts.find_replaced|].
    split; [apply CacheFacts.find_replaced_other; [congruence | exact Hid]
           | apply length_map].
  - rewrite !CacheFacts.find_app_list, (CacheFacts.find_absent _ _ E). cbn.
    rewrite Hid, (CacheFacts.hasId_other projectId other projectData) by (congruence || exact Hid).
    split; [reflexivity|]. split; [now destruct (find _ prevProjects)|].
    rewrite length_app. cbn. lia.
Qed.

Lemma upsert_lookup_witness :
  ProjectContext.prj_id ProjectContext.demoProject = "p1"
  /\ "p2" <> "p1"
  /\ find (ProjectContext.hasId "p1")
          (ProjectContext.upsert "p1" ProjectContext.demoProject
             [ProjectContext.runningProject])
     = Some ProjectContext.demoProject.
Proof.
  split; [reflexivity|]. split; [discriminate|].
  apply (upsert_lookup "p1" "p2" ProjectContext.demoProject
           [ProjectContext.runningProject]); [reflexivity | discriminate].
Defined.

Module FlightFacts.
Import Net ProjectContext ProjectContextFacts CacheFacts.

(** [n] calls that all find the promise [p] in [loadingRef] only add their
    cancel functions to the global list. *)
Lemma calls_in_flight_state (n : nat) (projectId : string) (p : nat) (s : State) :
  loadingRef s !! projectId = Some p ->
  concurrentCalls n projectId s
  = (mkState (projects s) (isLoading s) (error s) (loadingRef s) (promises s)
             (axiosCancelTokens s ++ seq (nextId s) n) (token s) (requests s)
             (nextId s + n),
     repeat (Adopted p) n).
Proof.
  revert s. induction n as [|n IH]; intros s Hl.
  - cbn. rewrite app_nil_r, Nat.add_0_r. now destruct s.
  - cbn [concurrentCalls]. unfold getProjectById. cbn. rewrite Hl.
    rewrite IH by exact Hl. cbn.
    rewrite <- app_assoc. cbn. now rewrite Nat.add_succ_r.
Qed.

Lemma filter_seq_above (k a n : nat) :
  k < a -> filter (fun c => c <> k) (seq a n) = seq a n.
Proof.
  revert a. induction n as [|n IH]; intros a Hk; [reflexivity|].
  cbn [seq]. rewrite filter_cons.
  destruct (decide (a <> k)) as [_|He]; [|lia].
  now rewrite IH by lia.
Qed.

Lemma filter_own (k : nat) : filter (fun c => c <> k) [k] = [].
Proof.
  rewrite filter_cons. destruct (decide (k <> k)) as [Hne|_]; [now destruct Hne|].
  reflexivity.
Qed.

(** The provider after [S n] concurrent calls for an id that is neither
    cached nor in flight, the settlement of the request and the
    resumption of every caller. *)
Lemma scenario_final (n : nat) (projectId : string) (o : Reply Project) (s : State) :
  Js.inherited projectId = false ->
  loadingRef s !! projectId = None ->
  find (hasId projectId) (projects s) = None ->
  exists s2 results,
    concurrentScenario (S n) projectId o s = Some (s2, results)
    /\ projects s2
       = match fetchResult o with
         | Resolved projectData => upsert projectId projectData (projects s)
         | Rejected _ => projects s
         end
    /\ loadingRef s2 = delete projectId (loadingRef s)
    /\ axiosCancelTokens s2
       = filter (fun c => c <> nextId s) (axiosCancelTokens s) ++ seq (nextId s + 2) n
    /\ requests s2
       = requests s ++ [GetProject projectId (S (nextId s)) (nextId s)]
    /\ isLoading s2 = false
    /\ error s2
       = match fetchResult o with
         | Resolved _ => error s
         | Rejected err =>
             if isCancel err then error s
             else Some (Js.or_default (err_message err) "Failed to fetch project")
         end.
Proof.
  intros Hown Hledger Hcache.
  set (k := nextId s).
  set (s0 := mkState (projects s) true (error s) (<[projectId := S k]> (loadingRef s))
                     (<[S k := Pending]> (promises s)) (axiosCancelTokens s ++ [k])
                     (token s) (requests s ++ [GetProject projectId (S k) k]) (S (S k))).
  assert (E0 : getProjectById projectId s = (s0, Owner (S k) k)).
  { unfold getProjectById. cbn. rewrite Hledger, Hown, Hcache. reflexivity. }
  assert (L0 : loadingRef s0 !! projectId = Some (S k)) by apply lookup_insert_eq.
  pose proof (calls_in_flight_state n projectId (S k) s0 L0) as E1.
  unfold concurrentScenario. cbn [concurrentCalls]. rewrite E0, E1.
  unfold lastProjectRequest. cbn [requests s0]. rewrite last_snoc_request.
  cbn [resumeAll]. unfold resume. cbn [callerPromise].
  unfold fetchSettles.
  set (po := fetchResult o).
  match goal with |- context [set_promise (S k) (Done po) ?x] =>
    set (s1' := set_promise (S k) (Done po) x) end.
  assert (Hp : promises s1' !! S k = Some (Done po)) by apply lookup_insert_eq.
  rewrite Hp.
  destruct (receive projectId (Owner (S k) k) po s1') as [so ro] eqn:Er.
  assert (Hpo : promises so !! S k = Some (Done po)).
  { replace so with (fst (receive projectId (Owner (S k) k) po s1'))
      by now rewrite Er.
    now rewrite receive_promises. }
  rewrite (resumeAll_adopted _ _ _ _ _ Hpo).
  exists so, (ro :: repeat (asReceived po) n). split; [reflexivity|].
  assert (Htok : filter (fun c => c <> k)
                   ((axiosCancelTokens s ++ [k]) ++ seq (S (S k)) n)
                 = filter (fun c => c <> k) (axiosCancelTokens s) ++ seq (k + 2) n).
  { rewrite !filter_app, filter_own, app_nil_r, filter_seq_above by lia.
    now replace (k + 2) with (S (S k)) by lia. }
  assert (Hdel : delete projectId (<[projectId := S k]> (loadingRef s))
                 = delete projectId (loadingRef s)) by apply delete_insert_eq.
  unfold receive in Er. subst s1'.
  destruct po as [v|err]; [|destruct (isCancel err) eqn:Ec];
    injection Er as <- <-; cbn; rewrite Htok, Hdel; repeat split; reflexivity.
Qed.

(** A call for a cached id stores an already resolved promise and sends
    nothing. *)
Lemma getProjectById_cached (projectId : string) (cached : Project) (s : State) :
  Js.inherited projectId = false ->
  loadingRef s !! projectId = None ->
  find (hasId projectId) (projects s) = Some cached ->
  exists s',
    getProjectById projectId s = (s', Owner (S (nextId s)) (nextId s))
    /\ requests s' = requests s
    /\ promises s' !! S (nextId s) = Some (Done (Resolved cached)).
Proof.
  intros Hown Hl Hc. unfold getProjectById. cbn. rewrite Hl, Hown, Hc.
  eexists. split; [reflexivity|]. cbn. split; [reflexivity | apply lookup_insert_eq].
Qed.

End FlightFacts.

Section AfterTheFetch.
Import Net ProjectContext ProjectContextFacts CacheFacts FlightFacts.

Lemma find_none_absent (projectId : string) (ps : list Project) :
  find (hasId projectId) ps = None -> existsb (hasId projectId) ps = false.
Proof.
  induction ps as [|p ps IH]; cbn; [reflexivity|].
  destruct (hasId projectId p); [discriminate | exact IH].
Qed.

(** X2. A fetched project is served from the cache afterwards: for an
    id that names no member of [Object.prototype], once the concurrent
    callers of a successful fetch have resumed, a further call for the
    same id sends no request and resolves to the project the server
    returned. *)
Theorem fetched_project_served_from_cache
    (n : nat) (projectId : string) (r : Envelope Project) (s : State) :
  Js.inherited projectId = false ->
  loadingRef s !! projectId = None ->
  find (hasId projectId) (projects s) = None ->
  isSuccess r = true ->
  prj_id (data r) = projectId ->
  exists s2 results s3 c,
    concurrentScenario (S n) projectId (Response r) s = Some (s2, results)
    /\ getProjectById projectId s2 = (s3, c)
    /\ requests s3 = requests s2
    /\ snd <$> resume projectId c s3 = Some (Resolved (Entity (data r))).
Proof.
  intros Hown Hl Hc Hok Hid.
  destruct (scenario_final n projectId (Response r) s Hown Hl Hc)
    as (s2 & results & E & Hp & Hled & _).
  cbn [fetchResult] in Hp. rewrite Hok in Hp.
  assert (Hfind : find (hasId projectId) (projects s2) = Some (data r)).
  { rewrite Hp. unfold upsert. rewrite (find_none_absent _ _ Hc).
    rewrite find_app_list, Hc. cbn. apply hasId_eq in Hid. now rewrite Hid. }
  assert (Hl2 : loadingRef s2 !! projectId = None).
  { rewrite Hled. apply lookup_delete_eq. }
  destruct (getProjectById_cached projectId (data r) s2 Hown Hl2 Hfind)
    as (s3 & E3 & R3 & P3).
  exists s2, results, s3, (Owner (S (nextId s2)) (nextId s2)).
  split; [exact E|]. split; [exact E3|]. split; [exact R3|].
  unfold resume. cbn [callerPromise]. rewrite P3. reflexivity.
Qed.

Lemma fetched_project_served_from_cache_witness :
  Js.inherited "p1" = false
  /\ loadingRef (initial (Some "t")) !! "p1" = None
  /\ find (hasId "p1") (projects (initial (Some "t"))) = None
  /\ isSuccess (mkEnvelope "success" None demoProject) = true
  /\ prj_id (data (mkEnvelope "success" None demoProject)) = "p1"
  /\ exists s2 results s3 c,
       concurrentScenario 2 "p1" (Response (mkEnvelope "success" None demoProject))
         (initial (Some "t")) = Some (s2, results)
       /\ getProjectById "p1" s2 = (s3, c)
       /\ requests s3 = requests s2
       /\ snd <$> resume "p1" c s3
          = Some (Resolved (Entity (data (mkEnvelope "success" None demoProject)))).
Proof.
  split; [reflexivity|]. split; [reflexivity|]. split; [reflexivity|].
  split; [reflexivity|]. split; [reflexivity|].
  apply (fetched_project_served_from_cache 1 "p1"
           (mkEnvelope "success" None demoProject) (initial (Some "t")));
    reflexivity.
Defined.

(** X3. A failed fetch is not remembered: for an id that names no
    member of [Object.prototype], whether the server refused, the network
    failed or the request was cancelled, the cached projects are as
    before, the entry in [loadingRef] is gone, and the next call for the
    id sends a new request. *)
Theorem failed_fetch_is_retried
    (n : nat) (projectId : string) (o : Reply Project) (s : State) :
  Js.inherited projectId = false ->
  loadingRef s !! projectId = None ->
  find (hasId projectId) (projects s) = None ->
  succeeded o = false ->
  exists s2 results s3 c,
    concurrentScenario (S n) projectId o s = Some (s2, results)
    /\ projects s2 = projects s
    /\ loadingRef s2 !! projectId = None
    /\ getProjectById projectId s2 = (s3, c)
    /\ requests s3
       = requests s2 ++ [GetProject projectId (S (nextId s2)) (nextId s2)].
Proof.
  intros Hown Hl Hc Hfail.
  destruct (scenario_final n projectId o s Hown Hl Hc)
    as (s2 & results & E & Hp & Hled & _).
  assert (Hp' : projects s2 = projects s).
  { rewrite Hp. destruct o as [r|e]; cbn in *; [now rewrite Hfail | reflexivity]. }
  assert (Hl2 : loadingRef s2 !! projectId = None).
  { rewrite Hled. apply lookup_delete_eq. }
  assert (Hc2 : find (hasId projectId) (projects s2) = None) by now rewrite Hp'.
  destruct (getProjectById_first projectId s2 Hown Hl2 Hc2) as (s3 & E3 & R3 & _).
  exists s2, results, s3, (Owner (S (nextId s2)) (nextId s2)).
  repeat split; assumption.
Qed.

Lemma failed_fetch_is_retried_witness :
  Js.inherited "p1" = false
  /\ loadingRef (initial (Some "t")) !! "p1" = None
  /\ find (hasId "p1") (projects (initial (Some "t"))) = None
  /\ succeeded (Failure (cancelled "Route changed") : Reply Project) = false
  /\ exists s2 results s3 c,
       concurrentScenario 2 "p1" (Failure (cancelled "Route changed"))
         (initial (Some "t")) = Some (s2, results)
       /\ projects s2 = projects (initial (Some "t"))
       /\ loadingRef s2 !! "p1" = None
       /\ getProjectById "p1" s2 = (s3, c)
       /\ requests s3 = requests s2 ++ [GetProject "p1" (S (nextId s2)) (nextId s2)].
Proof.
  split; [reflexivity|]. split; [reflexivity|]. split; [reflexivity|].
  split; [reflexivity|].
  apply (failed_fetch_is_retried 1 "p1" (Failure (cancelled "Route changed"))
           (initial (Some "t"))); reflexivity.
Defined.



End AfterTheFetch.

(** * Creating and rebuilding *)

Section CreateAndRebuild.
Import Net ProjectContext Deployments.

(** X5. [createProject] changes the cache all or nothing. When both
    requests succeed, exactly one project is appended: the created one
    with the single deployment [{ id, status: "running", createdAt }],
    and the call resolves to the two ids. When the first request fails,
    nothing is posted to [/deploy]; when either fails, the cached
    projects are as before, the error is recorded and the call rejects.
    The loading flag is cleared in every case. *)
Theorem createProject_all_or_nothing
    (projectData : FormData) (now : string)
    (o1 : Reply Project) (o2 : Reply (option string)) (w : World) :
  let w' := fst (createProject_run projectData now o1 o2 w) in
  let res := snd (createProject_run projectData now o1 o2 w) in
  isLoading (provider w') = false
  /\ (forall r1 r2,
        o1 = Response r1 -> o2 = Response r2 ->
        isSuccess r1 = true -> isSuccess r2 = true ->
        projects (provider w')
        = projects (provider w) ++ [projectWithStatus (data r1) (data r2) now]
        /\ res = Resolved (mkCreated (prj_id (data r1)) (data r2))
        /\ posted w' = posted w ++ [PostProject projectData; PostDeploy (prj_id (data r1))]
        /\ error (provider w') = error (provider w))
  /\ (succeeded o1 = false ->
      projects (provider w') = projects (provider w)
      /\ posted w' = posted w ++ [PostProject projectData]
      /\ Js.truthy (error (provider w')) = true
      /\ exists err, res = Rejected err)
  /\ (succeeded o1 = true -> succeeded o2 = false ->
      projects (provider w') = projects (provider w)
      /\ Js.truthy (error (provider w')) = true
      /\ exists err, res = Rejected err).
Proof.
  assert (Htruthy : forall m d, d <> "" -> Js.truthy (Some (Js.or_default m d)) = true).
  { intros m d Hd. unfold Js.or_default. destruct m as [x|]; cbn.
    - destruct (String.eqb x "") eqn:E; cbn; [|now rewrite E].
      apply String.eqb_neq in Hd. now rewrite Hd.
    - apply String.eqb_neq in Hd. now rewrite Hd. }
  unfold createProject_run, createProject_created, createProject_deployed, thrown.
  destruct o1 as [r1|e1]; [destruct (isSuccess r1) eqn:E1|].
  - destruct o2 as [r2|e2]; [destruct (isSuccess r2) eqn:E2|]; cbn.
    + split; [reflexivity|]. split.
      * intros r1' r2' H1 H2 _ _. injection H1 as <-. injection H2 as <-.
        rewrite <- app_assoc. auto.
      * rewrite E1, E2. split; intros; discriminate.
    + split; [reflexivity|]. split.
      * intros r1' r2' H1 H2 _ S2. injection H2 as <-. congruence.
      * rewrite E1, E2. split; [discriminate|]. intros _ _.
        split; [reflexivity|]. split; [exact (Htruthy (Some (Js.or_default (message r2) "Failed to deploy project")) "Failed to create project" ltac:(discriminate)) | eauto].
    + split; [reflexivity|]. split.
      * intros r1' r2' H1 H2. discriminate.
      * rewrite E1. split; [discriminate|]. intros _ _.
        split; [reflexivity|]. split; [exact (Htruthy (err_message e2) "Failed to create project" ltac:(discriminate)) | eauto].
  - cbn. split; [reflexivity|]. split.
    + intros r1' r2' H1 H2 S1. injection H1 as <-. congruence.
    + rewrite E1. split; [|discriminate]. intros _.
      split; [reflexivity|]. split; [reflexivity|].
      split; [exact (Htruthy (Some (Js.or_default (message r1) "Failed to create project")) "Failed to create project" ltac:(discriminate)) | eauto].
  - cbn. split; [reflexivity|]. split.
    + intros r1' r2' H1. discriminate.
    + split; [|discriminate]. intros _.
      split; [reflexivity|]. split; [reflexivity|].
      split; [exact (Htruthy (err_message e1) "Failed to create project" ltac:(discriminate)) | eauto].
Qed.

End CreateAndRebuild.

Module RebuildFacts.
Import Net ProjectContext Deployments.

Lemma or_default_nonempty (m : option string) (d : string) :
  d <> "" -> Js.truthy (Some (Js.or_default m d)) = true.
Proof.
  intros Hd. apply String.eqb_neq in Hd. unfold Js.or_default.
  destruct m as [x|]; cbn; [|now rewrite Hd].
  destruct (String.eqb x "") eqn:E; cbn; [now rewrite Hd | now rewrite E].
Qed.

Lemma or_default_of_truthy (v : option string) (d : string) :
  Js.truthy v = true -> Some (Js.or_default v d) = v.
Proof.
  destruct v as [x|]; cbn; [|discriminate].
  destruct (String.eqb x ""); [discriminate | reflexivity].
Qed.

(** The updater goes through when every project with the id has a
    [deployments] array, and then it rewrites the list in place. *)
Lemma restartUpdater_some (projectId newId now : string) (ps : list Project) :
  Forall (fun p => hasId projectId p = true -> prj_deployments p <> None) ps ->
  exists ps',
    restartUpdater projectId newId now ps = Some ps'
    /\ length ps' = length ps
    /\ forall i p, ps !! i = Some p -> ps' !! i = restartProject projectId newId now p.
Proof.
  unfold restartUpdater. induction 1 as [|p ps Hp _ IH].
  - exists []. repeat split. intros i p H. destruct i; discriminate.
  - destruct IH as (ps' & E & Hlen & Hlook).
    assert (Hsome : exists p', restartProject projectId newId now p = Some p').
    { unfold restartProject. destruct (hasId projectId p) eqn:Eid; [|eauto].
      destruct (prj_deployments p) eqn:Ed; [eauto | now destruct (Hp eq_refl)]. }
    destruct Hsome as (p' & Ep).
    exists (p' :: ps'). cbn. rewrite Ep. cbn. rewrite E. cbn.
    split; [reflexivity|]. split; [now rewrite Hlen|].
    intros [|i] q Hq; cbn in *; [injection Hq as <-; now rewrite Ep | now apply Hlook].
Qed.

Lemma restartProject_id (projectId newId now : string) (p p' : Project) :
  restartProject projectId newId now p = Some p' -> prj_id p' = prj_id p.
Proof.
  unfold restartProject. destruct (hasId projectId p).
  - destruct (prj_deployments p); [|discriminate]. now intros [= <-].
  - now intros [= <-].
Qed.

(** After the updater the latest deployment of the project carries the
    new id. *)
Lemma latestDeploymentId_restarted (projectId newId now : string)
    (ps ps' : list Project) :
  restartUpdater projectId newId now ps = Some ps' ->
  is_Some (find (hasId projectId) ps) ->
  latestDeploymentId projectId ps' = Some newId.
Proof.
  unfold restartUpdater, latestDeploymentId. revert ps'.
  induction ps as [|p ps IH]; intros ps' E [q Hq]; [discriminate|].
  cbn in E. destruct (restartProject projectId newId now p) as [p'|] eqn:Ep;
    [|discriminate]. cbn in E.
  destruct (mapM (restartProject projectId newId now) ps) as [qs|] eqn:Eqs;
    [|discriminate]. cbn in E. injection E as <-.
  cbn [find]. unfold hasId at 1. rewrite (restartProject_id _ _ _ _ _ Ep).
  fold (hasId projectId p). cbn [find] in Hq.
  destruct (hasId projectId p) eqn:Eid.
  - unfold restartProject in Ep. rewrite Eid in Ep.
    destruct (prj_deployments p); [|discriminate]. injection Ep as <-. reflexivity.
  - apply IH; [reflexivity | eauto].
Qed.

End RebuildFacts.

Section Rebuild.
Import Net ProjectContext Deployments RebuildFacts.

(** X6. A rebuild that cannot start or is refused leaves the cache alone.
    When the cached project has no deployment id (it is not cached, has no
    deployments, or its latest deployment has no id) the call rejects
    with "No deployment found for this project" and posts nothing; when
    the server refuses or the request fails the call rejects as well. In
    both cases the cached projects are as before, the error is recorded
    and the loading flag is cleared. *)
Theorem rebuildProject_rejected
    (projectId now : string) (o : Reply (option string)) (w : World) :
  Js.truthy (latestDeploymentId projectId (projects (provider w))) = false
  \/ succeeded o = false ->
  let w' := fst (rebuildProject_run projectId now o w) in
  projects (provider w') = projects (provider w)
  /\ (exists err, snd (rebuildProject_run projectId now o w) = Rejected err)
  /\ Js.truthy (error (provider w')) = true
  /\ isLoading (provider w') = false
  /\ updaterThrew w' = updaterThrew w
  /\ (Js.truthy (latestDeploymentId projectId (projects (provider w))) = false ->
      posted w' = posted w
      /\ error (provider w') = Some "No deployment found for this project").
Proof.
  intros H. unfold rebuildProject_run, rebuildProject. cbn.
  destruct (Js.truthy (latestDeploymentId projectId (projects (provider w)))) eqn:Et; cbn.
  - destruct H as [H|H]; [discriminate|].
    unfold rebuildProject_settles, thrown.
    destruct o as [r|e]; cbn in H; [rewrite H|]; cbn;
      (split; [reflexivity|]); (split; [eauto|]);
      (split; [|split; [reflexivity|split; [reflexivity|discriminate]]]).
    + exact (or_default_nonempty
               (Some (Js.or_default (message r) "Failed to rebuild project"))
               "Failed to rebuild project" ltac:(discriminate)).
    + exact (or_default_nonempty (err_message e) "Failed to rebuild project"
               ltac:(discriminate)).
  - repeat split; eauto.
Qed.

Lemma rebuildProject_rejected_witness :
  (Js.truthy (latestDeploymentId "p1" (projects (provider (world (initial None))))) = false
   \/ succeeded (Failure (mkError None false) : Reply (option string)) = false)
  /\ projects (provider (fst (rebuildProject_run "p1" "now"
                                (Failure (mkError None false)) (world (initial None)))))
     = projects (provider (world (initial None)))
  /\ posted (fst (rebuildProject_run "p1" "now"
                    (Failure (mkError None false)) (world (initial None))))
     = posted (world (initial None)).
Proof.
  split; [left; reflexivity|].
  destruct (rebuildProject_rejected "p1" "now" (Failure (mkError None false))
              (world (initial None)) (or_introl eq_refl))
    as (Hp & _ & _ & _ & _ & Hposted).
  split; [exact Hp | apply Hposted; reflexivity].
Defined.

(** X7. An accepted rebuild restarts the latest deployment and nothing
    else. The request names the cached deployment id; afterwards the
    latest deployment of the project is "running" under the id the server
    returned (the old id when it returned none), with its [createdAt]
    kept and [updatedAt] set to the current time; the older deployments
    and all other projects are untouched, and a further rebuild would
    name the new id. *)
Theorem rebuildProject_restarts_latest
    (projectId now deploymentId : string) (r : Envelope (option string)) (w : World) :
  latestDeploymentId projectId (projects (provider w)) = Some deploymentId ->
  deploymentId <> "" ->
  isSuccess r = true ->
  Forall (fun p => hasId projectId p = true -> prj_deployments p <> None)
         (projects (provider w)) ->
  let w' := fst (rebuildProject_run projectId now (Response r) w) in
  let newId := Js.or_default (data r) deploymentId in
  snd (rebuildProject_run projectId now (Response r) w) = Resolved (mkRebuilt newId)
  /\ posted w' = posted w ++ [PostRedeploy deploymentId]
  /\ updaterThrew w' = updaterThrew w
  /\ length (projects (provider w')) = length (projects (provider w))
  /\ (forall i p,
        projects (provider w) !! i = Some p ->
        projects (provider w') !! i
        = Some (if hasId projectId p
                then withDeployments
                       (restarted newId now (head (default [] (prj_deployments p)))
                        :: tail (default [] (prj_deployments p))) p
                else p))
  /\ latestDeploymentId projectId (projects (provider w')) = Some newId.
Proof.
  intros Hlatest Hne Hok Hall.
  assert (Ht : Js.truthy (Some deploymentId) = true).
  { cbn. apply String.eqb_neq in Hne. now rewrite Hne. }
  assert (Hd : Js.or_default (Some deploymentId) "" = deploymentId).
  { pose proof (or_default_of_truthy (Some deploymentId) "" Ht) as E. now injection E. }
  unfold rebuildProject_run, rebuildProject. cbn [onProvider provider set_isLoading projects].
  rewrite Hlatest, Ht. cbn [negb]. rewrite Hd.
  unfold rebuildProject_settles. rewrite Hok.
  cbn [post provider onProvider set_isLoading projects].
  set (newId := Js.or_default (data r) deploymentId).
  destruct (restartUpdater_some projectId newId now (projects (provider w)) Hall)
    as (ps' & E & Hlen & Hlook).
  rewrite E. cbn.
  split; [reflexivity|]. split; [reflexivity|]. split; [reflexivity|].
  split; [exact Hlen|]. split.
  - intros i p Hi. rewrite (Hlook i p Hi). unfold restartProject.
    destruct (hasId projectId p) eqn:Eid; [|reflexivity].
    destruct (prj_deployments p) eqn:Ed; [reflexivity|].
    rewrite Forall_forall in Hall.
    assert (Hin : p ∈ projects (provider w)).
    { apply list_elem_of_lookup. eauto. }
    now destruct (Hall p Hin Eid).
  - apply (latestDeploymentId_restarted projectId newId now (projects (provider w)) ps' E).
    unfold latestDeploymentId in Hlatest.
    destruct (find (hasId projectId) (projects (provider w))); [eauto | discriminate].
Qed.

Lemma rebuildProject_restarts_latest_witness :
  latestDeploymentId "p1"
    (projects (provider (world (set_projects (fun _ => [runningProject]) (initial None)))))
  = Some "d1"
  /\ "d1" <> ""
  /\ isSuccess (mkEnvelope "success" None (Some "d2")) = true
  /\ Forall (fun p => hasId "p1" p = true -> prj_deployments p <> None)
       (projects (provider (world (set_projects (fun _ => [runningProject]) (initial None)))))
  /\ snd (rebuildProject_run "p1" "2025-02-02T00:00:00Z"
            (Response (mkEnvelope "success" None (Some "d2")))
            (world (set_projects (fun _ => [runningProject]) (initial None))))
     = Resolved (mkRebuilt "d2")
  /\ latestDeploymentId "p1"
       (projects (provider (fst (rebuildProject_run "p1" "2025-02-02T00:00:00Z"
                                   (Response (mkEnvelope "success" None (Some "d2")))
                                   (world (set_projects (fun _ => [runningProject])
                                             (initial None)))))))
     = Some "d2".
Proof.
  assert (Hall : Forall (fun p => hasId "p1" p = true -> prj_deployments p <> None)
                   (projects (provider (world (set_projects (fun _ => [runningProject])
                                                 (initial None)))))).
  { repeat constructor. discriminate. }
  split; [reflexivity|]. split; [discriminate|]. split; [reflexivity|].
  split; [exact Hall|].
  destruct (rebuildProject_restarts_latest "p1" "2025-02-02T00:00:00Z" "d1"
              (mkEnvelope "success" None (Some "d2"))
              (world (set_projects (fun _ => [runningProject]) (initial None)))
              eq_refl ltac:(discriminate) eq_refl Hall)
    as (Hres & _ & _ & _ & _ & Hlatest).
  split; [exact Hres | exact Hlatest].
Defined.

End Rebuild.

Module ListFacts.
Import Net ProjectContext CacheFacts.

Lemma find_after_delete (a projectId : string) (ps : list Project) :
  find (hasId a) (filter (fun p => prj_id p <> projectId) ps)
  = if String.eqb a projectId then None else find (hasId a) ps.
Proof.
  induction ps as [|p ps IH]; [now destruct (String.eqb a projectId)|].
  rewrite filter_cons. cbn [find].
  destruct (decide (prj_id p <> projectId)) as [Hne|Heq].
  - cbn [find]. destruct (hasId a p) eqn:E; [|exact IH].
    apply hasId_eq in E. subst a.
    apply String.eqb_neq in Hne. now rewrite Hne.
  - assert (Hid : prj_id p = projectId) by (destruct (string_dec (prj_id p) projectId); tauto).
    rewrite IH. destruct (String.eqb a projectId) eqn:Ea; [reflexivity|].
    destruct (hasId a p) eqn:E; [|reflexivity].
    apply hasId_eq in E. apply String.eqb_neq in Ea. congruence.
Qed.

Lemma statusDeployments_twice (a b : string) (ds : option (list Deployment)) :
  statusDeployments b (Some (statusDeployments a ds)) = statusDeployments b ds.
Proof. destruct ds as [[|d0 rest]|]; reflexivity. Qed.

End ListFacts.

Section CacheOperations.
Import Net ProjectContext CacheFacts ListFacts ProjectContextFacts.

(** X8. Status updates overwrite each other: updating the status of a
    project twice leaves what the second update alone would leave; in
    particular an update is idempotent. The list keeps its length and
    every project with the id ends with a latest deployment of the given
    status. *)
Theorem updateProjectStatus_last_write_wins
    (projectId a b : string) (ps : list Project) :
  statusUpdater projectId b (statusUpdater projectId a ps) = statusUpdater projectId b ps
  /\ statusUpdater projectId b (statusUpdater projectId b ps) = statusUpdater projectId b ps
  /\ length (statusUpdater projectId b ps) = length ps
  /\ (forall p, In p (statusUpdater projectId b ps) -> hasId projectId p = true ->
      exists d rest, prj_deployments p = Some (d :: rest) /\ dep_status d = Some b).
Proof.
  assert (H : forall x y, statusUpdater projectId y (statusUpdater projectId x ps)
                          = statusUpdater projectId y ps).
  { intros x y. unfold statusUpdater. rewrite map_map. apply map_ext. intros p.
    destruct (hasId projectId p) eqn:E; [|now rewrite E].
    assert (Hid : forall ds, hasId projectId (withDeployments ds p) = hasId projectId p)
      by reflexivity.
    rewrite Hid, E.
    change (prj_deployments (withDeployments (statusDeployments x (prj_deployments p)) p))
      with (Some (statusDeployments x (prj_deployments p))).
    now rewrite statusDeployments_twice. }
  split; [apply H|]. split; [apply H|]. split; [apply length_map|].
  intros p Hin Hid. unfold statusUpdater in Hin. apply in_map_iff in Hin as (q & <- & _).
  destruct (hasId projectId q) eqn:E.
  - cbn. destruct (prj_deployments q) as [[|d0 rest]|]; cbn; eauto.
  - congruence.
Qed.

(** X9. A successful deletion removes the project for good: the call
    resolves to [true], no project of that id is left in the cache, and
    the cached entries of all other ids are as before. For an id that
    names no member of [Object.prototype], a read of
    [loadingRef.current[projectId]] then finds nothing and a later
    [getProjectById] for the id goes back to the server. *)
Theorem deleteProject_removes (projectId : string) (o : Reply unit) (s : State) :
  succeeded o = true ->
  let s' := fst (deleteProject_run projectId o s) in
  snd (deleteProject_run projectId o s) = Resolved true
  /\ find (hasId projectId) (projects s') = None
  /\ (forall other, other <> projectId ->
        find (hasId other) (projects s') = find (hasId other) (projects s))
  /\ (Js.inherited projectId = false ->
      loadingRef s' !! projectId = None
      /\ requests (fst (getProjectById projectId s'))
         = requests s' ++ [GetProject projectId (S (nextId s')) (nextId s')]).
Proof.
  intros Hok.
  assert (E : deleteProject_run projectId o s
              = (set_isLoading false
                   (set_loadingRef (fun m => delete projectId m)
                      (set_projects (filter (fun p => prj_id p <> projectId))
                         (deleteProject projectId s))),
                 Resolved true)).
  { unfold deleteProject_run, deleteProject_settles.
    destruct o as [r|e]; cbn in Hok; [now rewrite Hok | discriminate]. }
  rewrite E. cbn [fst snd].
  set (s' := set_isLoading false _).
  assert (Hfind : find (hasId projectId) (projects s') = None).
  { cbn. rewrite find_after_delete. now rewrite String.eqb_refl. }
  assert (Hl : loadingRef s' !! projectId = None) by apply lookup_delete_eq.
  split; [reflexivity|]. split; [exact Hfind|]. split.
  - intros other Hne. cbn. rewrite find_after_delete.
    apply String.eqb_neq in Hne. now rewrite Hne.
  - intros Hown. split; [exact Hl|].
    destruct (getProjectById_first projectId s' Hown Hl Hfind) as (s3 & E3 & R3 & _).
    now rewrite E3.
Qed.

Lemma deleteProject_removes_witness :
  succeeded (Response (mkEnvelope "success" None tt)) = true
  /\ snd (deleteProject_run "p1" (Response (mkEnvelope "success" None tt))
            (set_projects (fun _ => [runningProject]) (initial (Some "t"))))
     = Resolved true
  /\ find (hasId "p1")
          (projects (fst (deleteProject_run "p1" (Response (mkEnvelope "success" None tt))
                            (set_projects (fun _ => [runningProject]) (initial (Some "t"))))))
     = None.
Proof.
  split; [reflexivity|].
  destruct (deleteProject_removes "p1" (Response (mkEnvelope "success" None tt))
              (set_projects (fun _ => [runningProject]) (initial (Some "t"))) eq_refl)
    as (H1 & H2 & _).
  split; [exact H1 | exact H2].
Defined.

(** X10. A refresh of the project list fills the cache. With a token
    [fetchProjects] sends one request that carries it. When the server
    answers "success" the cached list is the server's list, and every
    listed id that is not being fetched and names no member of
    [Object.prototype] is then served by [getProjectById] without a
    request; when the refresh fails the cached list is as before and the
    error is the message of the failure. *)
Theorem fetchProjects_fills_cache
    (tok : string) (o : Reply (list Project)) (s : State) :
  token s = Some tok -> tok <> "" ->
  let s1 := fst (fetchProjects s) in
  let s2 := fst (fetchProjects_settles o s1) in
  snd (fetchProjects s) = Suspended
  /\ requests s1 = requests s ++ [GetProjects tok]
  /\ isLoading s2 = false
  /\ (forall r, o = Response r -> isSuccess r = true ->
        projects s2 = data r
        /\ forall projectId p,
             find (hasId projectId) (data r) = Some p ->
             loadingRef s !! projectId = None ->
             Js.inherited projectId = false ->
             requests (fst (getProjectById projectId s2)) = requests s2
             /\ snd <$> resume projectId (snd (getProjectById projectId s2))
                          (fst (getProjectById projectId s2))
                = Some (Resolved (Entity p)))
  /\ (succeeded o = false ->
        projects s2 = projects s
        /\ exists err, snd (fetchProjects_settles o s1) = Rejected err
                       /\ error s2 = err_message err).
Proof.
  intros Htok Hne s1 s2. apply String.eqb_neq in Hne.
  assert (E1 : fetchProjects s = (send (GetProjects tok) (set_isLoading true s), Suspended)).
  { unfold fetchProjects. rewrite Htok. cbn [Js.truthy]. rewrite Hne. cbn [negb].
    cbn [token set_isLoading]. rewrite Htok. cbn [Js.or_default]. now rewrite Hne. }
  subst s2 s1. rewrite E1. cbn [fst snd].
  set (s1 := send (GetProjects tok) (set_isLoading true s)).
  split; [reflexivity|]. split; [reflexivity|]. split.
  { destruct o as [r|e]; cbn; [destruct (isSuccess r)|]; reflexivity. }
  split.
  - intros r -> Hok. unfold fetchProjects_settles. rewrite Hok. cbn [fst].
    set (s2 := set_isLoading false (set_projects (fun _ => data r) s1)).
    split; [reflexivity|].
    intros projectId p Hfind Hl Hown.
    destruct (FlightFacts.getProjectById_cached projectId p s2 Hown Hl Hfind)
      as (s3 & E3 & R3 & P3).
    rewrite E3. cbn [fst snd]. split; [exact R3|].
    unfold resume. cbn [callerPromise]. rewrite P3. reflexivity.
  - intros Hfail. unfold fetchProjects_settles.
    destruct o as [r|e]; cbn in Hfail; [rewrite Hfail|]; cbn; eauto.
Qed.

Lemma fetchProjects_fills_cache_witness :
  token (initial (Some "t")) = Some "t" /\ "t" <> ""
  /\ requests (fst (fetchProjects (initial (Some "t")))) = [GetProjects "t"]
  /\ projects (fst (fetchProjects_settles
                      (Response (mkEnvelope "success" None [runningProject]))
                      (fst (fetchProjects (initial (Some "t"))))))
     = [runningProject].
Proof.
  split; [reflexivity|]. split; [discriminate|].
  destruct (fetchProjects_fills_cache "t"
              (Response (mkEnvelope "success" None [runningProject]))
              (initial (Some "t")) eq_refl ltac:(discriminate))
    as (_ & Hreq & _ & Hok & _).
  split; [exact Hreq|].
  exact (proj1 (Hok _ eq_refl eq_refl)).
Defined.

End CacheOperations.

(** * What the components show *)

Module ViewFacts.

Lemma lower_ascii_idem (c : ascii) : Js.lower_ascii (Js.lower_ascii c) = Js.lower_ascii c.
Proof. destruct c as [[] [] [] [] [] [] [] []]; reflexivity. Qed.

Lemma toLowerCase_idem (s : string) : Js.toLowerCase (Js.toLowerCase s) = Js.toLowerCase s.
Proof.
  induction s as [|c s IH]; cbn; [reflexivity|].
  now rewrite lower_ascii_idem, IH.
Qed.

Lemma toLowerCase_empty (s : string) :
  String.eqb (Js.toLowerCase s) "" = String.eqb s "".
Proof. destruct s; reflexivity. Qed.

Lemma truthy_toLowerCase (v : option string) :
  Js.truthy (Js.toLowerCase <$> v) = Js.truthy v.
Proof. destruct v as [s|]; cbn; [now rewrite toLowerCase_empty | reflexivity]. Qed.

Lemma or_default_toLowerCase (v : option string) :
  Js.toLowerCase (Js.or_default (Js.toLowerCase <$> v) "")
  = Js.toLowerCase (Js.or_default v "").
Proof.
  destruct v as [s|]; cbn; [|reflexivity].
  rewrite toLowerCase_empty. destruct (String.eqb s ""); [reflexivity|].
  apply toLowerCase_idem.
Qed.

End ViewFacts.

(** X11. The status colours of the dashboard and of the project page do
    not depend on the case of the status, and the two pages agree on
    every status the dashboard colours: what is not gray on the dashboard
    has the same colour on the project page. *)
Theorem status_colours_agree (status : option string) :
  Dashboard.getStatusColor (Js.toLowerCase <$> status) = Dashboard.getStatusColor status
  /\ ProjectDetails.getStatusColor (Js.toLowerCase <$> status)
     = ProjectDetails.getStatusColor status
  /\ (Dashboard.getStatusColor status <> "text-gray-500" ->
      ProjectDetails.getStatusColor status = Dashboard.getStatusColor status).
Proof.
  unfold Dashboard.getStatusColor, ProjectDetails.getStatusColor.
  rewrite ViewFacts.truthy_toLowerCase, ViewFacts.or_default_toLowerCase.
  split; [reflexivity|]. split; [reflexivity|].
  destruct (negb (Js.truthy status)); [congruence|].
  set (x := Js.toLowerCase _). clearbody x. cbn [Switch.switch].
  destruct (String.eqb_spec x "success") as [->|_]; [reflexivity|].
  destruct (String.eqb_spec x "running") as [->|_]; [reflexivity|].
  destruct (String.eqb_spec x "failure") as [->|_]; [reflexivity|].
  congruence.
Qed.

Module ViewerViewFacts.
Import Net Logs LogViewer LogViewerView.

(** Without a deployment id nothing ever leaves the viewer. *)
Lemma idle_step (e : Event) (s : State) :
  Js.truthy (deploymentId s) = false ->
  pollingRef s = None -> timers s = [] -> inFlight s = [] ->
  deploymentId (step e s) = deploymentId s
  /\ pollingRef (step e s) = None /\ timers (step e s) = [] /\ inFlight (step e s) = []
  /\ sent (step e s) = sent s /\ statusCalls (step e s) = statusCalls s
  /\ context (step e s) = context s /\ logs (step e s) = logs s
  /\ error (step e s) = error s
  /\ (isLoading s = false -> isLoading (step e s) = false).
Proof.
  intros Hd Hp Ht Hf. destruct e as [h|req o| |]; cbn [step].
  - rewrite Ht. cbn. auto 12.
  - rewrite Hf. cbn. auto 12.
  - unfold rerun, setup, cleanup, stopPolling. rewrite Hp.
    destruct (mounted s); [|auto 12]. rewrite Hd. cbn. auto 12.
  - unfold cleanup, stopPolling. rewrite Hp. cbn. auto 12.
Qed.

Lemma idle_run (es : list Event) (s : State) :
  Js.truthy (deploymentId s) = false ->
  pollingRef s = None -> timers s = [] -> inFlight s = [] ->
  pollingRef (run es s) = None /\ timers (run es s) = []
  /\ sent (run es s) = sent s /\ statusCalls (run es s) = statusCalls s
  /\ context (run es s) = context s /\ logs (run es s) = logs s
  /\ error (run es s) = error s
  /\ (isLoading s = false -> isLoading (run es s) = false).
Proof.
  revert s. induction es as [|e es IH]; intros s Hd Hp Ht Hf; [auto 12|].
  cbn [run fold_left].
  destruct (idle_step e s Hd Hp Ht Hf)
    as (E0 & E1 & E2 & E3 & E4 & E5 & E6 & E7 & E8 & E9).
  destruct (IH (step e s)) as (F1 & F2 & F4 & F5 & F6 & F7 & F8 & F9);
    [now rewrite E0 | assumption | assumption | assumption |].
  unfold run in *. rewrite F4, F5, F6, F7, F8, E4, E5, E6, E7, E8. auto 12.
Qed.

(** The state in which the error box is shown. *)
Lemma failed_render (s : State) (msg : string) :
  isLoading s = false ->
  error s = Some (String.append "Failed to fetch logs: " msg) ->
  render s = ErrorBox (String.append "Failed to fetch logs: " msg).
Proof.
  intros Hl He. unfold render. rewrite Hl, He. reflexivity.
Qed.

Lemma onError_failed (err : Error) (s : State) :
  isLoading (onError err s) = false
  /\ exists msg, error (onError err s) = Some (String.append "Failed to fetch logs: " msg).
Proof. split; [reflexivity|]. eexists. reflexivity. Qed.

Lemma stopPolling_view (s : State) :
  isLoading (stopPolling s) = isLoading s /\ error (stopPolling s) = error s.
Proof. unfold stopPolling. destruct (pollingRef s); split; reflexivity. Qed.

Lemma step_failed (e : Event) (s : State) :
  isLoading s = false ->
  (exists msg, error s = Some (String.append "Failed to fetch logs: " msg)) ->
  isLoading (step e s) = false
  /\ exists msg, error (step e s) = Some (String.append "Failed to fetch logs: " msg).
Proof.
  intros Hl He.
  assert (Hsettle : forall o s1,
            isLoading s1 = false ->
            (exists msg, error s1 = Some (String.append "Failed to fetch logs: " msg)) ->
            isLoading (fetchLogs_settles o s1) = false
            /\ exists msg, error (fetchLogs_settles o s1)
                           = Some (String.append "Failed to fetch logs: " msg)).
  { intros o s1 Hl1 He1. unfold fetchLogs_settles.
    destruct o as [r|err]; [|apply onError_failed].
    destruct (isSuccess r); [|apply onError_failed].
    split; [reflexivity|].
    destruct (isDone (default [] (data r))
              && negb (doneDetectedRef (set_logs (default [] (data r)) s1))
              && Js.truthy (projectId (set_logs (default [] (data r)) s1)));
      [|exact He1].
    unfold onDone. cbn [error set_isLoading].
    rewrite (proj2 (stopPolling_view _)). exact He1. }
  assert (Hrerun : forall s1,
            isLoading s1 = false ->
            (exists msg, error s1 = Some (String.append "Failed to fetch logs: " msg)) ->
            isLoading (rerun s1) = false
            /\ exists msg, error (rerun s1)
                           = Some (String.append "Failed to fetch logs: " msg)).
  { intros s1 Hl1 He1. unfold rerun, setup, cleanup.
    destruct (mounted s1); [|split; assumption].
    destruct (stopPolling_view s1) as [E1 E2].
    destruct (negb (Js.truthy (deploymentId (stopPolling s1)))); cbn;
      rewrite ?E1, ?E2; split; first [reflexivity | assumption]. }
  destruct e as [h|req o| |]; cbn [step].
  - destruct (Timers.lookupTimer h (timers s)); [|split; assumption].
    split; [exact Hl | exact He].
  - destruct (bool_decide (req ∈ inFlight s)); [|split; assumption].
    cbn zeta. set (s1 := set_inFlight _ s).
    destruct (Hsettle o s1 Hl He) as [Hl' He'].
    destruct (completes o s1); [now apply Hrerun | split; assumption].
  - now apply Hrerun.
  - cbn [isLoading error set_mounted]. unfold cleanup.
    destruct (stopPolling_view s) as [-> ->]. split; assumption.
Qed.

Lemma run_failed (es : list Event) (s : State) :
  isLoading s = false ->
  (exists msg, error s = Some (String.append "Failed to fetch logs: " msg)) ->
  isLoading (run es s) = false
  /\ exists msg, error (run es s) = Some (String.append "Failed to fetch logs: " msg).
Proof.
  revert s. induction es as [|e es IH]; intros s Hl He; [split; assumption|].
  cbn [run fold_left]. destruct (step_failed e s Hl He) as [Hl' He'].
  exact (IH _ Hl' He').
Qed.

End ViewerViewFacts.

(** X12. A viewer without a deployment id does nothing: it sends no
    request, creates no interval and never touches the provider, whatever
    happens, and it shows the "No logs available yet" placeholder. *)
Theorem viewer_without_deployment_is_idle
    (d pid : option string) (ctx : ProjectContext.State) (es : list LogViewer.Event) :
  Js.truthy d = false ->
  let s := LogViewer.run es (LogViewer.mount d pid ctx) in
  LogViewer.sent s = 0
  /\ LogViewer.timers s = []
  /\ LogViewer.pollingRef s = None
  /\ LogViewer.statusCalls s = []
  /\ LogViewer.context s = ctx
  /\ LogViewerView.render s = LogViewerView.Preparing.
Proof.
  intros Hd s. subst s.
  assert (E : LogViewer.mount d pid ctx
              = LogViewer.set_isLoading false
                  (LogViewer.mkState d pid [] true None true None false
                     [] 1 [] 0 [] ctx true)).
  { unfold LogViewer.mount. now rewrite Hd. }
  rewrite E.
  destruct (ViewerViewFacts.idle_run es
              (LogViewer.set_isLoading false
                 (LogViewer.mkState d pid [] true None true None false
                    [] 1 [] 0 [] ctx true)))
    as (H1 & H2 & H3 & H4 & H5 & H6 & H7 & H8); try reflexivity; [exact Hd|].
  split; [exact H3|]. split; [exact H2|]. split; [exact H1|]. split; [exact H4|].
  split; [exact H5|].
  unfold LogViewerView.render. rewrite (H8 eq_refl), H7, H6. reflexivity.
Qed.

Lemma viewer_without_deployment_is_idle_witness :
  LogViewerView.render
    (LogViewer.run [LogViewer.Fire 1; LogViewer.Settle 0 LogViewer.doneReply]
       (LogViewer.mount None (Some "p1") (ProjectContext.initial None)))
  = LogViewerView.Preparing.
Proof.
  apply (viewer_without_deployment_is_idle None (Some "p1") (ProjectContext.initial None)
           [LogViewer.Fire 1; LogViewer.Settle 0 LogViewer.doneReply]).
  reflexivity.
Defined.

(** X13. One failed poll hides the logs for the rest of the session. The
    error is set by the [catch] block and nothing clears it: after a
    request has failed, the viewer shows the error box whatever follows,
    also when later polls succeed and bring logs. *)
Theorem viewer_error_is_sticky
    (s : LogViewer.State) (req : nat) (o : LogViewer.LogsReply)
    (es : list LogViewer.Event) :
  req ∈ LogViewer.inFlight s ->
  ProjectContext.succeeded o = false ->
  exists msg,
    LogViewerView.render (LogViewer.run es (LogViewer.step (LogViewer.Settle req o) s))
    = LogViewerView.ErrorBox (String.append "Failed to fetch logs: " msg).
Proof.
  intros Hin Ho.
  assert (H1 : LogViewer.isLoading (LogViewer.step (LogViewer.Settle req o) s) = false
               /\ exists msg,
                    LogViewer.error (LogViewer.step (LogViewer.Settle req o) s)
                    = Some (String.append "Failed to fetch logs: " msg)).
  { cbn [LogViewer.step]. rewrite bool_decide_eq_true_2 by exact Hin. cbn zeta.
    assert (Ec : forall s0, LogViewer.completes o s0 = false).
    { intros s0. unfold LogViewer.completes, LogViewer.carriesMarker.
      destruct o as [r|err]; [cbn in Ho; now rewrite Ho | reflexivity]. }
    rewrite Ec.
    unfold LogViewer.fetchLogs_settles. destruct o as [r|err].
    - cbn in Ho. rewrite Ho. apply ViewerViewFacts.onError_failed.
    - apply ViewerViewFacts.onError_failed. }
  destruct H1 as [Hl He].
  destruct (ViewerViewFacts.run_failed es _ Hl He) as [Hl' [msg He']].
  exists msg. now apply ViewerViewFacts.failed_render.
Qed.

Lemma viewer_error_is_sticky_witness :
  exists msg,
    LogViewerView.render
      (LogViewer.run [LogViewer.Fire 1; LogViewer.Settle 1 (LogViewer.logsReply ["Building..."])]
         (LogViewer.step (LogViewer.Settle 0 (Net.Failure DeploymentModal.networkError))
            (LogViewer.mount (Some "d1") (Some "p1") (ProjectContext.initial None))))
    = LogViewerView.ErrorBox (String.append "Failed to fetch logs: " msg).
Proof.
  apply (viewer_error_is_sticky
           (LogViewer.mount (Some "d1") (Some "p1") (ProjectContext.initial None))
           0 (Net.Failure DeploymentModal.networkError)).
  - vm_compute. repeat constructor.
  - reflexivity.
Defined.

Module ViewerBannerFacts.
Import Net Logs LogViewer LogViewerFacts.

(** What holds of the latch, the banner flag and the calls of the
    provider in every state a viewer reaches. *)
Lemma banner_step (pid : option string) (e : Event) (s : State) :
  projectId s = pid ->
  pollingActive s = negb (doneDetectedRef s) ->
  statusCalls s
  = (if doneDetectedRef s then [(Js.or_default pid "", "success")] else []) ->
  (doneDetectedRef s = true -> Js.truthy pid = true) ->
  projectId (step e s) = pid
  /\ pollingActive (step e s) = negb (doneDetectedRef (step e s))
  /\ statusCalls (step e s)
     = (if doneDetectedRef (step e s) then [(Js.or_default pid "", "success")] else [])
  /\ (doneDetectedRef (step e s) = true -> Js.truthy pid = true).
Proof.
  intros Hp Ha Hc Hr.
  assert (Hrerun : forall s1,
            projectId s1 = pid ->
            pollingActive s1 = negb (doneDetectedRef s1) ->
            statusCalls s1
            = (if doneDetectedRef s1 then [(Js.or_default pid "", "success")] else []) ->
            (doneDetectedRef s1 = true -> Js.truthy pid = true) ->
            projectId (rerun s1) = pid
            /\ pollingActive (rerun s1) = negb (doneDetectedRef (rerun s1))
            /\ statusCalls (rerun s1)
               = (if doneDetectedRef (rerun s1)
                  then [(Js.or_default pid "", "success")] else [])
            /\ (doneDetectedRef (rerun s1) = true -> Js.truthy pid = true)).
  { intros s1 H1 H2 H3 H4.
    destruct (rerun_frame s1) as (-> & _ & -> & -> & _ & -> & _). auto. }
  destruct e as [h|req o| |]; cbn [step].
  - destruct (Timers.lookupTimer h (timers s)); auto.
  - destruct (bool_decide (req ∈ inFlight s)); [|auto].
    cbn zeta. set (s0 := set_inFlight _ s).
    destruct (fetchLogs_settles_props o s0) as (Ep & _).
    destruct (completes o s0) eqn:Ec.
    + destruct (fetchLogs_settles_completes o s0 Ec) as (Hd & Hact & _ & Hs & _).
      unfold completes in Ec. apply andb_true_iff in Ec as [Ec Ht].
      apply andb_true_iff in Ec as [_ Hl]. apply negb_true_iff in Hl.
      cbn [doneDetectedRef projectId statusCalls s0 set_inFlight] in Hl, Ht, Hs.
      rewrite Hp in Ht, Hs. rewrite Hl in Hc. rewrite Hc in Hs.
      apply Hrerun; rewrite ?Hd, ?Hact, ?Hs; auto.
      rewrite Ep. exact Hp.
    + destruct (fetchLogs_settles_quiet o s0 Ec) as (Hd & Hact & _ & _ & Hs & _).
      rewrite Ep, Hd, Hact, Hs. auto.
  - now apply Hrerun.
  - cbn [projectId pollingActive doneDetectedRef statusCalls set_mounted]. unfold cleanup.
    destruct (viewer_stopPolling_frame s) as (-> & -> & -> & _ & _ & ->). auto.
Qed.

Lemma banner_run (pid : option string) (es : list Event) (s : State) :
  projectId s = pid ->
  pollingActive s = negb (doneDetectedRef s) ->
  statusCalls s
  = (if doneDetectedRef s then [(Js.or_default pid "", "success")] else []) ->
  (doneDetectedRef s = true -> Js.truthy pid = true) ->
  projectId (run es s) = pid
  /\ pollingActive (run es s) = negb (doneDetectedRef (run es s))
  /\ statusCalls (run es s)
     = (if doneDetectedRef (run es s) then [(Js.or_default pid "", "success")] else [])
  /\ (doneDetectedRef (run es s) = true -> Js.truthy pid = true).
Proof.
  revert s. induction es as [|e es IH]; intros s Hp Ha Hc Hr; [auto|].
  cbn [run fold_left].
  destruct (banner_step pid e s Hp Ha Hc Hr) as (Hp' & Ha' & Hc' & Hr').
  exact (IH _ Hp' Ha' Hc' Hr').
Qed.

End ViewerBannerFacts.

(** X14. The "Deployment complete" banner and the provider. In every
    state a viewer reaches, the banner is shown under the logs exactly
    when the completion was detected, and then
    [updateProjectStatus(projectId, "success")] has been called exactly
    once, for a truthy project id; while the completion is not detected,
    the provider has not been called. The banner says that the logs are
    no longer updating, but a viewer with a deployment id that is still
    in the tree goes on polling: it holds a live interval of 5000 ms. *)
Theorem viewer_banner_iff_completed
    (d pid : option string) (ctx : ProjectContext.State) (es : list LogViewer.Event) :
  let s := LogViewer.run es (LogViewer.mount d pid ctx) in
  (forall rows banner,
     LogViewerView.render s = LogViewerView.LogList rows banner ->
     banner = LogViewer.doneDetectedRef s)
  /\ (LogViewer.doneDetectedRef s = true ->
      LogViewer.statusCalls s = [(Js.or_default pid "", "success")]
      /\ Js.truthy pid = true)
  /\ (LogViewer.doneDetectedRef s = false -> LogViewer.statusCalls s = [])
  /\ (LogViewer.doneDetectedRef s = true -> LogViewer.mounted s = true ->
      Js.truthy d = true ->
      exists h, LogViewer.pollingRef s = Some h
                /\ LogViewer.timers s = [Timers.mkTimer h 5000%N tt]).
Proof.
  intros s.
  assert (H0 : LogViewer.projectId (LogViewer.mount d pid ctx) = pid
               /\ LogViewer.pollingActive (LogViewer.mount d pid ctx) = true
               /\ LogViewer.doneDetectedRef (LogViewer.mount d pid ctx) = false
               /\ LogViewer.statusCalls (LogViewer.mount d pid ctx) = []
               /\ LogViewer.deploymentId (LogViewer.mount d pid ctx) = d).
  { unfold LogViewer.mount. destruct (negb (Js.truthy d)); repeat split. }
  destruct H0 as (Hp & Ha & Hd & Hc & Hdep).
  destruct (ViewerBannerFacts.banner_run pid es (LogViewer.mount d pid ctx))
    as (Hp' & Ha' & Hc' & Hr'); try assumption.
  - rewrite Ha, Hd. reflexivity.
  - rewrite Hc, Hd. reflexivity.
  - rewrite Hd. discriminate.
  - fold s in Hp', Ha', Hc', Hr'. split; [|split; [|split]].
    + intros rows banner. unfold LogViewerView.render.
      destruct (LogViewer.isLoading s && (length (LogViewer.logs s) =? 0)%nat);
        [discriminate|].
      destruct (Js.truthy (LogViewer.error s)); [discriminate|].
      destruct (length (LogViewer.logs s) =? 0)%nat; [discriminate|].
      intros [= _ <-]. rewrite Ha'. apply negb_involutive.
    + intros Hdone. rewrite Hdone in Hc'. split; [exact Hc' | exact (Hr' Hdone)].
    + intros Hdone. rewrite Hdone in Hc'. exact Hc'.
    + intros Hdone Hm Ed.
      pose proof (LogViewerFacts.run_wired es _ (LogViewerFacts.mount_wired d pid ctx))
        as (Wc & _ & _ & _ & Wp).
      fold s in Wc, Wp.
      assert (Hdep' : LogViewer.deploymentId s = d).
      { unfold s. now rewrite LogViewerLatch.run_deploymentId. }
      rewrite Hdep' in Wp.
      destruct (Wp Hm Ed) as [h Hh]. exists h. split; [exact Hh|].
      unfold LogViewer.consistent in Wc. now rewrite Hh in Wc.
Qed.

(** * The modal *)

Module ModalViewFacts.
Import Net Logs DeploymentModal.

Lemma stopPolling_shown (s : State) :
  deploymentStatus (stopPolling s) = deploymentStatus s
  /\ logs (stopPolling s) = logs s
  /\ error (stopPolling s) = error s
  /\ projectRefreshed (stopPolling s) = projectRefreshed s.
Proof. unfold stopPolling. destruct (pollingInterval s); repeat split. Qed.

Lemma onError_shown (err : Error) (s : State) :
  deploymentStatus (onError err s) = deploymentStatus s
  /\ logs (onError err s) = logs s
  /\ projectRefreshed (onError err s) = projectRefreshed s
  /\ Js.truthy (error (onError err s)) = true
  /\ pollingInterval (onError err s) = None.
Proof.
  unfold onError, stopPolling. cbn.
  destruct (pollingInterval s) eqn:Hp; cbn; rewrite ?Hp; repeat split;
    destruct (err_message err) as [m|]; cbn; try reflexivity;
    destruct (String.eqb_spec m ""); cbn; try reflexivity;
    now apply negb_true_iff, String.eqb_neq.
Qed.

Lemma onDone_shown (newStatus : string) (s : State) :
  deploymentStatus (onDone newStatus s) = deploymentStatus s
  /\ logs (onDone newStatus s) = logs s
  /\ error (onDone newStatus s) = error s
  /\ projectRefreshed (onDone newStatus s) = true
  /\ pollingInterval (onDone newStatus s) = None.
Proof.
  unfold onDone, stopPolling. cbn.
  destruct (pollingInterval s) eqn:Hp; cbn; destruct (hasOnComplete s); cbn;
    rewrite ?Hp; repeat split.
Qed.

Lemma adaptiveEffect_shown (s : State) :
  deploymentStatus (adaptiveEffect s) = deploymentStatus s
  /\ logs (adaptiveEffect s) = logs s
  /\ error (adaptiveEffect s) = error s
  /\ projectRefreshed (adaptiveEffect s) = projectRefreshed s
  /\ (pollingInterval s = None -> pollingInterval (adaptiveEffect s) = None).
Proof.
  unfold adaptiveEffect.
  destruct ((5 <? pollCount s)%nat && (length (logs s) =? lastLogCount s)%nat);
    [destruct (pollingInterval s) eqn:Hp|]; cbn; repeat split; congruence.
Qed.

(** The status shown is a lower-case string or the one shown before. *)
Lemma statusSettles_shown (c : Closure) (o : StatusReply) (s : State) :
  (deploymentStatus (statusSettles c o s) = deploymentStatus s
   \/ exists st, deploymentStatus (statusSettles c o s) = Js.toLowerCase st)
  /\ logs (statusSettles c o s) = logs s
  /\ projectRefreshed (statusSettles c o s) = projectRefreshed s
  /\ (Js.truthy (error s) = true -> Js.truthy (error (statusSettles c o s)) = true)
  /\ (pollingInterval s = None -> pollingInterval (statusSettles c o s) = None).
Proof.
  unfold statusSettles.
  destruct o as [r|err].
  2:{ destruct (onError_shown err s) as (-> & -> & -> & -> & ->). repeat split. now left. }
  destruct (negb (isSuccess r)).
  { destruct (onError_shown (newError (Net.message r) "Failed to get deployment status") s)
      as (-> & -> & -> & -> & ->). repeat split. now left. }
  set (newStatus := Js.toLowerCase (currentStatus (data r))).
  destruct (String.eqb (cl_deploymentStatus c) newStatus);
    destruct (negb (Js.truthy (cl_currentDeploymentId c))
              && Js.truthy (latestDeploymentId (data r)));
    cbn;
    repeat match goal with
           | |- context [if negb (Js.truthy ?x) then _ else _] =>
               destruct (negb (Js.truthy x))
           end;
    cbn; repeat split; try (now left); try (right; now exists (currentStatus (data r)));
    auto.
Qed.

Lemma logsSettle_shown (newStatus : string) (o : LogsReply) (s : State) :
  deploymentStatus (logsSettle newStatus o s) = deploymentStatus s
  /\ (Js.truthy (error s) = true -> Js.truthy (error (logsSettle newStatus o s)) = true)
  /\ (pollingInterval s = None -> pollingInterval (logsSettle newStatus o s) = None).
Proof.
  unfold logsSettle.
  destruct o as [r|err].
  2:{ destruct (onError_shown err s) as (-> & _ & _ & -> & ->). repeat split. }
  destruct (negb (isSuccess r)).
  { destruct (onError_shown (newError (Net.message r) "Failed to fetch deployment logs") s)
      as (-> & _ & _ & -> & ->). repeat split. }
  destruct (hasDoneLog (default [] (data r)) && negb (projectRefreshed s)).
  - destruct (onDone_shown newStatus s) as (-> & _ & -> & _ & ->). repeat split; auto.
  - repeat split; auto.
Qed.

Lemma fetchDeploymentStatus_shown (c : Closure) (s : State) :
  deploymentStatus (fetchDeploymentStatus c s) = deploymentStatus s
  /\ logs (fetchDeploymentStatus c s) = logs s
  /\ error (fetchDeploymentStatus c s) = error s
  /\ projectRefreshed (fetchDeploymentStatus c s) = projectRefreshed s
  /\ pollingInterval (fetchDeploymentStatus c s) = pollingInterval s.
Proof.
  unfold fetchDeploymentStatus. destruct (pollingInterval s) eqn:Hp; cbn; repeat split;
    now rewrite Hp.
Qed.

Lemma step_status_lower (e : Event) (s : State) :
  Js.toLowerCase (deploymentStatus s) = deploymentStatus s ->
  Js.toLowerCase (deploymentStatus (step e s)) = deploymentStatus (step e s).
Proof.
  intros H. destruct e as [h| |req o|req o| |]; cbn [step].
  - destruct (Timers.lookupTimer h (timers s)); [|exact H].
    now rewrite (proj1 (fetchDeploymentStatus_shown _ s)).
  - now rewrite (proj1 (fetchDeploymentStatus_shown _ s)).
  - destruct (lookupReq req (statusInFlight s)) as [c|]; [|exact H].
    destruct (statusSettles_shown c o (set_statusInFlight (removeReq req (statusInFlight s)) s))
      as ([-> | [st ->]] & _); [exact H | apply ViewFacts.toLowerCase_idem].
  - destruct (lookupReq req (logsInFlight s)) as [st|]; [|exact H].
    now rewrite (proj1 (logsSettle_shown st o _)).
  - now rewrite (proj1 (adaptiveEffect_shown s)).
  - unfold cleanup. now rewrite (proj1 (stopPolling_shown s)).
Qed.

Lemma step_error_final (e : Event) (s : State) :
  Js.truthy (error s) = true -> pollingInterval s = None ->
  Js.truthy (error (step e s)) = true /\ pollingInterval (step e s) = None.
Proof.
  intros He Hp. destruct e as [h| |req o|req o| |]; cbn [step].
  - destruct (Timers.lookupTimer h (timers s)); [|now split].
    destruct (fetchDeploymentStatus_shown (Timers.callback t) s) as (_ & _ & -> & _ & ->).
    now split.
  - destruct (fetchDeploymentStatus_shown (closure s) s) as (_ & _ & -> & _ & ->).
    now split.
  - destruct (lookupReq req (statusInFlight s)) as [c|]; [|now split].
    destruct (statusSettles_shown c o (set_statusInFlight (removeReq req (statusInFlight s)) s))
      as (_ & _ & _ & H1 & H2). split; [apply H1, He | apply H2, Hp].
  - destruct (lookupReq req (logsInFlight s)) as [st|]; [|now split].
    destruct (logsSettle_shown st o (set_logsInFlight (removeReq req (logsInFlight s)) s))
      as (_ & H1 & H2). split; [apply H1, He | apply H2, Hp].
  - destruct (adaptiveEffect_shown s) as (_ & _ & -> & _ & H2). split; [exact He | apply H2, Hp].
  - unfold cleanup, stopPolling. rewrite Hp. now split.
Qed.

Lemma step_marker_hidden (e : Event) (s : State) :
  (projectRefreshed s = false -> hasDoneLog (logs s) = false) ->
  projectRefreshed (step e s) = false -> hasDoneLog (logs (step e s)) = false.
Proof.
  intros H. destruct e as [h| |req o|req o| |]; cbn [step].
  - destruct (Timers.lookupTimer h (timers s)); [|exact H].
    destruct (fetchDeploymentStatus_shown (Timers.callback t) s) as (_ & -> & _ & -> & _).
    exact H.
  - destruct (fetchDeploymentStatus_shown (closure s) s) as (_ & -> & _ & -> & _). exact H.
  - destruct (lookupReq req (statusInFlight s)) as [c|]; [|exact H].
    destruct (statusSettles_shown c o (set_statusInFlight (removeReq req (statusInFlight s)) s))
      as (_ & -> & -> & _). exact H.
  - destruct (lookupReq req (logsInFlight s)) as [st|]; [|exact H].
    set (s1 := set_logsInFlight _ s).
    assert (H1 : projectRefreshed s1 = false -> hasDoneLog (logs s1) = false) by exact H.
    clearbody s1. unfold logsSettle.
    destruct o as [r|err].
    2:{ destruct (onError_shown err s1) as (_ & -> & -> & _). exact H1. }
    destruct (negb (isSuccess r)).
    { destruct (onError_shown (newError (Net.message r) "Failed to fetch deployment logs") s1)
        as (_ & -> & -> & _). exact H1. }
    destruct (hasDoneLog (default [] (data r))) eqn:Hdone; cbn [andb].
    + destruct (projectRefreshed s1) eqn:Hr; cbn [negb].
      * cbn. rewrite Hr. discriminate.
      * destruct (onDone_shown st s1) as (_ & _ & _ & -> & _). discriminate.
    + intros _. exact Hdone.
  - destruct (adaptiveEffect_shown s) as (_ & -> & _ & -> & _). exact H.
  - unfold cleanup. destruct (stopPolling_shown s) as (_ & -> & _ & ->). exact H.
Qed.

End ModalViewFacts.

(** X15. The status the modal holds is always in lower case: it starts
    as "running" and is only ever replaced by the lower-cased status of a
    response. So the comparisons with "success" and "failure" that choose
    the badge, the status line and the "Close" button see a status
    reported as "SUCCESS" or "Failure" as well. *)
Theorem modal_status_lower_case
    (s : DeploymentModal.State) (es : list DeploymentModal.Event) :
  Js.toLowerCase (DeploymentModal.deploymentStatus s) = DeploymentModal.deploymentStatus s ->
  Js.toLowerCase (DeploymentModal.deploymentStatus (DeploymentModal.run es s))
  = DeploymentModal.deploymentStatus (DeploymentModal.run es s).
Proof.
  revert s. induction es as [|e es IH]; intros s H; [exact H|].
  cbn [DeploymentModal.run fold_left]. apply IH.
  now apply ModalViewFacts.step_status_lower.
Qed.

Lemma modal_status_lower_case_witness :
  DeploymentModal.deploymentStatus
    (DeploymentModal.run
       [DeploymentModal.Fire 1;
        DeploymentModal.SettleStatus 0 (DeploymentModal.statusReply "SUCCESS" None)]
       (DeploymentModal.polling 3000 (Some "d1") true))
  = "success"
  /\ DeploymentModalView.closeShown
       (DeploymentModal.deploymentStatus
          (DeploymentModal.run
             [DeploymentModal.Fire 1;
              DeploymentModal.SettleStatus 0 (DeploymentModal.statusReply "SUCCESS" None)]
             (DeploymentModal.polling 3000 (Some "d1") true)))
     = true
  /\ Js.toLowerCase
       (DeploymentModal.deploymentStatus
          (DeploymentModal.run
             [DeploymentModal.Fire 1;
              DeploymentModal.SettleStatus 0 (DeploymentModal.statusReply "SUCCESS" None)]
             (DeploymentModal.polling 3000 (Some "d1") true)))
     = DeploymentModal.deploymentStatus
         (DeploymentModal.run
            [DeploymentModal.Fire 1;
             DeploymentModal.SettleStatus 0 (DeploymentModal.statusReply "SUCCESS" None)]
            (DeploymentModal.polling 3000 (Some "d1") true)).
Proof.
  split; [reflexivity|]. split; [reflexivity|].
  apply (modal_status_lower_case (DeploymentModal.polling 3000 (Some "d1") true)).
  reflexivity.
Defined.

(** X16. The modal does not show the logs that complete it. While the
    completion has not been detected, the logs on display contain no
    "done" marker; the reply in which the marker is first found is not
    displayed at all: the logs stay those of the tick before. *)
Theorem modal_marker_logs_not_shown
    (s : DeploymentModal.State) (es : list DeploymentModal.Event)
    (req : nat) (o : DeploymentModal.LogsReply) (newStatus : string) :
  (DeploymentModal.projectRefreshed s = false ->
   Logs.hasDoneLog (DeploymentModal.logs s) = false) ->
  (DeploymentModal.projectRefreshed (DeploymentModal.run es s) = false ->
   Logs.hasDoneLog (DeploymentModal.logs (DeploymentModal.run es s)) = false)
  /\ (DeploymentModal.projectRefreshed (DeploymentModal.run es s) = false ->
      DeploymentModal.lookupReq req
        (DeploymentModal.logsInFlight (DeploymentModal.run es s)) = Some newStatus ->
      DeploymentModal.carriesMarker o = true ->
      DeploymentModal.logs
        (DeploymentModal.step (DeploymentModal.SettleLogs req o) (DeploymentModal.run es s))
      = DeploymentModal.logs (DeploymentModal.run es s)
      /\ DeploymentModal.projectRefreshed
           (DeploymentModal.step (DeploymentModal.SettleLogs req o) (DeploymentModal.run es s))
         = true).
Proof.
  intros H. split.
  - revert s H. induction es as [|e es IH]; intros s H; [exact H|].
    cbn [DeploymentModal.run fold_left]. apply IH.
    now apply ModalViewFacts.step_marker_hidden.
  - generalize (DeploymentModal.run es s). clear. intros s Hr Hreq Ho.
    cbn [DeploymentModal.step]. rewrite Hreq.
    unfold DeploymentModal.carriesMarker in Ho. destruct o as [r|err]; [|discriminate].
    apply andb_prop in Ho. destruct Ho as [Hs Hd].
    unfold DeploymentModal.logsSettle. rewrite Hs. cbn [negb].
    rewrite Hd. cbn [DeploymentModal.projectRefreshed DeploymentModal.set_logsInFlight].
    rewrite Hr. cbn [negb andb].
    destruct (ModalViewFacts.onDone_shown newStatus
                (DeploymentModal.set_logsInFlight
                   (DeploymentModal.removeReq req (DeploymentModal.logsInFlight s)) s))
      as (_ & -> & _ & -> & _).
    split; reflexivity.
Qed.

Lemma modal_marker_logs_not_shown_witness :
  DeploymentModal.logs
    (DeploymentModal.step (DeploymentModal.SettleLogs 3 DeploymentModal.doneReply)
       (DeploymentModal.run
          (DeploymentModal.quietTick 0
           ++ [DeploymentModal.Fire 1;
               DeploymentModal.SettleStatus 2 (DeploymentModal.statusReply "success" None)])
          (DeploymentModal.polling 3000 (Some "d1") true)))
  = [Logs.entry "Building..."]
  /\ DeploymentModal.projectRefreshed
       (DeploymentModal.step (DeploymentModal.SettleLogs 3 DeploymentModal.doneReply)
          (DeploymentModal.run
             (DeploymentModal.quietTick 0
              ++ [DeploymentModal.Fire 1;
                  DeploymentModal.SettleStatus 2 (DeploymentModal.statusReply "success" None)])
             (DeploymentModal.polling 3000 (Some "d1") true)))
     = true.
Proof.
  destruct (modal_marker_logs_not_shown
              (DeploymentModal.polling 3000 (Some "d1") true)
              (DeploymentModal.quietTick 0
               ++ [DeploymentModal.Fire 1;
                   DeploymentModal.SettleStatus 2 (DeploymentModal.statusReply "success" None)])
              3 DeploymentModal.doneReply "success") as [_ H].
  - intros _. reflexivity.
  - destruct H as [H1 H2]; [reflexivity | reflexivity | reflexivity |].
    split; [rewrite H1; reflexivity | exact H2].
Defined.

Module StartFacts.
Import Net DeploymentModalView.

(** Nothing moves a modal that was just mounted. *)
Lemma mount_step (d : option string) (cb : bool) (e : DeploymentModal.Event) :
  DeploymentModal.step e (DeploymentModal.mount d cb) = DeploymentModal.mount d cb.
Proof. destruct e; reflexivity. Qed.

Lemma callFetch_mount (d : option string) (cb : bool) (s : State) :
  modal s = DeploymentModal.mount d cb ->
  callFetch s = mkState (DeploymentModal.mount d cb) false Started (deploys s).
Proof. intros H. unfold callFetch. rewrite H. reflexivity. Qed.

(** The modal proper stays as mounted, and the posts are those of the
    start. *)
Lemma step_modal (d : option string) (cb : bool) (e : Event) (s : State) :
  modal s = DeploymentModal.mount d cb ->
  modal (step e s) = DeploymentModal.mount d cb /\ deploys (step e s) = deploys s.
Proof.
  intros H. destruct e as [o|e]; cbn [step].
  - unfold deploySettles. destruct (phase s); try (split; [exact H | reflexivity]).
    destruct (ProjectContext.succeeded o); [|split; [exact H | reflexivity]].
    rewrite (callFetch_mount d cb s H). split; reflexivity.
  - rewrite H, mount_step.
    destruct e as [h| |req o|req o| |]; try (split; [exact H | reflexivity]);
      destruct (phase s); try (split; reflexivity);
      rewrite andb_false_r; split; reflexivity.
Qed.

(** Once [startDeployment] has ended, one way or the other, the spinner
    flag is final. *)
Lemma step_ended (d : option string) (cb : bool) (e : Event) (s : State) :
  modal s = DeploymentModal.mount d cb ->
  phase s = Started \/ phase s = GaveUp ->
  phase (step e s) = phase s /\ isInitialLoading (step e s) = isInitialLoading s.
Proof.
  intros H Hph. destruct e as [o|e]; cbn [step].
  - unfold deploySettles.
    destruct Hph as [Hph | Hph]; rewrite Hph; split; reflexivity || exact Hph.
  - rewrite H, mount_step.
    destruct e as [h| |req o|req o| |]; try (split; reflexivity);
      destruct Hph as [Hph | Hph]; rewrite Hph; split; reflexivity || exact Hph.
Qed.

Lemma run_modal (d : option string) (cb : bool) (es : list Event) (s : State) :
  modal s = DeploymentModal.mount d cb ->
  modal (run es s) = DeploymentModal.mount d cb /\ deploys (run es s) = deploys s.
Proof.
  revert s. induction es as [|e es IH]; intros s H; [split; [exact H | reflexivity]|].
  cbn [run fold_left]. destruct (step_modal d cb e s H) as [H1 H2].
  destruct (IH _ H1) as [H3 H4]. split; [exact H3 | rewrite <- H2; exact H4].
Qed.

Lemma run_ended (d : option string) (cb : bool) (es : list Event) (s : State) :
  modal s = DeploymentModal.mount d cb ->
  phase s = Started \/ phase s = GaveUp ->
  phase (run es s) = phase s /\ isInitialLoading (run es s) = isInitialLoading s.
Proof.
  revert s. induction es as [|e es IH]; intros s H Hph; [split; reflexivity|].
  cbn [run fold_left]. destruct (step_ended d cb e s H Hph) as [H1 H2].
  destruct (step_modal d cb e s H) as [H3 _].
  destruct (IH (step e s) H3) as [H4 H5]; [rewrite H1; exact Hph|].
  split; [rewrite <- H1; exact H4 | rewrite <- H2; exact H5].
Qed.

(** What a modal that is still as mounted shows. *)
Lemma render_mount (d : option string) (cb : bool) (s : State) :
  modal s = DeploymentModal.mount d cb ->
  render s = if isInitialLoading s then Spinner else NoLogs.
Proof. intros H. unfold render. rewrite H. reflexivity. Qed.

(** Every transition of the modal as a whole is a transition of the modal
    proper, or leaves it alone. *)
Lemma step_of_modal (e : Event) (s : State) :
  modal (step e s) = modal s
  \/ exists e', modal (step e s) = DeploymentModal.step e' (modal s).
Proof.
  destruct e as [o|e]; cbn [step].
  - unfold deploySettles. destruct (phase s); try (now left).
    destruct (ProjectContext.succeeded o); [|now left].
    right. exists DeploymentModal.Invoke. unfold callFetch.
    destruct (DeploymentModal.pollingInterval (modal s)); reflexivity.
  - destruct e as [h| |req o|req o| |]; try (now left);
      right; eexists; destruct (phase s); try reflexivity;
      match goal with
      | |- context [if ?c then _ else _] => destruct c
      end; try reflexivity; unfold tickContinues;
      try match goal with
          | |- context [match ?c with Some _ => _ | None => _ end] => destruct c
          end; reflexivity.
Qed.

End StartFacts.

(** X17. As the modal is written it never polls. Whatever its props and
    whatever happens, the modal proper stays as it was mounted: no status
    or logs request is sent, no log and no error is shown, the status
    stays "running" (so there is no "Close" button) and [onComplete] is
    not called. It posts to [/deploy] exactly when it was given a project
    id but no deployment id and is neither a redeployment nor an initial
    deployment. The body shows "No logs available yet..." once the start
    has come through, and the spinner for good when the deploy request
    fails. *)
Theorem modal_never_polls
    (p : DeploymentModalView.Props) (es : list DeploymentModalView.Event) :
  let s := DeploymentModalView.run es (DeploymentModalView.start p) in
  DeploymentModalView.modal s
  = DeploymentModal.mount (DeploymentModalView.deploymentId p)
      (DeploymentModalView.onComplete p)
  /\ DeploymentModal.sent (DeploymentModalView.modal s) = []
  /\ DeploymentModal.onCompleteCalls (DeploymentModalView.modal s) = []
  /\ DeploymentModalView.closeShown
       (DeploymentModal.deploymentStatus (DeploymentModalView.modal s)) = false
  /\ DeploymentModalView.deploys s
     = (if DeploymentModalView.shouldStartNewDeployment p
        then [Js.or_default (DeploymentModalView.projectId p) ""] else [])
  /\ (DeploymentModalView.render s = DeploymentModalView.Spinner
      \/ DeploymentModalView.render s = DeploymentModalView.NoLogs)
  /\ (DeploymentModalView.shouldStartNewDeployment p = false ->
      DeploymentModalView.render s = DeploymentModalView.NoLogs)
  /\ (forall o es',
        DeploymentModalView.shouldStartNewDeployment p = true ->
        es = DeploymentModalView.DeploySettles o :: es' ->
        DeploymentModalView.render s
        = if ProjectContext.succeeded o
          then DeploymentModalView.NoLogs else DeploymentModalView.Spinner).
Proof.
  intros s.
  set (d := DeploymentModalView.deploymentId p).
  set (cb := DeploymentModalView.onComplete p).
  assert (H0 : DeploymentModalView.modal (DeploymentModalView.start p)
               = DeploymentModal.mount d cb
               /\ DeploymentModalView.deploys (DeploymentModalView.start p)
                  = (if DeploymentModalView.shouldStartNewDeployment p
                     then [Js.or_default (DeploymentModalView.projectId p) ""] else [])).
  { unfold DeploymentModalView.start.
    destruct (DeploymentModalView.shouldStartNewDeployment p); split; reflexivity. }
  destruct H0 as [Hm0 Hd0].
  destruct (StartFacts.run_modal d cb es _ Hm0) as [Hm Hd]. fold s in Hm, Hd.
  pose proof (StartFacts.render_mount d cb s Hm) as Hview.
  split; [exact Hm|]. rewrite Hm.
  split; [reflexivity|]. split; [reflexivity|]. split; [reflexivity|].
  split; [congruence|].
  split; [rewrite Hview; destruct (DeploymentModalView.isInitialLoading s); auto|].
  split.
  - intros Hno. rewrite Hview.
    assert (Hs : DeploymentModalView.phase (DeploymentModalView.start p)
                 = DeploymentModalView.Started
                 /\ DeploymentModalView.isInitialLoading (DeploymentModalView.start p)
                    = false).
    { unfold DeploymentModalView.start. rewrite Hno. split; reflexivity. }
    destruct Hs as [Hph Hl].
    destruct (StartFacts.run_ended d cb es _ Hm0 (or_introl Hph)) as [_ Hl'].
    fold s in Hl'. rewrite Hl', Hl. reflexivity.
  - intros o es' Hyes ->. rewrite Hview. subst s.
    cbn [DeploymentModalView.run fold_left].
    set (s1 := DeploymentModalView.step (DeploymentModalView.DeploySettles o)
                 (DeploymentModalView.start p)).
    assert (Hs1 : DeploymentModalView.modal s1 = DeploymentModal.mount d cb
                  /\ (DeploymentModalView.phase s1 = DeploymentModalView.Started
                      \/ DeploymentModalView.phase s1 = DeploymentModalView.GaveUp)
                  /\ DeploymentModalView.isInitialLoading s1
                     = negb (ProjectContext.succeeded o)).
    { subst s1. unfold DeploymentModalView.start. rewrite Hyes.
      cbn [DeploymentModalView.step]. unfold DeploymentModalView.deploySettles.
      cbn [DeploymentModalView.phase].
      destruct (ProjectContext.succeeded o); repeat split; auto. }
    destruct Hs1 as (Hm1 & Hph1 & Hl1).
    destruct (StartFacts.run_ended d cb es' s1 Hm1 Hph1) as [_ Hl'].
    change (fold_left (fun s e => DeploymentModalView.step e s) es' s1)
      with (DeploymentModalView.run es' s1).
    rewrite Hl', Hl1. destruct (ProjectContext.succeeded o); reflexivity.
Qed.

(** X18. An error ends the modal. Once an error is set and the interval
    is gone (which is how the [catch] block leaves the modal), the body
    shows an error box whatever follows, also when requests that were
    still in flight succeed, and no interval is created again. *)
Theorem modal_error_is_final
    (s : DeploymentModalView.State) (es : list DeploymentModalView.Event) :
  Js.truthy (DeploymentModal.error (DeploymentModalView.modal s)) = true ->
  DeploymentModal.pollingInterval (DeploymentModalView.modal s) = None ->
  (exists msg,
     DeploymentModalView.render (DeploymentModalView.run es s)
     = DeploymentModalView.ErrorBox msg)
  /\ DeploymentModal.pollingInterval
       (DeploymentModalView.modal (DeploymentModalView.run es s)) = None.
Proof.
  revert s. induction es as [|e es IH]; intros s He Hp.
  - split; [|exact Hp]. cbn [DeploymentModalView.run fold_left].
    unfold DeploymentModalView.render. rewrite He. eexists. reflexivity.
  - cbn [DeploymentModalView.run fold_left].
    destruct (StartFacts.step_of_modal e s) as [Heq | [e' Heq]].
    + apply IH; rewrite Heq; assumption.
    + destruct (ModalViewFacts.step_error_final e' _ He Hp) as [He' Hp'].
      apply IH; rewrite Heq; assumption.
Qed.

Lemma modal_error_is_final_witness :
  (exists msg,
     DeploymentModalView.render
       (DeploymentModalView.run
          [DeploymentModalView.Modal
             (DeploymentModal.SettleLogs 1 (DeploymentModal.logsReply ["Building..."]))]
          (DeploymentModalView.mkState
             (DeploymentModal.run
                [DeploymentModal.Fire 1;
                 DeploymentModal.SettleStatus 0 (DeploymentModal.statusReply "running" None);
                 DeploymentModal.Fire 1;
                 DeploymentModal.SettleStatus 2 (Net.Failure DeploymentModal.networkError)]
                (DeploymentModal.polling 3000 (Some "d1") true))
             false DeploymentModalView.Started []))
     = DeploymentModalView.ErrorBox msg)
  /\ DeploymentModal.logs
       (DeploymentModalView.modal
          (DeploymentModalView.run
             [DeploymentModalView.Modal
                (DeploymentModal.SettleLogs 1 (DeploymentModal.logsReply ["Building..."]))]
             (DeploymentModalView.mkState
                (DeploymentModal.run
                   [DeploymentModal.Fire 1;
                    DeploymentModal.SettleStatus 0
                      (DeploymentModal.statusReply "running" None);
                    DeploymentModal.Fire 1;
                    DeploymentModal.SettleStatus 2
                      (Net.Failure DeploymentModal.networkError)]
                   (DeploymentModal.polling 3000 (Some "d1") true))
                false DeploymentModalView.Started [])))
     = [Logs.entry "Building..."].
Proof.
  split; [|reflexivity].
  apply (modal_error_is_final
           (DeploymentModalView.mkState
              (DeploymentModal.run
                 [DeploymentModal.Fire 1;
                  DeploymentModal.SettleStatus 0 (DeploymentModal.statusReply "running" None);
                  DeploymentModal.Fire 1;
                  DeploymentModal.SettleStatus 2 (Net.Failure DeploymentModal.networkError)]
                 (DeploymentModal.polling 3000 (Some "d1") true))
              false DeploymentModalView.Started [])
           [DeploymentModalView.Modal
              (DeploymentModal.SettleLogs 1 (DeploymentModal.logsReply ["Building..."]))]);
    reflexivity.
Defined.

(** * The project page *)

Module PageFacts.
Import Net ProjectDetails.

(** The lock is held exactly while a load is in flight. *)
Lemma step_lock (e : Event) (s : State) :
  loadsInFlight s = (if loadingLockRef s then 1 else 0) ->
  loadsInFlight (step e s) = (if loadingLockRef (step e s) then 1 else 0)
  /\ loadCalls (step e s) <= S (loadCalls s)
  /\ (loadingLockRef s = true -> loadCalls (step e s) = loadCalls s).
Proof.
  intros H. destruct e as [|r|confirmed|r]; cbn [step].
  - unfold loadEffect.
    destruct (loadingLockRef s) eqn:Hl; [|destruct (isDeleted s)];
      cbn; rewrite ?Hl; repeat split; intros; first [lia | discriminate].
  - destruct (loadsInFlight s =? 0)%nat eqn:Hz; [repeat split; intros; lia|].
    apply Nat.eqb_neq in Hz. unfold loadSettles.
    destruct r as [v|err]; cbn; destruct (loadingLockRef s);
      repeat split; intros; lia.
  - unfold handleDeleteProject.
    destruct confirmed; cbn; repeat split; intros; lia.
  - destruct (deletesInFlight s =? 0)%nat; [repeat split; intros; lia|].
    unfold deleteSettles. destruct r as [v|err]; cbn; repeat split; intros; lia.
Qed.

Lemma run_lock (es : list Event) (s : State) :
  loadsInFlight s = (if loadingLockRef s then 1 else 0) ->
  loadsInFlight (run es s) = (if loadingLockRef (run es s) then 1 else 0).
Proof.
  revert s. induction es as [|e es IH]; intros s H; [exact H|].
  cbn [run fold_left]. apply IH. apply (step_lock e s H).
Qed.

(** After a confirmed deletion the page neither loads nor stores. *)
Lemma step_deleted (e : Event) (s : State) :
  isDeleted s = true ->
  isDeleted (step e s) = true
  /\ loadCalls (step e s) = loadCalls s
  /\ project (step e s) = project s.
Proof.
  intros H. destruct e as [|r|confirmed|r]; cbn [step].
  - unfold loadEffect. rewrite H. destruct (loadingLockRef s); repeat split; exact H.
  - destruct (loadsInFlight s =? 0)%nat; [repeat split; exact H|].
    unfold loadSettles. rewrite H. destruct r as [v|err]; repeat split; exact H.
  - unfold handleDeleteProject. destruct confirmed; repeat split; exact H.
  - destruct (deletesInFlight s =? 0)%nat; [repeat split; exact H|].
    unfold deleteSettles. destruct r as [v|err]; repeat split; exact H.
Qed.

Lemma run_deleted (es : list Event) (s : State) :
  isDeleted s = true ->
  isDeleted (run es s) = true
  /\ loadCalls (run es s) = loadCalls s
  /\ project (run es s) = project s.
Proof.
  revert s. induction es as [|e es IH]; intros s H; [repeat split; exact H|].
  cbn [run fold_left]. destruct (step_deleted e s H) as (H1 & H2 & H3).
  destruct (IH _ H1) as (H4 & H5 & H6).
  repeat split; [exact H4 | rewrite <- H2; exact H5 | rewrite <- H3; exact H6].
Qed.

End PageFacts.

(** X19. The loading lock of the project page lets one load through at a
    time. In every state the page reaches, at most one call of
    [getProjectById] made by [loadProject] is in flight, the lock is held
    exactly while it is, and a run of the effect while the lock is held
    calls nothing. *)
Theorem loadProject_one_at_a_time (es : list ProjectDetails.Event) :
  let s := ProjectDetails.run es ProjectDetails.initial in
  ProjectDetails.loadsInFlight s <= 1
  /\ (ProjectDetails.loadingLockRef s = true <-> ProjectDetails.loadsInFlight s = 1)
  /\ (ProjectDetails.loadingLockRef s = true ->
      ProjectDetails.step ProjectDetails.LoadEffect s = s)
  /\ (ProjectDetails.loadingLockRef s = false -> ProjectDetails.isDeleted s = false ->
      ProjectDetails.loadCalls (ProjectDetails.step ProjectDetails.LoadEffect s)
      = S (ProjectDetails.loadCalls s)
      /\ ProjectDetails.isLoading (ProjectDetails.step ProjectDetails.LoadEffect s) = true).
Proof.
  intros s.
  pose proof (PageFacts.run_lock es ProjectDetails.initial eq_refl) as H. fold s in H.
  split; [rewrite H; destruct (ProjectDetails.loadingLockRef s); lia|].
  split; [rewrite H; destruct (ProjectDetails.loadingLockRef s); split;
          congruence || discriminate|].
  split.
  - intros Hl. cbn [ProjectDetails.step]. unfold ProjectDetails.loadEffect.
    rewrite Hl. reflexivity.
  - intros Hl Hd. cbn [ProjectDetails.step]. unfold ProjectDetails.loadEffect.
    rewrite Hl, Hd. split; reflexivity.
Qed.

(** X20. A confirmed deletion switches the loading off for good. From the
    moment the user confirms, and also when the deletion then fails,
    [loadProject] makes no further call and a load that was in flight
    does not store its result; the page leaves for the dashboard only
    when the deletion succeeds. *)
Theorem deleted_page_never_loads
    (s : ProjectDetails.State) (es : list ProjectDetails.Event) :
  let s1 := ProjectDetails.step (ProjectDetails.DeleteClicked true) s in
  let s' := ProjectDetails.run es s1 in
  ProjectDetails.isDeleted s' = true
  /\ ProjectDetails.loadCalls s' = ProjectDetails.loadCalls s
  /\ (forall r,
        ProjectDetails.project (ProjectDetails.loadSettles r s') = ProjectDetails.project s')
  /\ ProjectDetails.deleteCalls s1 = S (ProjectDetails.deleteCalls s)
  /\ (forall err,
        ProjectDetails.navigations
          (ProjectDetails.step (ProjectDetails.DeleteSettles (Net.Rejected err)) s1)
        = ProjectDetails.navigations s
        /\ Js.truthy
             (ProjectDetails.error
                (ProjectDetails.step (ProjectDetails.DeleteSettles (Net.Rejected err)) s1))
           = true)
  /\ (forall v,
        ProjectDetails.navigations
          (ProjectDetails.step (ProjectDetails.DeleteSettles (Net.Resolved v)) s1)
        = ProjectDetails.navigations s ++ ["/dashboard"]).
Proof.
  intros s1 s'.
  destruct (PageFacts.run_deleted es s1 eq_refl) as (H1 & H2 & H3).
  split; [exact H1|]. split; [exact H2|].
  split; [intros r; subst s'; unfold ProjectDetails.loadSettles; rewrite H1;
          destruct r; reflexivity|].
  split; [reflexivity|].
  split.
  - intros err. split; [reflexivity|]. cbn.
    destruct (Net.err_message err) as [m|]; cbn; [|reflexivity].
    destruct (String.eqb_spec m ""); cbn; [reflexivity|].
    now apply negb_true_iff, String.eqb_neq.
  - intros v. reflexivity.
Qed.

(** X21. On the project page the viewer always has something to poll.
    The log section mounts a viewer exactly when the deployment id of
    the URL or the id of the project's latest deployment is truthy, the
    URL's id taking precedence; the viewer it mounts has sent its first
    request and holds one interval of 5000 ms. *)
Theorem page_viewer_polls
    (urlDeploymentId : option string) (project : option ProjectContext.Project)
    (projectId : string) (ctx : ProjectContext.State) :
  match ProjectDetails.logSection urlDeploymentId project projectId ctx with
  | Some v =>
      Js.truthy (LogViewer.deploymentId v) = true
      /\ LogViewer.deploymentId v
         = ProjectDetails.shownDeploymentId urlDeploymentId project
      /\ (Js.truthy urlDeploymentId = true -> LogViewer.deploymentId v = urlDeploymentId)
      /\ LogViewer.projectId v = Some projectId
      /\ LogViewer.sent v = 1
      /\ LogViewer.inFlight v = [0]
      /\ LogViewer.periods v = [5000%N]
      /\ LogViewerView.render v = LogViewerView.Spinner
  | None =>
      Js.truthy urlDeploymentId = false
      /\ forall p d0 rest,
           project = Some p ->
           ProjectContext.prj_deployments p = Some (d0 :: rest) ->
           Js.truthy (ProjectContext.dep_id d0) = false
  end.
Proof.
  unfold ProjectDetails.logSection.
  destruct (Js.truthy (ProjectDetails.shownDeploymentId urlDeploymentId project)) eqn:Ht.
  - unfold LogViewer.mount. rewrite Ht. cbn.
    repeat split; try exact Ht.
    intros Hu. unfold ProjectDetails.shownDeploymentId, Js.or_else. now rewrite Hu.
  - unfold ProjectDetails.shownDeploymentId, Js.or_else in Ht.
    destruct (Js.truthy urlDeploymentId) eqn:Hu; [congruence|].
    split; [reflexivity|]. intros p d0 rest -> Hd. now rewrite Hd in Ht.
Qed.

(** X22. The form of a new project leaves for the project page exactly
    when [createProject] came through. When both requests succeed it
    navigates once, to the page of the created project with the
    deployment id in the query, and one project is added to the cache;
    when either fails it stays, shows a non-empty error, and the cache is
    as before. Its loading flag is cleared in every case. *)
Theorem deployForm_navigates_when_created
    (formData : Deployments.FormData) (now : string)
    (o1 : Net.Reply ProjectContext.Project) (o2 : Net.Reply (option string))
    (w : Deployments.World) (s : DeployForm.State) :
  let w' := fst (DeployForm.handleSubmit_run formData now o1 o2 w s) in
  let s' := snd (DeployForm.handleSubmit_run formData now o1 o2 w s) in
  DeployForm.isLoading s' = false
  /\ (forall r1 r2 d,
        o1 = Net.Response r1 -> o2 = Net.Response r2 ->
        Net.isSuccess r1 = true -> Net.isSuccess r2 = true ->
        Net.data r2 = Some d ->
        DeployForm.navigations s'
        = DeployForm.navigations s
          ++ [String.append "/project/"
                (String.append (ProjectContext.prj_id (Net.data r1))
                   (String.append "?deploymentId=" d))]
        /\ DeployForm.error s' = ""
        /\ ProjectContext.projects (Deployments.provider w')
           = ProjectContext.projects (Deployments.provider w)
             ++ [Deployments.projectWithStatus (Net.data r1) (Some d) now])
  /\ (ProjectContext.succeeded o1 && ProjectContext.succeeded o2 = false ->
      DeployForm.navigations s' = DeployForm.navigations s
      /\ DeployForm.error s' <> ""
      /\ ProjectContext.projects (Deployments.provider w')
         = ProjectContext.projects (Deployments.provider w)).
Proof.
  assert (Hne : forall m d, d <> "" -> Js.or_default m d <> "").
  { intros m d Hd. destruct m as [x|]; cbn; [|exact Hd].
    destruct (String.eqb_spec x ""); [exact Hd | assumption]. }
  unfold DeployForm.handleSubmit_run, Deployments.createProject_run,
    Deployments.createProject_created, Deployments.createProject_deployed,
    Deployments.thrown.
  destruct o1 as [r1|e1]; [destruct (Net.isSuccess r1) eqn:H1|];
    [destruct o2 as [r2|e2]; [destruct (Net.isSuccess r2) eqn:H2|]| |];
    cbn; (split; [reflexivity|]); split;
    try (intros ? ? ? ? ? ? ? ?; congruence);
    try (intros Hf; rewrite ?H1, ?H2 in Hf; discriminate Hf);
    try (intros _; repeat split; try reflexivity;
         first [apply Hne; discriminate
               | match goal with
                 | |- (if String.eqb ?x "" then _ else _) <> "" =>
                     destruct (String.eqb_spec x ""); [discriminate | assumption]
                 end]).
  intros r1' r2' d [= <-] [= <-] _ _ Hd. rewrite Hd. repeat split.
Qed.
